(** * Manga download bot: the bulk-download and archive-packaging pipeline

    A shallow embedding of [src/tbot.py] (the chat bot: [MangaAPI],
    [download_action], [archive_worker]) and of the [MangaAPI] class of
    [src/MangaReader.py] (the desktop viewer), with the properties the
    specification states about them.

    Layout:
    - [PyStr]: the Python string operations the code uses;
    - [Client]: the HTTP content client ([MangaAPI]) of both programs, over a
      model of the [requests] calls and of the JSON they return;
    - [Worker]: [download_action] and [archive_worker], in a small state and
      exception monad over the remote service, the chat and the file system;
    - [PyStrExt], [ClientExt], [WorkerExt]: what the further properties of
      these three need;
    - [PyList], [Handlers]: the chat bot's keyboards
      ([build_chapter_keyboard]) and what its callback handlers read off the
      data of a button;
    - [Reader]: the viewer's reader tab ([load_page], [prev_page],
      [next_page], [display_chapter], [save_progress]) and the thread of
      [download_manga].

    The definitions come first, then the proofs, module by module. *)

From Stdlib Require Import List String Ascii ZArith Lia Bool Arith PeanoNat.
From Stdlib Require Import QArith Qminmax.
From Stdlib Require Import Sorted Permutation.
From Stdlib Require DecimalString DecimalZ DecimalPos.
Import ListNotations.

Set Warnings "-register-all".

Local Open Scope string_scope.
Local Open Scope nat_scope.

(* ===================================================================== *)
(** * Python strings *)
(* ===================================================================== *)

Module PyStr.

(** A Python [str] is kept as the bytes of its UTF-8 encoding, so that a
    string literal of this file is the string Python has.  Comparing,
    searching and joining strings go byte by byte as they go character by
    character in Python; what looks at single characters ([for c in s],
    [str.isalnum], [str.isspace], [str.rstrip], a slice) goes by code
    point, as below. *)

Definition byte (c : ascii) : N := N_of_ascii c.

(** A byte [10xxxxxx], which continues a character. *)
Definition continues (c : ascii) : bool :=
  ((128 <=? byte c) && (byte c <? 192))%N.

(** The number of bytes that follow the first byte [c] of a character. *)
Definition followers (c : ascii) : nat :=
  let n := byte c in
  if (n <? 192)%N then 0
  else if (n <? 224)%N then 1
  else if (n <? 240)%N then 2
  else if (n <? 248)%N then 3
  else 0.

(** ["".join(l)] *)
Fixpoint join (l : list string) : string :=
  match l with
  | [] => EmptyString
  | x :: l' => x ++ join l'
  end.

(** The first [pending] bytes of [s], which end the character begun before
    it, and the characters of what follows them. *)
Fixpoint split_chars (pending : nat) (s : string) : string * list string :=
  match s with
  | EmptyString => (EmptyString, [])
  | String c s' =>
      match pending with
      | S p => let (cur, rest) := split_chars p s' in (String c cur, rest)
      | O => let (cur, rest) := split_chars (followers c) s' in
             (EmptyString, String c cur :: rest)
      end
  end.

(** The characters of a string, each as its bytes ([for c in s]). *)
Definition chars (s : string) : list string := snd (split_chars 0 s).

(** [ord(c)] of a character given as its bytes; [None] for bytes that
    encode no code point. *)
Definition code (ch : string) : option N :=
  match ch with
  | String a EmptyString =>
      if (byte a <? 128)%N then Some (byte a) else None
  | String a (String b EmptyString) =>
      if ((192 <=? byte a) && (byte a <? 224))%N && continues b
      then let cp := ((byte a - 192) * 64 + (byte b - 128))%N in
           if (128 <=? cp)%N then Some cp else None
      else None
  | String a (String b (String c EmptyString)) =>
      if ((224 <=? byte a) && (byte a <? 240))%N && continues b && continues c
      then let cp := ((byte a - 224) * 4096 + (byte b - 128) * 64 + (byte c - 128))%N in
           if (2048 <=? cp)%N then Some cp else None
      else None
  | String a (String b (String c (String d EmptyString))) =>
      if ((240 <=? byte a) && (byte a <? 248))%N
         && continues b && continues c && continues d
      then let cp := ((byte a - 240) * 262144 + (byte b - 128) * 4096
                      + (byte c - 128) * 64 + (byte d - 128))%N in
           if ((65536 <=? cp) && (cp <=? 1114111))%N then Some cp else None
      else None
  | _ => None
  end.

Definition in_ranges (cp : N) (ranges : list (N * N)) : bool :=
  existsb (fun r => ((fst r <=? cp) && (cp <=? snd r))%N) ranges.

(** The code points of which [str.isalnum] is true (letters, decimal
    digits, and the other digits and numbers), as ranges, by the character
    database of Unicode 14.0 that CPython 3.11 carries. *)
Definition alnum_ranges : list (N * N) :=
  [
   (48, 57); (65, 90); (97, 122); (170, 170); (178, 179); (181, 181);
   (185, 186); (188, 190); (192, 214); (216, 246); (248, 705); (710, 721);
   (736, 740); (748, 748); (750, 750); (880, 884); (886, 887); (890, 893);
   (895, 895); (902, 902); (904, 906); (908, 908); (910, 929); (931, 1013);
   (1015, 1153); (1162, 1327); (1329, 1366); (1369, 1369); (1376, 1416); (1488, 1514);
   (1519, 1522); (1568, 1610); (1632, 1641); (1646, 1647); (1649, 1747); (1749, 1749);
   (1765, 1766); (1774, 1788); (1791, 1791); (1808, 1808); (1810, 1839); (1869, 1957);
   (1969, 1969); (1984, 2026); (2036, 2037); (2042, 2042); (2048, 2069); (2074, 2074);
   (2084, 2084); (2088, 2088); (2112, 2136); (2144, 2154); (2160, 2183); (2185, 2190);
   (2208, 2249); (2308, 2361); (2365, 2365); (2384, 2384); (2392, 2401); (2406, 2415);
   (2417, 2432); (2437, 2444); (2447, 2448); (2451, 2472); (2474, 2480); (2482, 2482);
   (2486, 2489); (2493, 2493); (2510, 2510); (2524, 2525); (2527, 2529); (2534, 2545);
   (2548, 2553); (2556, 2556); (2565, 2570); (2575, 2576); (2579, 2600); (2602, 2608);
   (2610, 2611); (2613, 2614); (2616, 2617); (2649, 2652); (2654, 2654); (2662, 2671);
   (2674, 2676); (2693, 2701); (2703, 2705); (2707, 2728); (2730, 2736); (2738, 2739);
   (2741, 2745); (2749, 2749); (2768, 2768); (2784, 2785); (2790, 2799); (2809, 2809);
   (2821, 2828); (2831, 2832); (2835, 2856); (2858, 2864); (2866, 2867); (2869, 2873);
   (2877, 2877); (2908, 2909); (2911, 2913); (2918, 2927); (2929, 2935); (2947, 2947);
   (2949, 2954); (2958, 2960); (2962, 2965); (2969, 2970); (2972, 2972); (2974, 2975);
   (2979, 2980); (2984, 2986); (2990, 3001); (3024, 3024); (3046, 3058); (3077, 3084);
   (3086, 3088); (3090, 3112); (3114, 3129); (3133, 3133); (3160, 3162); (3165, 3165);
   (3168, 3169); (3174, 3183); (3192, 3198); (3200, 3200); (3205, 3212); (3214, 3216);
   (3218, 3240); (3242, 3251); (3253, 3257); (3261, 3261); (3293, 3294); (3296, 3297);
   (3302, 3311); (3313, 3314); (3332, 3340); (3342, 3344); (3346, 3386); (3389, 3389);
   (3406, 3406); (3412, 3414); (3416, 3425); (3430, 3448); (3450, 3455); (3461, 3478);
   (3482, 3505); (3507, 3515); (3517, 3517); (3520, 3526); (3558, 3567); (3585, 3632);
   (3634, 3635); (3648, 3654); (3664, 3673); (3713, 3714); (3716, 3716); (3718, 3722);
   (3724, 3747); (3749, 3749); (3751, 3760); (3762, 3763); (3773, 3773); (3776, 3780);
   (3782, 3782); (3792, 3801); (3804, 3807); (3840, 3840); (3872, 3891); (3904, 3911);
   (3913, 3948); (3976, 3980); (4096, 4138); (4159, 4169); (4176, 4181); (4186, 4189);
   (4193, 4193); (4197, 4198); (4206, 4208); (4213, 4225); (4238, 4238); (4240, 4249);
   (4256, 4293); (4295, 4295); (4301, 4301); (4304, 4346); (4348, 4680); (4682, 4685);
   (4688, 4694); (4696, 4696); (4698, 4701); (4704, 4744); (4746, 4749); (4752, 4784);
   (4786, 4789); (4792, 4798); (4800, 4800); (4802, 4805); (4808, 4822); (4824, 4880);
   (4882, 4885); (4888, 4954); (4969, 4988); (4992, 5007); (5024, 5109); (5112, 5117);
   (5121, 5740); (5743, 5759); (5761, 5786); (5792, 5866); (5870, 5880); (5888, 5905);
   (5919, 5937); (5952, 5969); (5984, 5996); (5998, 6000); (6016, 6067); (6103, 6103);
   (6108, 6108); (6112, 6121); (6128, 6137); (6160, 6169); (6176, 6264); (6272, 6276);
   (6279, 6312); (6314, 6314); (6320, 6389); (6400, 6430); (6470, 6509); (6512, 6516);
   (6528, 6571); (6576, 6601); (6608, 6618); (6656, 6678); (6688, 6740); (6784, 6793);
   (6800, 6809); (6823, 6823); (6917, 6963); (6981, 6988); (6992, 7001); (7043, 7072);
   (7086, 7141); (7168, 7203); (7232, 7241); (7245, 7293); (7296, 7304); (7312, 7354);
   (7357, 7359); (7401, 7404); (7406, 7411); (7413, 7414); (7418, 7418); (7424, 7615);
   (7680, 7957); (7960, 7965); (7968, 8005); (8008, 8013); (8016, 8023); (8025, 8025);
   (8027, 8027); (8029, 8029); (8031, 8061); (8064, 8116); (8118, 8124); (8126, 8126);
   (8130, 8132); (8134, 8140); (8144, 8147); (8150, 8155); (8160, 8172); (8178, 8180);
   (8182, 8188); (8304, 8305); (8308, 8313); (8319, 8329); (8336, 8348); (8450, 8450);
   (8455, 8455); (8458, 8467); (8469, 8469); (8473, 8477); (8484, 8484); (8486, 8486);
   (8488, 8488); (8490, 8493); (8495, 8505); (8508, 8511); (8517, 8521); (8526, 8526);
   (8528, 8585); (9312, 9371); (9450, 9471); (10102, 10131); (11264, 11492); (11499, 11502);
   (11506, 11507); (11517, 11517); (11520, 11557); (11559, 11559); (11565, 11565); (11568, 11623);
   (11631, 11631); (11648, 11670); (11680, 11686); (11688, 11694); (11696, 11702); (11704, 11710);
   (11712, 11718); (11720, 11726); (11728, 11734); (11736, 11742); (11823, 11823); (12293, 12295);
   (12321, 12329); (12337, 12341); (12344, 12348); (12353, 12438); (12445, 12447); (12449, 12538);
   (12540, 12543); (12549, 12591); (12593, 12686); (12690, 12693); (12704, 12735); (12784, 12799);
   (12832, 12841); (12872, 12879); (12881, 12895); (12928, 12937); (12977, 12991); (13312, 19903);
   (19968, 42124); (42192, 42237); (42240, 42508); (42512, 42539); (42560, 42606); (42623, 42653);
   (42656, 42735); (42775, 42783); (42786, 42888); (42891, 42954); (42960, 42961); (42963, 42963);
   (42965, 42969); (42994, 43009); (43011, 43013); (43015, 43018); (43020, 43042); (43056, 43061);
   (43072, 43123); (43138, 43187); (43216, 43225); (43250, 43255); (43259, 43259); (43261, 43262);
   (43264, 43301); (43312, 43334); (43360, 43388); (43396, 43442); (43471, 43481); (43488, 43492);
   (43494, 43518); (43520, 43560); (43584, 43586); (43588, 43595); (43600, 43609); (43616, 43638);
   (43642, 43642); (43646, 43695); (43697, 43697); (43701, 43702); (43705, 43709); (43712, 43712);
   (43714, 43714); (43739, 43741); (43744, 43754); (43762, 43764); (43777, 43782); (43785, 43790);
   (43793, 43798); (43808, 43814); (43816, 43822); (43824, 43866); (43868, 43881); (43888, 44002);
   (44016, 44025); (44032, 55203); (55216, 55238); (55243, 55291); (63744, 64109); (64112, 64217);
   (64256, 64262); (64275, 64279); (64285, 64285); (64287, 64296); (64298, 64310); (64312, 64316);
   (64318, 64318); (64320, 64321); (64323, 64324); (64326, 64433); (64467, 64829); (64848, 64911);
   (64914, 64967); (65008, 65019); (65136, 65140); (65142, 65276); (65296, 65305); (65313, 65338);
   (65345, 65370); (65382, 65470); (65474, 65479); (65482, 65487); (65490, 65495); (65498, 65500);
   (65536, 65547); (65549, 65574); (65576, 65594); (65596, 65597); (65599, 65613); (65616, 65629);
   (65664, 65786); (65799, 65843); (65856, 65912); (65930, 65931); (66176, 66204); (66208, 66256);
   (66273, 66299); (66304, 66339); (66349, 66378); (66384, 66421); (66432, 66461); (66464, 66499);
   (66504, 66511); (66513, 66517); (66560, 66717); (66720, 66729); (66736, 66771); (66776, 66811);
   (66816, 66855); (66864, 66915); (66928, 66938); (66940, 66954); (66956, 66962); (66964, 66965);
   (66967, 66977); (66979, 66993); (66995, 67001); (67003, 67004); (67072, 67382); (67392, 67413);
   (67424, 67431); (67456, 67461); (67463, 67504); (67506, 67514); (67584, 67589); (67592, 67592);
   (67594, 67637); (67639, 67640); (67644, 67644); (67647, 67669); (67672, 67702); (67705, 67742);
   (67751, 67759); (67808, 67826); (67828, 67829); (67835, 67867); (67872, 67897); (67968, 68023);
   (68028, 68047); (68050, 68096); (68112, 68115); (68117, 68119); (68121, 68149); (68160, 68168);
   (68192, 68222); (68224, 68255); (68288, 68295); (68297, 68324); (68331, 68335); (68352, 68405);
   (68416, 68437); (68440, 68466); (68472, 68497); (68521, 68527); (68608, 68680); (68736, 68786);
   (68800, 68850); (68858, 68899); (68912, 68921); (69216, 69246); (69248, 69289); (69296, 69297);
   (69376, 69415); (69424, 69445); (69457, 69460); (69488, 69505); (69552, 69579); (69600, 69622);
   (69635, 69687); (69714, 69743); (69745, 69746); (69749, 69749); (69763, 69807); (69840, 69864);
   (69872, 69881); (69891, 69926); (69942, 69951); (69956, 69956); (69959, 69959); (69968, 70002);
   (70006, 70006); (70019, 70066); (70081, 70084); (70096, 70106); (70108, 70108); (70113, 70132);
   (70144, 70161); (70163, 70187); (70272, 70278); (70280, 70280); (70282, 70285); (70287, 70301);
   (70303, 70312); (70320, 70366); (70384, 70393); (70405, 70412); (70415, 70416); (70419, 70440);
   (70442, 70448); (70450, 70451); (70453, 70457); (70461, 70461); (70480, 70480); (70493, 70497);
   (70656, 70708); (70727, 70730); (70736, 70745); (70751, 70753); (70784, 70831); (70852, 70853);
   (70855, 70855); (70864, 70873); (71040, 71086); (71128, 71131); (71168, 71215); (71236, 71236);
   (71248, 71257); (71296, 71338); (71352, 71352); (71360, 71369); (71424, 71450); (71472, 71483);
   (71488, 71494); (71680, 71723); (71840, 71922); (71935, 71942); (71945, 71945); (71948, 71955);
   (71957, 71958); (71960, 71983); (71999, 71999); (72001, 72001); (72016, 72025); (72096, 72103);
   (72106, 72144); (72161, 72161); (72163, 72163); (72192, 72192); (72203, 72242); (72250, 72250);
   (72272, 72272); (72284, 72329); (72349, 72349); (72368, 72440); (72704, 72712); (72714, 72750);
   (72768, 72768); (72784, 72812); (72818, 72847); (72960, 72966); (72968, 72969); (72971, 73008);
   (73030, 73030); (73040, 73049); (73056, 73061); (73063, 73064); (73066, 73097); (73112, 73112);
   (73120, 73129); (73440, 73458); (73648, 73648); (73664, 73684); (73728, 74649); (74752, 74862);
   (74880, 75075); (77712, 77808); (77824, 78894); (82944, 83526); (92160, 92728); (92736, 92766);
   (92768, 92777); (92784, 92862); (92864, 92873); (92880, 92909); (92928, 92975); (92992, 92995);
   (93008, 93017); (93019, 93025); (93027, 93047); (93053, 93071); (93760, 93846); (93952, 94026);
   (94032, 94032); (94099, 94111); (94176, 94177); (94179, 94179); (94208, 100343); (100352, 101589);
   (101632, 101640); (110576, 110579); (110581, 110587); (110589, 110590); (110592, 110882); (110928, 110930);
   (110948, 110951); (110960, 111355); (113664, 113770); (113776, 113788); (113792, 113800); (113808, 113817);
   (119520, 119539); (119648, 119672); (119808, 119892); (119894, 119964); (119966, 119967); (119970, 119970);
   (119973, 119974); (119977, 119980); (119982, 119993); (119995, 119995); (119997, 120003); (120005, 120069);
   (120071, 120074); (120077, 120084); (120086, 120092); (120094, 120121); (120123, 120126); (120128, 120132);
   (120134, 120134); (120138, 120144); (120146, 120485); (120488, 120512); (120514, 120538); (120540, 120570);
   (120572, 120596); (120598, 120628); (120630, 120654); (120656, 120686); (120688, 120712); (120714, 120744);
   (120746, 120770); (120772, 120779); (120782, 120831); (122624, 122654); (123136, 123180); (123191, 123197);
   (123200, 123209); (123214, 123214); (123536, 123565); (123584, 123627); (123632, 123641); (124896, 124902);
   (124904, 124907); (124909, 124910); (124912, 124926); (124928, 125124); (125127, 125135); (125184, 125251);
   (125259, 125259); (125264, 125273); (126065, 126123); (126125, 126127); (126129, 126132); (126209, 126253);
   (126255, 126269); (126464, 126467); (126469, 126495); (126497, 126498); (126500, 126500); (126503, 126503);
   (126505, 126514); (126516, 126519); (126521, 126521); (126523, 126523); (126530, 126530); (126535, 126535);
   (126537, 126537); (126539, 126539); (126541, 126543); (126545, 126546); (126548, 126548); (126551, 126551);
   (126553, 126553); (126555, 126555); (126557, 126557); (126559, 126559); (126561, 126562); (126564, 126564);
   (126567, 126570); (126572, 126578); (126580, 126583); (126585, 126588); (126590, 126590); (126592, 126601);
   (126603, 126619); (126625, 126627); (126629, 126633); (126635, 126651); (127232, 127244); (130032, 130041);
   (131072, 173791); (173824, 177976); (177984, 178205); (178208, 183969); (183984, 191456); (194560, 195101);
   (196608, 201546)
  ]%N.

(** The code points of which [str.isspace] is true. *)
Definition space_ranges : list (N * N) :=
  [(9, 13); (28, 32); (133, 133); (160, 160); (5760, 5760); (8192, 8202);
   (8232, 8233); (8239, 8239); (8287, 8287); (12288, 12288)]%N.

(** [c.isalnum()] and [c.isspace()] for a character [c]. *)
Definition isalnum (c : string) : bool :=
  match code c with
  | Some cp => in_ranges cp alnum_ranges
  | None => false
  end.

Definition isspace (c : string) : bool :=
  match code c with
  | Some cp => in_ranges cp space_ranges
  | None => false
  end.

Fixpoint all (f : ascii -> bool) (s : string) : bool :=
  match s with
  | EmptyString => true
  | String c s' => f c && all f s'
  end.

(** The characters left when the trailing white space is dropped. *)
Fixpoint rstrip_chars (l : list string) : list string :=
  match l with
  | [] => []
  | c :: l' =>
      match rstrip_chars l' with
      | [] => if isspace c then [] else [c]
      | r => c :: r
      end
  end.

(** [s.rstrip()] *)
Definition rstrip (s : string) : string := join (rstrip_chars (chars s)).

(** [s.startswith(p)] *)
Fixpoint startswith (s p : string) {struct p} : bool :=
  match p, s with
  | EmptyString, _ => true
  | String _ _, EmptyString => false
  | String a p', String b s' => Ascii.eqb a b && startswith s' p'
  end.

(** [sub in s] *)
Fixpoint contains (sub s : string) : bool :=
  startswith s sub ||
  match s with
  | EmptyString => false
  | String _ s' => contains sub s'
  end.

(** [s.endswith(p)] *)
Definition endswith (s p : string) : bool :=
  (String.length p <=? String.length s) &&
  String.eqb (substring (String.length s - String.length p) (String.length p) s) p.

(** [str(n)] for a natural number and for an integer. *)
Definition str_nat (n : nat) : string :=
  DecimalString.NilZero.string_of_uint (Nat.to_uint n).

Definition str_Z (z : Z) : string :=
  DecimalString.NilZero.string_of_int (Z.to_int z).

Fixpoint zeros (k : nat) : string :=
  match k with
  | O => EmptyString
  | S k' => String "0" (zeros k')
  end.

(** [f"{n:04d}"]: decimal, padded on the left with zeros to four digits. *)
Definition fmt_04d (n : nat) : string :=
  let s := str_nat n in zeros (4 - String.length s) ++ s.

(** [os.path.join(d, name)] for a relative [name]. *)
Definition path_join (d name : string) : string := d ++ "/" ++ name.

(** [os.path.basename(p)]: what follows the last slash. *)
Fixpoint basename (p : string) : string :=
  match p with
  | EmptyString => EmptyString
  | String c p' =>
      if contains "/" p' then basename p'
      else if Ascii.eqb c "/" then p' else String c p'
  end.

End PyStr.

(* ===================================================================== *)
(** * The content client: [MangaAPI] *)
(* ===================================================================== *)

Module Client.
Import PyStr.

(** ** The values [response.json()] returns *)

(** A Python [float]: a finite one, kept as the rational number it is, an
    infinity, or NaN. *)
Inductive PyFloat :=
| Finite (q : Q)
| PosInf
| NegInf
| NaN.

(** A number of the body without fraction or exponent is an [int], any
    other a [float] ([json] reads [NaN], [Infinity] and [-Infinity] too); a
    [dict] is kept as the list of its items (a lookup takes the first binding
    of the key). *)
Inductive Json :=
| JNull
| JBool (b : bool)
| JInt (z : Z)
| JFloat (f : PyFloat)
| JStr (s : string)
| JArr (items : list Json)
| JObj (fields : list (string * Json)).

(** ** Exceptions *)

(** The subclasses of [requests.RequestException] the three steps of an
    exchange raise: [requests.get] ([ConnectionError], [Timeout], or another
    one), [raise_for_status] ([HTTPError]) and [response.json]
    ([JSONDecodeError]: [requests.exceptions.JSONDecodeError], which is a
    [RequestException] since requests 2.27). *)
Inductive RequestsError :=
| ConnectionError
| Timeout
| HTTPError
| JSONDecodeError
| OtherRequestException.

Inductive Exn :=
| RequestException (kind : RequestsError) (msg : string)
| PlainException (msg : string)                (* [Exception(msg)] *)
| AttributeError (msg : string)
| TypeError (msg : string)
| ValueError (msg : string)
| OverflowError (msg : string).

(** [str(e)] *)
Definition str_exn (e : Exn) : string :=
  match e with
  | RequestException _ msg => msg
  | PlainException msg => msg
  | AttributeError msg => msg
  | TypeError msg => msg
  | ValueError msg => msg
  | OverflowError msg => msg
  end.

(** [isinstance(e, requests.RequestException)] *)
Definition is_RequestException (e : Exn) : bool :=
  match e with
  | RequestException _ _ => true
  | _ => false
  end.

Definition Res (A : Type) : Type := (Exn + A)%type.

Definition rbind {A B} (r : Res A) (f : A -> Res B) : Res B :=
  match r with
  | inl e => inl e
  | inr a => f a
  end.

Notation "x <- m ;; k" := (rbind m (fun x => k))
  (at level 61, m at next level, right associativity).

(** [try: body / except requests.RequestException as e:
          raise Exception(f"<label>: {str(e)}")] *)
Definition except_RequestException {A} (label : string) (body : Res A) : Res A :=
  match body with
  | inl e =>
      if is_RequestException e then inl (PlainException (label ++ ": " ++ str_exn e))
      else inl e
  | inr a => inr a
  end.

(** ** The HTTP exchange *)

(** A response: its status code, the message of the [HTTPError] that
    [raise_for_status] builds for it, [response.content], and what
    [response.json()] does: the decoded value, or the message of the
    [JSONDecodeError]. *)
Record Response := mkResponse {
  status_code : nat;
  status_error : string;
  content : list Byte.byte;
  json_body : string + Json }.

(** [requests.get(url, headers=self.headers, timeout=...)]: the exception
    it raises (kind and message) or the response. *)
Definition Http : Type := string -> (RequestsError * string) + Response.

Definition requests_get (http : Http) (url : string) : Res Response :=
  match http url with
  | inl (kind, msg) => inl (RequestException kind msg)
  | inr r => inr r
  end.

(** [response.raise_for_status()] *)
Definition raise_for_status (r : Response) : Res unit :=
  if (400 <=? status_code r) && (status_code r <? 600)
  then inl (RequestException HTTPError (status_error r))
  else inr tt.

(** [response.json()] *)
Definition json (r : Response) : Res Json :=
  match json_body r with
  | inl msg => inl (RequestException JSONDecodeError msg)
  | inr v => inr v
  end.

(** ** Python on JSON values *)

(** [type(v).__name__] *)
Definition type_name (v : Json) : string :=
  match v with
  | JNull => "NoneType"
  | JBool _ => "bool"
  | JInt _ => "int"
  | JFloat _ => "float"
  | JStr _ => "str"
  | JArr _ => "list"
  | JObj _ => "dict"
  end.

Definition no_attribute {A} (v : Json) (attr : string) : Res A :=
  inl (AttributeError ("'" ++ type_name v ++ "' object has no attribute '" ++ attr ++ "'")).

Definition lookup (fields : list (string * Json)) (k : string) : option Json :=
  match find (fun kv => String.eqb (fst kv) k) fields with
  | Some kv => Some (snd kv)
  | None => None
  end.

(** [v.get(k, default)] *)
Definition py_get (v : Json) (k : string) (default : Json) : Res Json :=
  match v with
  | JObj fields =>
      match lookup fields k with
      | Some x => inr x
      | None => inr default
      end
  | _ => no_attribute v "get"
  end.

(** [bool(v)] *)
Definition truthy (v : Json) : bool :=
  match v with
  | JNull => false
  | JBool b => b
  | JInt z => negb (z =? 0)%Z
  | JFloat (Finite q) => negb (Qeq_bool q 0)
  | JFloat _ => true
  | JStr s => negb (String.eqb s "")
  | JArr items => match items with [] => false | _ => true end
  | JObj fields => match fields with [] => false | _ => true end
  end.

(** [v or 0] *)
Definition or_zero (v : Json) : Json := if truthy v then v else JInt 0.

(** [a < b] on floats: false as soon as one of them is NaN. *)
Definition float_lt (a b : PyFloat) : bool :=
  match a, b with
  | NaN, _ | _, NaN => false
  | _, NegInf => false
  | NegInf, _ => true
  | PosInf, _ => false
  | _, PosInf => true
  | Finite p, Finite q => negb (Qle_bool q p)
  end.

(** [a == b] on floats. *)
Definition float_eq (a b : PyFloat) : bool :=
  match a, b with
  | Finite p, Finite q => Qeq_bool p q
  | PosInf, PosInf | NegInf, NegInf => true
  | _, _ => false
  end.

Definition is_nan (a : PyFloat) : bool :=
  match a with
  | NaN => true
  | _ => false
  end.

(** The order of the floats that are not NaN. *)
Definition float_le (a b : PyFloat) : Prop :=
  match a, b with
  | NaN, _ | _, NaN => False
  | NegInf, _ => True
  | _, PosInf => True
  | Finite p, Finite q => (p <= q)%Q
  | _, _ => False
  end.

(** What the interpreter does and the code does not say:
    [float(s)] for a string (the float, or [None] when Python raises
    [ValueError]); [float(n)] for an integer beyond 2^53 in size (the float
    nearest to it, or [None] when Python raises [OverflowError]); [repr(s)]
    for a string; and the order [list.sort] leaves a list in when some key
    is NaN, on which [<] orders nothing. *)
Record Python := mkPython {
  float_of_string : string -> option PyFloat;
  float_of_int : Z -> option Q;
  repr : string -> string;
  sort_with_nan : list (PyFloat * Json) -> list (PyFloat * Json) }.

Section WithPython.
Variable py : Python.

(** [float(v)] *)
Definition py_float (v : Json) : Res PyFloat :=
  match v with
  | JFloat f => inr f
  | JInt z =>
      if (Z.abs z <=? 2 ^ 53)%Z then inr (Finite (inject_Z z))
      else match float_of_int py z with
           | Some q => inr (Finite q)
           | None => inl (OverflowError "int too large to convert to float")
           end
  | JBool b => inr (Finite (if b then 1 else 0)%Q)
  | JStr s =>
      match float_of_string py s with
      | Some f => inr f
      | None => inl (ValueError ("could not convert string to float: " ++ repr py s))
      end
  | _ => inl (TypeError ("float() argument must be a string or a real number, not '"
                         ++ type_name v ++ "'"))
  end.

(** [lambda x: float(x.get('chap', 0) or 0)] *)
Definition chap_key (x : Json) : Res PyFloat :=
  c <- py_get x "chap" (JInt 0) ;;
  py_float (or_zero c).

(** The keys of a list, computed from left to right as [list.sort] does
    before it moves anything; the first exception leaves the call. *)
Fixpoint with_keys (items : list Json) : Res (list (PyFloat * Json)) :=
  match items with
  | [] => inr []
  | x :: rest =>
      k <- chap_key x ;;
      krest <- with_keys rest ;;
      inr ((k, x) :: krest)
  end.

(** [list.sort(key=..., reverse=False)] compares keys with [<] and is
    stable: items with equal keys keep their order.  When no key is NaN
    that fixes the result ([stable_sort_is_insertion_sort] below), and
    insertion from the right, before the first item whose key is not
    smaller, gives it. *)
Fixpoint insert_by_key (kx : PyFloat * Json) (l : list (PyFloat * Json))
    : list (PyFloat * Json) :=
  match l with
  | [] => [kx]
  | ky :: l' =>
      if float_lt (fst ky) (fst kx) then ky :: insert_by_key kx l'
      else kx :: ky :: l'
  end.

Definition insertion_sort (l : list (PyFloat * Json)) : list (PyFloat * Json) :=
  fold_right insert_by_key [] l.

Definition sort_by_key (l : list (PyFloat * Json)) : list (PyFloat * Json) :=
  if existsb (fun kx => is_nan (fst kx)) l then sort_with_nan py l
  else insertion_sort l.

(** The order of two items with their keys. *)
Definition key_le (a b : PyFloat * Json) : Prop := float_le (fst a) (fst b).

(** [chapters.sort(key=lambda x: float(x.get('chap', 0) or 0), reverse=False)] *)
Definition sort_chapters (chapters : Json) : Res (list Json) :=
  match chapters with
  | JArr items =>
      keyed <- with_keys items ;;
      inr (map snd (sort_by_key keyed))
  | _ => no_attribute chapters "sort"
  end.

End WithPython.

(** ** The chat bot's client ([src/tbot.py]) *)

Definition base_url : string := "https://api.comick.io".

Module Bot.
Section WithHttp.
Variable quote_plus : string -> string.      (* [urllib.parse.quote_plus] *)
Variable py : Python.
Variable http : Http.

Definition search_manga (query : string) (limit : nat) : Res Json :=
  except_RequestException "Search failed"
    (let encoded_query := quote_plus query in
     let url := base_url ++ "/v1.0/search?q=" ++ encoded_query
                ++ "&limit=" ++ str_nat limit ++ "&t=true" in
     response <- requests_get http url ;;
     _ <- raise_for_status response ;;
     json response).

Definition get_chapters (hid lang : string) (limit : nat) : Res (list Json) :=
  except_RequestException "Failed to get chapters"
    (let url := base_url ++ "/comic/" ++ hid ++ "/chapters?lang=" ++ lang
                ++ "&limit=" ++ str_nat limit in
     response <- requests_get http url ;;
     _ <- raise_for_status response ;;
     data <- json response ;;
     chapters <- py_get data "chapters" (JArr []) ;;
     sort_chapters py chapters).

Definition get_chapter_pages (chapter_hid : string) : Res Json :=
  except_RequestException "Failed to get chapter pages"
    (let url := base_url ++ "/chapter/" ++ chapter_hid in
     response <- requests_get http url ;;
     _ <- raise_for_status response ;;
     data <- json response ;;
     chapter <- py_get data "chapter" (JObj []) ;;
     py_get chapter "md_images" (JArr [])).

Definition download_image (url : string) : Res (list Byte.byte) :=
  except_RequestException "Failed to download image"
    (response <- requests_get http url ;;
     _ <- raise_for_status response ;;
     inr (content response)).

End WithHttp.
End Bot.

(** ** The viewer's client ([src/MangaReader.py]) *)

Module Viewer.
Section WithHttp.
Variable quote_plus : string -> string.
Variable http : Http.

Definition search_manga (query : string) (limit : nat) : Res Json :=
  except_RequestException "Search failed"
    (let encoded_query := quote_plus query in
     let url := base_url ++ "/v1.0/search?q=" ++ encoded_query
                ++ "&limit=" ++ str_nat limit in
     response <- requests_get http url ;;
     _ <- raise_for_status response ;;
     json response).


Definition get_chapters (hid lang : string) (limit : nat) : Res Json :=
  except_RequestException "Failed to get chapters"
    (let url := base_url ++ "/comic/" ++ hid ++ "/chapters?lang=" ++ lang
                ++ "&limit=" ++ str_nat limit in
     response <- requests_get http url ;;
     _ <- raise_for_status response ;;
     data <- json response ;;
     py_get data "chapters" (JArr [])).

Definition get_chapter_pages (chapter_hid : string) : Res Json :=
  except_RequestException "Failed to get chapter pages"
    (let url := base_url ++ "/chapter/" ++ chapter_hid in
     response <- requests_get http url ;;
     _ <- raise_for_status response ;;
     data <- json response ;;
     chapter <- py_get data "chapter" (JObj []) ;;
     py_get chapter "md_images" (JArr [])).

Definition download_image (url : string) : Res (list Byte.byte) :=
  except_RequestException "Failed to download image"
    (response <- requests_get http url ;;
     _ <- raise_for_status response ;;
     inr (content response)).

End WithHttp.
End Viewer.

(** ** The operations, one by one *)

(** A call of one method of one of the two clients. *)
Inductive Operation :=
| BotSearch (query : string) (limit : nat)
| BotChapters (hid lang : string) (limit : nat)
| BotPages (chapter_hid : string)
| BotImage (url : string)
| ViewerSearch (query : string) (limit : nat)
| ViewerDetails (slug : string)
| ViewerChapters (hid lang : string) (limit : nat)
| ViewerPages (chapter_hid : string)
| ViewerImage (url : string).



(** The words each method puts before the cause. *)
Definition label (op : Operation) : string :=
  match op with
  | BotSearch _ _ | ViewerSearch _ _ => "Search failed"
  | BotChapters _ _ _ | ViewerChapters _ _ _ => "Failed to get chapters"
  | BotPages _ | ViewerPages _ => "Failed to get chapter pages"
  | BotImage _ | ViewerImage _ => "Failed to download image"
  | ViewerDetails _ => "Failed to get manga details"
  end.




(** ** An interpreter for the examples *)

(** Decimal literals: an optional sign, digits, and optionally a point and
    more digits, read exactly.  Python's [float] reads more (exponents,
    white space around) and rounds to a double; on the strings of the
    examples below the two agree. *)
Fixpoint digits_value (s : string) (acc : Z) : option Z :=
  match s with
  | EmptyString => Some acc
  | String c s' =>
      let n := nat_of_ascii c in
      if (48 <=? n) && (n <=? 57)
      then digits_value s' (10 * acc + Z.of_nat (n - 48))%Z
      else None
  end.

Fixpoint split_point (s : string) : string * option string :=
  match s with
  | EmptyString => (EmptyString, None)
  | String c s' =>
      if Ascii.eqb c "." then (EmptyString, Some s')
      else let (a, b) := split_point s' in (String c a, b)
  end.

Definition unsigned_decimal (s : string) : option Q :=
  match split_point s with
  | (int_part, None) =>
      match int_part with
      | EmptyString => None
      | _ => match digits_value int_part 0 with
             | Some z => Some (inject_Z z)
             | None => None
             end
      end
  | (int_part, Some frac) =>
      match int_part, frac with
      | EmptyString, EmptyString => None
      | _, _ =>
          match digits_value (int_part ++ frac) 0 with
          | Some z => Some (Qmake z (Z.to_pos (10 ^ Z.of_nat (String.length frac))))
          | None => None
          end
      end
  end.

Definition decimal (s : string) : option Q :=
  match s with
  | String "-" s' =>
      match unsigned_decimal s' with Some q => Some (- q)%Q | None => None end
  | String "+" s' => unsigned_decimal s'
  | _ => unsigned_decimal s
  end.

(** [float] on the strings of the examples: [nan], [inf], [-inf], and the
    decimal literals. *)
Definition example_float (s : string) : option PyFloat :=
  if String.eqb s "nan" then Some NaN
  else if String.eqb s "inf" then Some PosInf
  else if String.eqb s "-inf" then Some NegInf
  else match decimal s with
       | Some q => Some (Finite q)
       | None => None
       end.

(** The interpreter of the examples: their strings hold no quote and need
    no escape, so that [repr] puts them between two quotes; they hold no
    integer beyond 2^53; and a list with a NaN among its keys is left as it
    was, which is one of the orders [list.sort] can leave. *)
Definition example_python : Python :=
  mkPython example_float (fun z => Some (inject_Z z))
           (fun s => "'" ++ s ++ "'") (fun l => l).

(** ** Responses for the examples *)

Definition chapter_json (hid : string) (chap : Json) : Json :=
  JObj [("hid", JStr hid); ("chap", chap)].

(** A server that answers every request with status 200 and the body [data]. *)
Definition answering (data : Json) : Http :=
  fun _ => inr (mkResponse 200 "" [] (inr data)).


Definition five_chapters : list Json :=
  [chapter_json "a" (JStr "10"); chapter_json "b" (JStr "2.5"); chapter_json "c" JNull;
   JObj [("hid", JStr "d")]; chapter_json "e" (JStr "2.5")].

Definition with_extra : list Json :=
  [chapter_json "a" (JStr "10"); chapter_json "b" (JStr "Extra")].

End Client.

(* ===================================================================== *)
(** * The chat bot's download job: [download_action] and [archive_worker] *)
(* ===================================================================== *)

Module Worker.
Import PyStr.

(** [SAFE_LIMIT = 48 * 1024 * 1024] *)
Definition SAFE_LIMIT : Z := 48 * 1024 * 1024.

(** A chapter as the job uses it: [chapter['hid']] and the text that
    [chapter.get('chap', 'N/A')] renders to inside an f-string. *)
Record Chapter := mkChapter { hid : string; chap : string }.

(** An element of [md_images]: [b2key] is [None] when the key is absent (or
    null) and [Some k] when it is the string [k]. *)
Record Page := mkPage { b2key : option string }.

(** ['b2key' not in page or not page['b2key']] *)
Definition no_key (p : Page) : bool :=
  match b2key p with
  | None => true
  | Some k => String.eqb k ""
  end.

(** ** [download_action] *)

(** The callback data: ['dl_all'], or [dl_<hid>] whose second field
    ([query.data.split('_')[1]]) is [chapter_hid]. *)
Inductive Callback :=
| dl_all
| dl_chapter (chapter_hid : string).

(** [job.chat_id] and [job.data] (the status message's id plays no part in
    what follows and is left out). *)
Record Job := mkJob {
  chat_id : Z;
  archive_title : string;
  chapters : list Chapter }.

(** The job [download_action] queues.  For a single chapter that is not in
    the list, [chapter] is [None] and [chapter.get] raises before anything is
    queued: [None]. *)
Definition download_action (chat : Z) (manga_title : string)
    (all_chapters : list Chapter) (q : Callback) : option Job :=
  match q with
  | dl_all => Some (mkJob chat manga_title all_chapters)
  | dl_chapter chapter_hid =>
      match find (fun ch => String.eqb (hid ch) chapter_hid) all_chapters with
      | Some chapter => Some (mkJob chat (manga_title ++ "_Ch_" ++ chap chapter) [chapter])
      | None => None
      end
  end.

(** [is_single_chapter_download = "_Ch_" in archive_title] *)
Definition is_single_chapter_download (archive_title : string) : bool :=
  contains "_Ch_" archive_title.

(** ["".join(c for c in archive_title if c.isalnum() or c in (' ', '_')).rstrip()] *)
Definition safe_title (archive_title : string) : string :=
  rstrip (join (List.filter (fun c => isalnum c || String.eqb c " " || String.eqb c "_")
                            (chars archive_title))).

(** [f"./temp_{chat_id}"] *)
Definition temp_dir (chat : Z) : string := "./temp_" ++ str_Z chat.

(** [part_name] and [cbz_filename] of part [part_num]. *)
Definition part_name (title : string) (single : bool) (part_num : nat) : string :=
  if negb single then title ++ "_Part_" ++ str_nat part_num else title.

Definition cbz_filename (title : string) (single : bool) (part_num : nat) : string :=
  part_name title single part_num ++ ".cbz".

(** ** The world of a job *)

(** What the status message is edited to.  The two progress lines carry
    their counters; the percentages the code prints beside them are
    floating-point roundings of the same counters and are left out. *)
Inductive Status :=
| Downloading (chap : string) (page_in_chapter pages_in_chapter : nat)
              (global_index total : nat)
| CreatingArchive (cbz : string) (page_index total : nat)
| StatusText (text : string).

(** How a run ends: with a value, with an exception (its message), or still
    running when the fuel of the packing loop is spent. *)
Inductive Result (A : Type) :=
| Ok (a : A)
| Raise (e : string)
| OutOfFuel.
Arguments Ok {A} a.
Arguments Raise {A} e.
Arguments OutOfFuel {A}.

Section WithImage.

(** The bytes of an image: the pipeline never looks inside them. *)
Context {Image : Type}.

(** An entry of an archive: [arcname] and the bytes stored under it. *)
Definition Entry : Type := string * Image.

(** What a job does to the outside, in order. *)
Inductive Event :=
| PagesRequest (chapter_hid : string)          (* api.get_chapter_pages *)
| ImageRequest (url : string)                  (* api.download_image *)
| EditMessage (s : Status)                     (* context.bot.edit_message_text *)
| SendMessage (text : string)                  (* context.bot.send_message *)
| DeleteMessage                                (* context.bot.delete_message *)
| SendDocument (filename : string) (entries : list Entry).  (* context.bot.send_document *)

(** The remote service, the upload and the size of the archive being
    written, as the job meets them.  A remote call may answer differently
    each time it is made: the first argument is the number of remote calls
    made before it.  [inl e] is the exception [MangaAPI] raises, with message
    [e]; [upload] returns the message of the exception [send_document]
    raises, if it does.  [getsize] is [os.path.getsize(cbz_filename)] after
    the listed entries have been written.  The other calls to the chat
    (editing, sending and deleting messages) and the calls to the file
    system are taken to succeed. *)
Record World := mkWorld {
  get_chapter_pages : nat -> string -> string + list Page;
  download_image : nat -> string -> string + Image;
  upload : nat -> string -> option string;
  getsize : list Entry -> Z }.

(** The mutable state: the number of remote calls made, the job's scratch
    directory ([None] when it does not exist, else the files written to it,
    oldest first, by full path), the names of the files of the working
    directory, and what the job did so far. *)
Record State := mkState {
  clock : nat;
  scratch : option (list (string * Image));
  cwd : list string;
  trace : list Event }.

(** ** The monad: state, exceptions, and running out of fuel *)

Definition M (A : Type) : Type := State -> Result A * State.

Definition ret {A} (a : A) : M A := fun s => (Ok a, s).

Definition bind {A B} (m : M A) (f : A -> M B) : M B :=
  fun s =>
    match m s with
    | (Ok a, s') => f a s'
    | (Raise e, s') => (Raise e, s')
    | (OutOfFuel, s') => (OutOfFuel, s')
    end.

Definition raise {A} (e : string) : M A := fun s => (Raise e, s).

Definition out_of_fuel {A} : M A := fun s => (OutOfFuel, s).

Notation "x <- m ;; k" := (bind m (fun x => k))
  (at level 61, m at next level, right associativity).
Notation "' pat <- m ;; k" := (bind m (fun x => match x with pat => k end))
  (at level 61, pat pattern, m at next level, right associativity).
Notation "m ;; k" := (bind m (fun _ => k))
  (at level 61, right associativity).

(** [try: body / except Exception as e: handler(e) / finally: final].
    A run that is out of fuel is still inside [body]. *)
Definition try_except_finally (body : M unit) (handler : string -> M unit)
    (final : M unit) : M unit :=
  fun s =>
    match body s with
    | (Ok _, s1) => final s1
    | (Raise e, s1) =>
        match handler e s1 with
        | (Ok _, s2) => final s2
        | (Raise e', s2) =>
            match final s2 with
            | (Ok _, s3) => (Raise e', s3)
            | r => r
            end
        | (OutOfFuel, s2) => (OutOfFuel, s2)
        end
    | (OutOfFuel, s1) => (OutOfFuel, s1)
    end.

(** ** Primitive actions *)

Definition emit (e : Event) : M unit :=
  fun s => (Ok tt, mkState (clock s) (scratch s) (cwd s) (trace s ++ [e])%list).

Definition tick : M nat :=
  fun s => (Ok (clock s), mkState (S (clock s)) (scratch s) (cwd s) (trace s)).

Definition edit_message_text (st : Status) : M unit := emit (EditMessage st).
Definition send_message (text : string) : M unit := emit (SendMessage text).
Definition delete_message : M unit := emit DeleteMessage.

Section WithWorld.
Variable w : World.

(** [api.get_chapter_pages(chapter_hid)] *)
Definition api_get_chapter_pages (chapter_hid : string) : M (list Page) :=
  t <- tick ;;
  emit (PagesRequest chapter_hid) ;;
  match get_chapter_pages w t chapter_hid with
  | inl e => raise e
  | inr pages => ret pages
  end.

(** [api.download_image(url)] *)
Definition api_download_image (url : string) : M Image :=
  t <- tick ;;
  emit (ImageRequest url) ;;
  match download_image w t url with
  | inl e => raise e
  | inr img => ret img
  end.

(** [send_document(..., document=cbz_file, filename=cbz_filename, ...)] *)
Definition send_document (filename : string) (entries : list Entry) : M unit :=
  t <- tick ;;
  match upload w t filename with
  | Some e => raise e
  | None => emit (SendDocument filename entries)
  end.

End WithWorld.

(** [if os.path.exists(temp_dir): shutil.rmtree(temp_dir)] *)
Definition rmtree_if_exists : M unit :=
  fun s => (Ok tt, mkState (clock s) None (cwd s) (trace s)).

(** [os.makedirs(temp_dir, exist_ok=True)] *)
Definition makedirs : M unit :=
  fun s =>
    (Ok tt, mkState (clock s)
              (match scratch s with None => Some [] | Some fs => Some fs end)
              (cwd s) (trace s)).

(** [with open(img_path, 'wb') as f: f.write(img_data)] *)
Definition write_file (path : string) (img : Image) : M unit :=
  fun s =>
    match scratch s with
    | Some fs => (Ok tt, mkState (clock s) (Some (fs ++ [(path, img)])%list) (cwd s) (trace s))
    | None => (Raise ("[Errno 2] No such file or directory: '" ++ path ++ "'"), s)
    end.

(** The bytes last written under [path]. *)
Definition lookup_file (fs : list (string * Image)) (path : string) : option Image :=
  match find (fun f => String.eqb (fst f) path) (rev fs) with
  | Some f => Some (snd f)
  | None => None
  end.

(** Reading [page_path], as [zipf.write(page_path, ...)] does. *)
Definition read_file (path : string) : M Image :=
  fun s =>
    match scratch s with
    | Some fs =>
        match lookup_file fs path with
        | Some img => (Ok img, s)
        | None => (Raise ("[Errno 2] No such file or directory: '" ++ path ++ "'"), s)
        end
    | None => (Raise ("[Errno 2] No such file or directory: '" ++ path ++ "'"), s)
    end.

(** [zipfile.ZipFile(cbz_filename, 'w')] creates (or truncates) the file. *)
Definition create_file (name : string) : M unit :=
  fun s =>
    (Ok tt, mkState (clock s) (scratch s)
              (if existsb (String.eqb name) (cwd s) then cwd s else (cwd s ++ [name])%list)
              (trace s)).

(** [os.remove(name)] *)
Definition os_remove (name : string) : M unit :=
  fun s =>
    (Ok tt, mkState (clock s) (scratch s)
              (List.filter (fun f => negb (String.eqb f name)) (cwd s)) (trace s)).

(** The [finally] block: the scratch directory goes, and so does every file
    of the working directory that ends in [.cbz] or [.zip] and starts with
    the sanitized title. *)
Definition stray (title f : string) : bool :=
  (endswith f ".cbz" || endswith f ".zip") && startswith f title.

Definition cleanup (title : string) : M unit :=
  fun s =>
    (Ok tt, mkState (clock s) None
              (List.filter (fun f => negb (stray title f)) (cwd s)) (trace s)).

(** ** [archive_worker] *)

(** [chapter_page_counts]: a dictionary from chapter handle to page count.
    An assignment goes in front and a lookup takes the first binding, so a
    later assignment to the same key replaces the earlier one. *)
Definition Counts : Type := list (string * nat).

Definition counts_set (d : Counts) (k : string) (v : nat) : Counts := (k, v) :: d.

Definition counts_get (d : Counts) (k : string) : option nat :=
  match find (fun kv => String.eqb (fst kv) k) d with
  | Some kv => Some (snd kv)
  | None => None
  end.

Definition nl : string := String "010" EmptyString.

(** [f"https://meo.comick.pictures/{page['b2key']}"] *)
Definition image_url (p : Page) : string :=
  "https://meo.comick.pictures/" ++ match b2key p with Some k => k | None => "" end.

(** [os.path.join(temp_dir, f"{current_page_global_index:04d}.jpg")] *)
Definition img_path (dir : string) (global_index : nat) : string :=
  path_join dir (fmt_04d global_index ++ ".jpg").

Section Pipeline.
Variable w : World.

(** The pre-pass: one [get_chapter_pages] per chapter, the count recorded
    under the chapter's handle and added to the total. *)
Fixpoint count_pages (chs : list Chapter) (counts : Counts) (total : nat)
    : M (Counts * nat) :=
  match chs with
  | [] => ret (counts, total)
  | chapter :: rest =>
      chapter_pages <- api_get_chapter_pages w (hid chapter) ;;
      count_pages rest (counts_set counts (hid chapter) (List.length chapter_pages))
                  (total + List.length chapter_pages)
  end.

(** The inner [for page_num_in_chapter in range(num_pages_in_chapter)]:
    [page_nums] is what is left of the range; the result is the global index
    and the paths after it. *)
Fixpoint fetch_pages (dir : string) (chapter : Chapter) (num_pages total : nat)
    (page_nums : list nat) (global_index : nat) (paths : list string)
    : M (nat * list string) :=
  match page_nums with
  | [] => ret (global_index, paths)
  | page_num :: rest =>
      edit_message_text
        (Downloading (chap chapter) (page_num + 1) num_pages global_index total) ;;
      pages <- api_get_chapter_pages w (hid chapter) ;;
      match nth_error pages page_num with
      | None => raise "list index out of range"
      | Some page =>
          if no_key page then
            fetch_pages dir chapter num_pages total rest global_index paths
          else
            img_data <- api_download_image w (image_url page) ;;
            write_file (img_path dir global_index) img_data ;;
            fetch_pages dir chapter num_pages total rest (global_index + 1)
                        (paths ++ [img_path dir global_index])%list
      end
  end.

(** The outer [for i, chapter in enumerate(job.data['chapters'])]. *)
Fixpoint fetch_chapters (dir : string) (counts : Counts) (total : nat)
    (chs : list Chapter) (global_index : nat) (paths : list string)
    : M (nat * list string) :=
  match chs with
  | [] => ret (global_index, paths)
  | chapter :: rest =>
      match counts_get counts (hid chapter) with
      | None => raise ("'" ++ hid chapter ++ "'")
      | Some num_pages =>
          ' (global_index', paths') <-
             fetch_pages dir chapter num_pages total (seq 0 num_pages) global_index paths ;;
          fetch_chapters dir counts total rest global_index' paths'
      end
  end.

(** The inner [while page_index < len(downloaded_page_paths)] of the
    packer.  [rest] is [downloaded_page_paths[page_index:]], [zipf] the
    entries written to the open archive so far.  The result is the cursor
    and the entries of the archive when the [with] block closes it.  (The
    cursor is stepped back only when [pages_in_current_part > 0], and then
    it is positive.) *)
Fixpoint fill_part (rest : list string) (page_index pages_in_current_part : nat)
    (zipf : list Entry) : M (nat * list Entry) :=
  match rest with
  | [] => ret (page_index, zipf)
  | page_path :: rest' =>
      img <- read_file page_path ;;
      let zipf' := (zipf ++ [(basename page_path, img)])%list in
      if (SAFE_LIMIT <? getsize w zipf')%Z && (0 <? pages_in_current_part) then
        ret (page_index - 1, zipf')
      else
        fill_part rest' (page_index + 1) (pages_in_current_part + 1) zipf'
  end.

(** The outer [while page_index < len(downloaded_page_paths)]: one round
    per part, [fuel] rounds at most.  The result is [part_num] when the loop
    is left. *)
Fixpoint pack_parts (fuel : nat) (title : string) (single : bool)
    (downloaded_page_paths : list string) (part_num page_index : nat) : M nat :=
  if page_index <? List.length downloaded_page_paths then
    match fuel with
    | O => out_of_fuel
    | S fuel' =>
        let cbz := cbz_filename title single part_num in
        edit_message_text
          (CreatingArchive (basename cbz) page_index (List.length downloaded_page_paths)) ;;
        create_file cbz ;;
        ' (page_index', zipf) <-
           fill_part (skipn page_index downloaded_page_paths) page_index 0 [] ;;
        edit_message_text (StatusText ("Uploading: " ++ basename cbz ++ "...")) ;;
        send_document w cbz zipf ;;
        os_remove cbz ;;
        pack_parts fuel' title single downloaded_page_paths (part_num + 1) page_index'
    end
  else ret part_num.

Definition final_message (archive_title : string) (single : bool) (part_num : nat)
    : string :=
  "Your download of '" ++ archive_title ++ "' is complete!" ++
  (if (2 <? part_num) || (negb single && (part_num =? 2))
   then " (" ++ str_nat (part_num - 1) ++ " parts sent)." else "") ++
  nl ++ nl ++ "To search for another manga, please click /start.".

(** The [try] block. *)
Definition archive_body (fuel : nat) (job : Job) : M unit :=
  let single := is_single_chapter_download (archive_title job) in
  let title := safe_title (archive_title job) in
  let dir := temp_dir (chat_id job) in
  ' (chapter_page_counts, total) <- count_pages (chapters job) [] 0 ;;
  if total =? 0 then
    edit_message_text (StatusText "Could not get page counts. Aborting.") ;;
    send_message "Error retrieving page information. Please try again or /start a new search."
  else
    rmtree_if_exists ;;
    makedirs ;;
    ' (_, downloaded_page_paths) <-
       fetch_chapters dir chapter_page_counts total (chapters job) 1 [] ;;
    match downloaded_page_paths with
    | [] =>
        edit_message_text (StatusText "Could not download any images. Aborting.") ;;
        send_message "No pages could be downloaded for this chapter/manga. Please try again or /start a new search."
    | _ :: _ =>
        part_num <- pack_parts fuel title single downloaded_page_paths 1 0 ;;
        send_message (final_message (archive_title job) single part_num) ;;
        delete_message
    end.

(** The [except Exception as e] block. *)
Definition archive_except (e : string) : M unit :=
  edit_message_text (StatusText ("An unexpected error occurred: " ++ e)) ;;
  send_message "Please try again or /start a new search.".

Definition archive_worker (fuel : nat) (job : Job) : M unit :=
  try_except_finally
    (archive_body fuel job)
    archive_except
    (cleanup (safe_title (archive_title job))).

End Pipeline.

(** What a trace shows of the parts sent and of the images asked for. *)
Fixpoint sent_documents (tr : list Event) : list (string * list Entry) :=
  match tr with
  | [] => []
  | SendDocument filename entries :: tr' => (filename, entries) :: sent_documents tr'
  | _ :: tr' => sent_documents tr'
  end.

Fixpoint image_requests (tr : list Event) : list string :=
  match tr with
  | [] => []
  | ImageRequest url :: tr' => url :: image_requests tr'
  | _ :: tr' => image_requests tr'
  end.

(** A job starts with no remote call made and nothing done. *)
Definition start (scratch0 : option (list (string * Image))) (cwd0 : list string)
    : State :=
  mkState 0 scratch0 cwd0 [].

(** ** Statements about runs *)

(** [wp m Q s]: the run of [m] from [s] ends in a result and a state that
    satisfy [Q]. *)
Definition wp {A} (m : M A) (Q : Result A -> State -> Prop) (s : State) : Prop :=
  Q (fst (m s)) (snd (m s)).

(** The parts a state shows as sent, and the images it shows as asked for. *)
Definition docs (s : State) : list (string * list Entry) := sent_documents (trace s).
Definition imgs (s : State) : list string := image_requests (trace s).

(** A part is within bounds when it holds one file at most or is no larger
    than the ceiling. *)
Definition fits (w : World) (zipf : list Entry) : Prop :=
  (getsize w zipf <= SAFE_LIMIT)%Z \/ List.length zipf <= 1.

(** What a run of the packing loop sends: the parts sent are not empty, the
    [k]-th of them carries the name of part [part_num + k], and when the loop
    is left the part number has advanced by their count and the last part
    sent is within bounds. *)
Definition pack_post (w : World) (title : string) (single : bool) (paths : list string)
    (part_num page_index : nat) (s : State) (r : Result nat) (s' : State) : Prop :=
  exists new,
    docs s' = (docs s ++ new)%list /\
    Forall (fun d => snd d <> []) new /\
    map fst new = map (cbz_filename title single) (seq part_num (List.length new)) /\
    (List.length paths <= page_index -> new = []) /\
    forall part_num', r = Ok part_num' ->
      part_num' = part_num + List.length new /\
      (page_index < List.length paths ->
       exists init d, new = (init ++ [d])%list /\ fits w (snd d)).

(** The service is steady on a list of chapters: every call for one of
    them returns its page list, every page has a key, and every download of
    one of its images succeeds. *)
Definition steady (w : World) (pages_of : string -> list Page) (chs : list Chapter)
    : Prop :=
  forall c, In c chs ->
    (forall t, get_chapter_pages w t (hid c) = inr (pages_of (hid c))) /\
    (forall p, In p (pages_of (hid c)) -> no_key p = false) /\
    (forall t p, In p (pages_of (hid c)) ->
       exists img, download_image w t (image_url p) = inr img).

(** The pages of a list of chapters, in chapter order and page order. *)
Definition all_pages (pages_of : string -> list Page) (chs : list Chapter) : list Page :=
  flat_map (fun c => pages_of (hid c)) chs.

(** A scratch file holds the bytes some download of the page's image
    returned. *)
Definition holds_image (w : World) (f : string * Image) (p : Page) : Prop :=
  exists t, download_image w t (image_url p) = inr (snd f).

(** Every count a dictionary records is the length of the page list of its
    key. *)
Definition counts_true (pages_of : string -> list Page) (d : Counts) : Prop :=
  forall k v, In (k, v) d -> v = List.length (pages_of k).

End WithImage.
Arguments Event : clear implicits.
Arguments World : clear implicits.
Arguments State : clear implicits.
Arguments Entry : clear implicits.

(** ** Worlds for the examples *)

(** In the examples an image is its length in bytes. *)
Definition MiB : Z := 1024 * 1024.

(** The size on disk of an archive written without compression, as
    [zipfile.ZipFile(name, 'w')] writes it: for each entry a local header
    of 30 bytes, the name, and the bytes. *)
Definition stored_size (entries : list (Entry Z)) : Z :=
  fold_right (fun e acc => (30 + Z.of_nat (String.length (fst e)) + snd e + acc)%Z)
             0%Z entries.

(** A service that holds the listed chapters (handle, then the key and the
    length of each page's image) and answers every call the same way; the
    upload of the file named [refused], if any, fails. *)
Definition service (chs : list (string * list (string * Z))) (refused : option string)
    : World Z :=
  mkWorld
    (fun _ h =>
       match find (fun c => String.eqb (fst c) h) chs with
       | Some c => inr (map (fun kz => mkPage (Some (fst kz))) (snd c))
       | None => inl "Failed to get chapter pages: 404 Client Error"
       end)
    (fun _ url =>
       match find (fun kz => String.eqb ("https://meo.comick.pictures/" ++ fst kz) url)
                  (flat_map snd chs) with
       | Some kz => inr (snd kz)
       | None => inl "Failed to download image: 404 Client Error"
       end)
    (fun _ filename =>
       match refused with
       | Some f => if String.eqb f filename then Some "Request Entity Too Large" else None
       | None => None
       end)
    stored_size.

(** One chapter of three pages: 30 MiB, 10 MiB and 10 MiB. *)
Definition three_pages : list (string * list (string * Z)) :=
  [("h1", [("a", 30 * MiB); ("b", 10 * MiB); ("c", 10 * MiB)])]%Z.

(** One chapter of three small pages, and one chapter with no page. *)
Definition small_pages : list (string * list (string * Z)) :=
  [("h1", [("a", 1000); ("b", 2000); ("c", 3000)])]%Z.

Definition no_pages : list (string * list (string * Z)) := [("h0", [])].

(** The pages the example services hold, by chapter handle. *)
Definition pages_held (chs : list (string * list (string * Z))) (h : string) : list Page :=
  match find (fun c => String.eqb (fst c) h) chs with
  | Some c => map (fun kz => mkPage (Some (fst kz))) (snd c)
  | None => []
  end.

Definition one_chapter : list Chapter := [mkChapter "h1" "1"].

End Worker.


(* ===================================================================== *)
(** * More Python strings *)
(* ===================================================================== *)

Module PyStrExt.
Import PyStr.

(** A decimal digit. *)
Definition isdigit (c : ascii) : bool :=
  let n := nat_of_ascii c in (48 <=? n) && (n <=? 57).

Definition not_slash (c : ascii) : bool := negb (Ascii.eqb c "/").

Definition not_underscore (c : ascii) : bool := negb (Ascii.eqb c "_").

(** [s.split(sep)] for a separator of one character. *)
Fixpoint split (sep : ascii) (s : string) : list string :=
  match s with
  | EmptyString => [EmptyString]
  | String c s' =>
      if Ascii.eqb c sep then EmptyString :: split sep s'
      else match split sep s' with
           | [] => [String c EmptyString]
           | x :: rest => String c x :: rest
           end
  end.

(** A character with all its bytes: as many after the first as the first
    announces; and one that the end of the string may have cut short. *)
Definition whole (c : string) : Prop :=
  match c with
  | EmptyString => False
  | String a t => String.length t = followers a
  end.

Definition cut_short (c : string) : Prop :=
  match c with
  | EmptyString => False
  | String a t => String.length t <= followers a
  end.

(** A list of characters as [chars] gives them: whole ones, the last one
    whole or cut short. *)
Fixpoint well_cut (l : list string) : Prop :=
  match l with
  | [] => True
  | c :: l' =>
      match l' with
      | [] => cut_short c
      | _ :: _ => whole c /\ well_cut l'
      end
  end.

(** [s[:n]]: the first [n] characters. *)
Definition truncate (n : nat) (s : string) : string := join (firstn n (chars s)).

(** [len(s)]: the number of characters. *)
Definition len (s : string) : nat := List.length (chars s).

(** [int(s)] on the strings the bot itself writes: a run of decimal digits,
    with [-] before it for a negative number. *)
Definition int_of_decimal (s : string) : option Z :=
  match DecimalString.NilZero.int_of_string s with
  | Some d => Some (Z.of_int d)
  | None => None
  end.

End PyStrExt.


(* ===================================================================== *)
(** * More about the content client *)
(* ===================================================================== *)

Module ClientExt.
Import PyStr Client.

(** The chapter [x] has a key, and the key equals [q]. *)
Definition has_number (py : Python) (q : PyFloat) (x : Json) : bool :=
  match chap_key py x with
  | inr k => float_eq k q
  | inl _ => false
  end.

(** No chapter of the list has the key NaN. *)
Definition no_nan (py : Python) (items : list Json) : Prop :=
  forall x, In x items -> chap_key py x <> inr NaN.

(** Two chapters numbered 7 around one numbered 3. *)
Definition twice_seven : list Json :=
  [chapter_json "first" (JStr "7"); chapter_json "low" (JStr "3");
   chapter_json "second" (JStr "7.0")].

End ClientExt.


(* ===================================================================== *)
(** * More about the download job *)
(* ===================================================================== *)

Module WorkerExt.
Import PyStr Worker.

(** The characters [safe_title] keeps. *)
Definition kept (c : string) : bool :=
  isalnum c || String.eqb c " " || String.eqb c "_".

(** A file the [finally] block keeps. *)
Definition not_stray (title f : string) : bool := negb (stray title f).

(** A page that is not skipped. *)
Definition has_key (p : Page) : bool := negb (no_key p).

Section WithImage.
Context {Image : Type}.

(** The chapter handles a trace shows page lists asked for, in order. *)
Fixpoint page_requests (tr : list (Event Image)) : list string :=
  match tr with
  | [] => []
  | PagesRequest h :: tr' => h :: page_requests tr'
  | _ :: tr' => page_requests tr'
  end.

Definition preqs (s : State Image) : list string := page_requests (trace s).

(** The service answers for a list of chapters: every call for one of them
    returns its page list, and every download of an image of one of its
    pages that has a key succeeds. *)
Definition answers (w : World Image) (pages_of : string -> list Page)
    (chs : list Chapter) : Prop :=
  forall c, In c chs ->
    (forall t, get_chapter_pages w t (hid c) = inr (pages_of (hid c))) /\
    (forall t p, In p (pages_of (hid c)) -> no_key p = false ->
       exists img, download_image w t (image_url p) = inr img).

(** The pages of a list of chapters that have a key, in order. *)
Definition keyed_pages (pages_of : string -> list Page) (chs : list Chapter)
    : list Page :=
  List.filter has_key (all_pages pages_of chs).

(** The page-list calls of the fetch: one for each page of each chapter. *)
Definition refetches (pages_of : string -> list Page) (chs : list Chapter)
    : list string :=
  flat_map (fun c => repeat (hid c) (List.length (pages_of (hid c)))) chs.

(** The file at [p] reads as the bytes of [e], stored under its base name. *)
Definition reads_as (fs : list (string * Image)) (p : string) (e : Entry Image) : Prop :=
  lookup_file fs p = Some (snd e) /\ fst e = basename p.

(** Every page-list call for a chapter of the list returns its page list. *)
Definition listed (w : World Image) (pages_of : string -> list Page)
    (chs : list Chapter) : Prop :=
  forall c, In c chs -> forall t, get_chapter_pages w t (hid c) = inr (pages_of (hid c)).

(** The entries [a], [a+1], ..., [b-1] of a list. *)
Definition segment {A} (l : list A) (a b : nat) : list A :=
  firstn (b - a) (skipn a l).

End WithImage.

(** A chapter of four pages, the second and the fourth without a key. *)
Definition gaps_service : World Z :=
  mkWorld
    (fun _ h =>
       if String.eqb h "h1"
       then inr [mkPage (Some "a"); mkPage None; mkPage (Some "c"); mkPage (Some "")]
       else inl "Failed to get chapter pages: 404 Client Error")
    (fun _ url =>
       if String.eqb url "https://meo.comick.pictures/a" then inr 1000%Z
       else if String.eqb url "https://meo.comick.pictures/c" then inr 3000%Z
       else inl "Failed to download image: 404 Client Error")
    (fun _ _ => None)
    stored_size.

Definition gaps_pages (h : string) : list Page :=
  if String.eqb h "h1"
  then [mkPage (Some "a"); mkPage None; mkPage (Some "c"); mkPage (Some "")]
  else [].

(** A chapter whose two pages have no key. *)
Definition keyless_service : World Z :=
  mkWorld
    (fun _ h =>
       if String.eqb h "h1" then inr [mkPage None; mkPage (Some "")]
       else inl "Failed to get chapter pages: 404 Client Error")
    (fun _ _ => inl "Failed to download image: 404 Client Error")
    (fun _ _ => None)
    stored_size.

Definition keyless_pages (h : string) : list Page :=
  if String.eqb h "h1" then [mkPage None; mkPage (Some "")] else [].

(** A chapter of three pages; the image of the second one is not served. *)
Definition lost_service : World Z :=
  mkWorld
    (fun _ h =>
       if String.eqb h "h1"
       then inr [mkPage (Some "a"); mkPage (Some "b"); mkPage (Some "c")]
       else inl "Failed to get chapter pages: 404 Client Error")
    (fun _ url =>
       if String.eqb url "https://meo.comick.pictures/a" then inr 1000%Z
       else inl "Failed to download image: 404 Client Error")
    (fun _ _ => None)
    stored_size.

Definition lost_pages (h : string) : list Page :=
  if String.eqb h "h1"
  then [mkPage (Some "a"); mkPage (Some "b"); mkPage (Some "c")]
  else [].

End WorkerExt.

(* ===================================================================== *)
(** * The chat bot's keyboards and callback handlers *)
(* ===================================================================== *)

(** Python lists, indexed by integers. *)
Module PyList.

(** The position a slice bound [i] denotes in a list of [n] items. *)
Definition bound (n i : Z) : Z :=
  if (i <? 0)%Z then Z.max (i + n) 0 else Z.min i n.

(** [l[a:b]] *)
Definition slice {A} (l : list A) (a b : Z) : list A :=
  let n := Z.of_nat (List.length l) in
  let lo := bound n a in
  let hi := bound n b in
  firstn (Z.to_nat (hi - lo)) (skipn (Z.to_nat lo) l).

(** [l[i]]; [None] stands for [IndexError]. *)
Definition getitem {A} (l : list A) (i : Z) : option A :=
  let n := Z.of_nat (List.length l) in
  if (i <? 0)%Z
  then (if (i + n <? 0)%Z then None else nth_error l (Z.to_nat (i + n)))
  else nth_error l (Z.to_nat i).

End PyList.

Module Handlers.
Import PyStr PyStrExt PyList Worker.

(** [CHAPTERS_PER_PAGE = 8] *)
Definition CHAPTERS_PER_PAGE : Z := 8.

(** [InlineKeyboardButton(text, callback_data=...)] *)
Record Button := mkButton { text : string; callback_data : string }.

(** A chapter as the keyboard uses it: the chapter of the job
    ([chapter['hid']] and the text of [chapter.get('chap', 'N/A')]), and
    the text of [chapter['title']] when [chapter.get('title')] is truthy. *)
Record Listed := mkListed { chapter : Chapter; title : option string }.

(** The row of one chapter.  (The glyphs of the fixed labels below are kept
    as their bytes; the label of a chapter is cut to 40 characters.) *)
Definition chapter_button (c : Listed) : Button :=
  let chap_num := chap (chapter c) in
  let title := match title c with Some t => ": " ++ t | None => "" end in
  mkButton (truncate 40 ("Ch. " ++ chap_num ++ title)) ("dl_" ++ hid (chapter c)).

(** [build_chapter_keyboard(chapters, page)]: the rows of the markup. *)
Definition build_chapter_keyboard (chapters : list Listed) (page : Z)
    : list (list Button) :=
  let start_index := (page * CHAPTERS_PER_PAGE)%Z in
  let end_index := (start_index + CHAPTERS_PER_PAGE)%Z in
  let keyboard :=
    map (fun chapter => [chapter_button chapter]) (slice chapters start_index end_index) in
  let nav_row :=
    ((if (0 <? page)%Z
      then [mkButton "◀️" ("page_" ++ str_Z (page - 1))] else [])
     ++ [mkButton "📥 Download ALL" "dl_all"]
     ++ (if (end_index <? Z.of_nat (List.length chapters))%Z
         then [mkButton "▶️" ("page_" ++ str_Z (page + 1))] else []))%list in
  (keyboard ++ [nav_row]
   ++ [[mkButton "« Back to Manga Search" "back_to_search"]])%list.

(** The keyboard of the search results:
    [[[InlineKeyboardButton(f"{i+1}. {manga.get('title', 'N/A')}",
                            callback_data=f'manga_{i}')]
      for i, manga in enumerate(results)]]; a result is kept by the text of
    its title. *)
Fixpoint enumerate_results (i : Z) (results : list string) : list (list Button) :=
  match results with
  | [] => []
  | manga :: rest =>
      [mkButton (str_Z (i + 1) ++ ". " ++ manga) ("manga_" ++ str_Z i)]
        :: enumerate_results (i + 1) rest
  end.

Definition search_keyboard (results : list string) : list (list Button) :=
  enumerate_results 0 results.

Section WithInt.
(** [int(s)]; [None] stands for [ValueError]. *)
Variable int : string -> option Z.

(** The manga [select_manga] goes on with:
    [manga_index = int(query.data.split('_')[1])], then
    [context.user_data['search_results'][manga_index]]; [None] when one of
    the three steps raises. *)
Definition selected_manga {Manga} (search_results : list Manga) (data : string)
    : option Manga :=
  match nth_error (split "_" data) 1 with
  | None => None
  | Some field =>
      match int field with
      | None => None
      | Some manga_index => getitem search_results manga_index
      end
  end.

(** [change_chapter_page]: [page = int(query.data.split('_')[-1])], then the
    keyboard of that page. *)
Definition change_chapter_page (chapters : list Listed) (data : string)
    : option (list (list Button)) :=
  match int (last (split "_" data) "") with
  | None => None
  | Some page => Some (build_chapter_keyboard chapters page)
  end.

End WithInt.

(** What [download_action] reads off [query.data]: ['dl_all'], or the
    second field of the data. *)
Definition callback (data : string) : option Callback :=
  if String.eqb data "dl_all" then Some dl_all
  else match nth_error (split "_" data) 1 with
       | Some chapter_hid => Some (dl_chapter chapter_hid)
       | None => None
       end.

(** [download_action] on the data of a button of the keyboard of
    [all_chapters]. *)
Definition download_button (chat : Z) (manga_title : string)
    (all_chapters : list Listed) (data : string) : option Job :=
  match callback data with
  | Some q => download_action chat manga_title (map chapter all_chapters) q
  | None => None
  end.

(** The rows of a chapter keyboard above the two last ones, and the
    navigation row. *)
Definition chapter_rows (keyboard : list (list Button)) : list (list Button) :=
  firstn (List.length keyboard - 2) keyboard.

Definition nav_row (keyboard : list (list Button)) : list Button :=
  nth (List.length keyboard - 2) keyboard [].

(** The page shows at least one chapter. *)
Definition shows (chapters : list Listed) (page : Z) : Prop :=
  (0 <= page)%Z /\ (page * CHAPTERS_PER_PAGE < Z.of_nat (List.length chapters))%Z.

(** What comes before the first underscore of a string. *)
Definition before_underscore (s : string) : string := hd "" (split "_" s).

(** Twenty chapters, numbered 1 to 20, with handles [h1] to [h20]. *)
Definition twenty_chapters : list Listed :=
  map (fun n => mkListed (mkChapter ("h" ++ str_nat n) (str_nat n)) None) (seq 1 20).

End Handlers.

(* ===================================================================== *)
(** * The desktop viewer: the reader tab and the download to a file *)
(* ===================================================================== *)

Module Reader.
Import PyStr PyStrExt PyList Worker.

(** ** Turning pages *)

(** The part of [MangaReader]'s state the reader tab works on:
    [current_chapter_pages], [current_page_index], the text of
    [page_info_var], the pages an image thread was started for (oldest
    first), and [progress.json] as last written (the page whose
    [chapter_hid] it records, if any, and [page_index]). *)
Record View := mkView {
  current_chapter_pages : list Page;
  current_page_index : Z;
  page_info : string;
  started : list Page;
  progress : option (option Page * Z) }.

(** The state [__init__] and [setup_reader_tab] leave. *)
Definition init : View := mkView [] 0 "No chapter loaded" [] None.

(** [save_progress]; [None] stands for the [IndexError] of
    [self.current_chapter_pages[self.current_page_index]]. *)
Definition save_progress (v : View) : option View :=
  let written at_page :=
    mkView (current_chapter_pages v) (current_page_index v) (page_info v) (started v)
           (Some (at_page, current_page_index v)) in
  match current_chapter_pages v with
  | [] => Some (written None)
  | _ :: _ =>
      match getitem (current_chapter_pages v) (current_page_index v) with
      | Some page => Some (written (Some page))
      | None => None
      end
  end.

(** [f"Page {page_index + 1} of {len(self.current_chapter_pages)}"] *)
Definition page_label (page_index : Z) (n : nat) : string :=
  "Page " ++ str_Z (page_index + 1) ++ " of " ++ str_nat n.

(** [load_page(page_index)] *)
Definition load_page (v : View) (page_index : Z) : option View :=
  let pages := current_chapter_pages v in
  if match pages with [] => true | _ => false end
     || (page_index <? 0)%Z || (Z.of_nat (List.length pages) <=? page_index)%Z
  then Some v
  else
    match getitem pages page_index with
    | None => None
    | Some page =>
        save_progress
          (mkView pages page_index (page_label page_index (List.length pages))
                  (started v ++ [page])%list (progress v))
    end.

(** [display_chapter(pages, chapter)] *)
Definition display_chapter (v : View) (pages : list Page) : option View :=
  let v' := mkView pages 0 (page_info v) (started v) (progress v) in
  match pages with
  | [] => Some v'
  | _ :: _ => load_page v' 0
  end.

(** [prev_page] and [next_page] *)
Definition prev_page (v : View) : option View :=
  if (0 <? current_page_index v)%Z
  then load_page v (current_page_index v - 1)
  else Some v.

Definition next_page (v : View) : option View :=
  if (current_page_index v <? Z.of_nat (List.length (current_chapter_pages v)) - 1)%Z
  then load_page v (current_page_index v + 1)
  else Some v.

(** What happens to the reader tab: a chapter has been fetched and is
    displayed, the left or the right key is pressed, the window is closed
    ([on_close] saves the progress). *)
Inductive Action :=
| DisplayChapter (pages : list Page)
| PrevPage
| NextPage
| OnClose.

Definition step (v : View) (a : Action) : option View :=
  match a with
  | DisplayChapter pages => display_chapter v pages
  | PrevPage => prev_page v
  | NextPage => next_page v
  | OnClose => save_progress v
  end.

Fixpoint run (v : View) (actions : list Action) : option View :=
  match actions with
  | [] => Some v
  | a :: rest =>
      match step v a with
      | Some v' => run v' rest
      | None => None
      end
  end.

(** The view is on a page of its chapter, and says so. *)
Definition on_a_page (v : View) : Prop :=
  match current_chapter_pages v with
  | [] => current_page_index v = 0%Z
  | _ :: _ =>
      (0 <= current_page_index v < Z.of_nat (List.length (current_chapter_pages v)))%Z /\
      page_info v = page_label (current_page_index v)
                               (List.length (current_chapter_pages v))
  end.

(** ** [download_manga]: the download thread *)

Inductive Notice :=
| StatusSet (text : string)                    (* [status_var.set] *)
| ShowInfo (title message : string).           (* [messagebox.showinfo] *)

(** How the thread ends.  [Done]: the loops ran through; the file saved, if
    one was (its name and its pages), and what the window is then told.
    [Failed e]: an exception with message [e] reached the [except] clause
    (what the window shows then is left to the callback queued there, which
    reads [e] when it runs). *)
Inductive Outcome (Picture : Type) :=
| Done (saved : option (string * list Picture)) (notices : list Notice)
| Failed (e : string).
Arguments Done {Picture}.
Arguments Failed {Picture}.

Section Download.
Context {Image Picture : Type}.
Variable w : World Image.
(** [Image.open(io.BytesIO(img_data)).convert("RGB")]; [None] when it
    raises. *)
Variable open_rgb : Image -> option Picture.

(** The loop over the pages of one chapter; the number is that of the
    remote calls made so far. *)
Fixpoint download_pages (pages : list Page) (image_list : list Picture) (t : nat)
    : (string + list Picture) * nat :=
  match pages with
  | [] => (inr image_list, t)
  | page :: rest =>
      if no_key page then download_pages rest image_list t
      else
        match download_image w t (image_url page) with
        | inl e => (inl e, S t)
        | inr img_data =>
            match open_rgb img_data with
            | Some img => download_pages rest (image_list ++ [img])%list (S t)
            | None => download_pages rest image_list (S t)
            end
        end
  end.

(** The loop over the chapters; a chapter whose [hid] is missing or empty
    has the handle [""]. *)
Fixpoint download_chapters (chs : list Chapter) (image_list : list Picture) (t : nat)
    : (string + list Picture) * nat :=
  match chs with
  | [] => (inr image_list, t)
  | chapter :: rest =>
      if String.eqb (hid chapter) "" then download_chapters rest image_list t
      else
        match get_chapter_pages w t (hid chapter) with
        | inl e => (inl e, S t)
        | inr pages =>
            match download_pages pages image_list (S t) with
            | (inl e, t') => (inl e, t')
            | (inr image_list', t') => download_chapters rest image_list' t'
            end
        end
  end.

(** [download_thread] (the file is written without fault). *)
Definition download_thread (pdf_filename : string) (current_chapters : list Chapter)
    (t : nat) : Outcome Picture :=
  match fst (download_chapters current_chapters [] t) with
  | inr image_list =>
      Done (match image_list with
            | [] => None
            | _ :: _ => Some (pdf_filename, image_list)
            end)
           [StatusSet ("Downloaded as " ++ pdf_filename);
            ShowInfo "Download Complete" ("Saved as " ++ pdf_filename)]
  | inl e => Failed e
  end.

(** The pictures of the pages that have a key and an image that opens,
    when [image_of] gives the image of a page. *)
Definition page_pictures (image_of : Page -> Image) (pages : list Page)
    : list Picture :=
  flat_map (fun p => match open_rgb (image_of p) with Some x => [x] | None => [] end)
           (List.filter (fun p => negb (no_key p)) pages).

(** Those of the pages of the chapters that have a handle. *)
Definition pictures (pages_of : string -> list Page) (image_of : Page -> Image)
    (chs : list Chapter) : list Picture :=
  page_pictures image_of
    (flat_map (fun c => pages_of (hid c))
       (List.filter (fun c => negb (String.eqb (hid c) "")) chs)).

(** The service holds the chapters that have a handle: it returns their
    page lists, and the image of each page that has a key. *)
Definition holds (pages_of : string -> list Page) (image_of : Page -> Image)
    (chs : list Chapter) : Prop :=
  forall c, In c chs -> String.eqb (hid c) "" = false ->
    (forall t, get_chapter_pages w t (hid c) = inr (pages_of (hid c))) /\
    (forall t p, In p (pages_of (hid c)) -> no_key p = false ->
       download_image w t (image_url p) = inr (image_of p)).

End Download.

End Reader.

Local Open Scope list_scope.

(* ===================================================================== *)
(** * Facts about the string operations *)
(* ===================================================================== *)

Module PyStrFacts.
Import PyStr.
Local Open Scope string_scope.

Lemma startswith_iff (s p : string) :
  startswith s p = true <-> exists post, s = p ++ post.
Proof.
  revert s. induction p as [|a p IH]; intros s; simpl.
  - split; [intros _; now exists s | reflexivity].
  - destruct s as [|b s]; simpl.
    + split; [discriminate | intros [post H]; discriminate].
    + rewrite andb_true_iff, Ascii.eqb_eq, IH. split.
      * intros [-> [post ->]]. now exists post.
      * intros [post H]. injection H as -> ->. split; [reflexivity | now exists post].
Qed.

Lemma contains_iff (sub s : string) :
  contains sub s = true <-> exists pre post, s = pre ++ sub ++ post.
Proof.
  induction s as [|c s IH]; simpl.
  - rewrite orb_false_r, startswith_iff. split.
    + intros [post H]. now exists EmptyString, post.
    + intros [pre [post H]]. destruct pre; simpl in H; [now exists post | discriminate].
  - rewrite orb_true_iff, startswith_iff, IH. split.
    + intros [[post H] | [pre [post H]]].
      * now exists EmptyString, post.
      * exists (String c pre), post. simpl. now rewrite H.
    + intros [pre [post H]]. destruct pre as [|d pre]; simpl in H.
      * left. now exists post.
      * right. injection H as -> ->. now exists pre, post.
Qed.

Lemma contains_infix (pre sub post : string) :
  contains sub (pre ++ sub ++ post) = true.
Proof. apply contains_iff. now exists pre, post. Qed.

End PyStrFacts.

(* ===================================================================== *)
(** * Properties of the content client *)
(* ===================================================================== *)

Module ClientProofs.
Import PyStr Client.

(** ** Failures *)


(** A failed exchange leaves each of the three shapes a method body has
    with the normalized exception. *)
Section Normalized.
Context {A : Type} (lbl : string) (http : Http) (url : string) (cause : string).



End Normalized.



(** ** The order of the chapter list *)

Section Sorting.
Variable py : Python.

Lemma insert_by_key_perm kx l : Permutation (insert_by_key kx l) (kx :: l).
Proof.
  induction l as [|ky l IH]; simpl; [apply Permutation_refl|].
  destruct (float_lt (fst ky) (fst kx)); [|apply Permutation_refl].
  eapply Permutation_trans; [apply perm_skip, IH | apply perm_swap].
Qed.

Lemma insertion_sort_perm l : Permutation (insertion_sort l) l.
Proof.
  induction l as [|kx l IH]; simpl; [constructor|].
  eapply Permutation_trans; [apply insert_by_key_perm | apply perm_skip, IH].
Qed.

(** On the floats that are not NaN, [<] is the strict part of a total
    order. *)
Lemma float_lt_le (a b : PyFloat) : float_lt a b = true -> float_le a b.
Proof.
  destruct a as [p| | |], b as [q| | |]; simpl; try discriminate; auto.
  intros H. apply negb_true_iff in H.
  apply Qlt_le_weak, Qnot_le_lt. intros Hle. apply Qle_bool_iff in Hle. congruence.
Qed.

Lemma float_not_lt_le (a b : PyFloat) :
  is_nan a = false -> is_nan b = false -> float_lt a b = false -> float_le b a.
Proof.
  destruct a as [p| | |], b as [q| | |]; simpl; try discriminate; auto.
  intros _ _ H. apply negb_false_iff in H. apply Qle_bool_iff. exact H.
Qed.

Lemma float_le_trans (a b c : PyFloat) : float_le a b -> float_le b c -> float_le a c.
Proof.
  destruct a as [p| | |], b as [q| | |], c as [r| | |]; simpl; try tauto.
  apply Qle_trans.
Qed.

Lemma insert_by_key_sorted kx l :
  is_nan (fst kx) = false ->
  Forall (fun ky => is_nan (fst ky) = false) l ->
  StronglySorted key_le l -> StronglySorted key_le (insert_by_key kx l).
Proof.
  intros Hx Hn Hs. induction Hs as [|ky l Hs IH Hall]; simpl.
  - constructor; constructor.
  - apply Forall_cons_iff in Hn as [Hy Hn].
    destruct (float_lt (fst ky) (fst kx)) eqn:E.
    + constructor; [exact (IH Hn)|].
      eapply Permutation_Forall; [apply Permutation_sym, insert_by_key_perm|].
      constructor; [exact (float_lt_le _ _ E) | exact Hall].
    + pose proof (float_not_lt_le _ _ Hy Hx E) as Hle.
      constructor; [constructor; assumption|].
      constructor; [exact Hle|].
      eapply Forall_impl; [|exact Hall]. intros kz Hz. unfold key_le in *.
      eapply float_le_trans; eassumption.
Qed.

Lemma insertion_sort_sorted l :
  Forall (fun ky => is_nan (fst ky) = false) l ->
  StronglySorted key_le (insertion_sort l).
Proof.
  induction 1 as [|kx l Hx Hl IH]; simpl; [constructor|].
  apply insert_by_key_sorted; [exact Hx | | exact IH].
  eapply Permutation_Forall; [apply Permutation_sym, insertion_sort_perm | exact Hl].
Qed.

(** Without NaN, [list.sort] is the insertion sort. *)
Lemma sort_by_key_plain l :
  Forall (fun ky => is_nan (fst ky) = false) l ->
  sort_by_key py l = insertion_sort l.
Proof.
  intros H. unfold sort_by_key.
  destruct (existsb (fun kx => is_nan (fst kx)) l) eqn:E; [|reflexivity].
  apply existsb_exists in E as (kx & Hin & Hk).
  rewrite Forall_forall in H. rewrite (H kx Hin) in Hk. discriminate.
Qed.

(** [with_keys] pairs every item with its key, or leaves with the exception
    of the first item that has none. *)
Lemma with_keys_ok items keyed :
  with_keys py items = inr keyed ->
  map snd keyed = items /\
  Forall (fun kx => chap_key py (snd kx) = inr (fst kx)) keyed.
Proof.
  revert keyed. induction items as [|x items IH]; simpl; intros keyed.
  - intros [= <-]. split; constructor.
  - destruct (chap_key py x) as [e|k] eqn:Ek; simpl; [discriminate|].
    destruct (with_keys py items) as [e|krest]; simpl; [discriminate|].
    intros [= <-]. destruct (IH krest eq_refl) as [Hm Hf].
    split; [simpl; rewrite Hm; reflexivity | constructor; assumption].
Qed.

Lemma with_keys_total items :
  (forall x, In x items -> exists q, chap_key py x = inr q) ->
  exists keyed, with_keys py items = inr keyed.
Proof.
  induction items as [|x items IH]; simpl; intros H.
  - exists []. reflexivity.
  - destruct (H x (or_introl eq_refl)) as [q ->]. simpl.
    destruct IH as [krest ->]; [intros y Hy; apply H; right; exact Hy|].
    simpl. eexists. reflexivity.
Qed.

Lemma with_keys_raises items x e :
  In x items -> chap_key py x = inl e ->
  exists e', with_keys py items = inl e'.
Proof.
  induction items as [|y items IH]; simpl; [intros []|].
  intros [-> | Hin] He.
  - rewrite He. simpl. eexists. reflexivity.
  - destruct (chap_key py y) as [e0|k]; simpl; [eexists; reflexivity|].
    destruct (IH Hin He) as [e' ->]. simpl. eexists. reflexivity.
Qed.

(** The exception is that of the first item that has no key. *)
Lemma with_keys_first pre x post e :
  (forall y, In y pre -> exists k, chap_key py y = inr k) ->
  chap_key py x = inl e ->
  with_keys py (pre ++ x :: post) = inl e.
Proof.
  induction pre as [|y pre IH]; intros Hpre He; simpl.
  - rewrite He. reflexivity.
  - destruct (Hpre y (or_introl eq_refl)) as [k ->]. simpl.
    rewrite IH; [reflexivity | | exact He].
    intros z Hz. apply Hpre. right. exact Hz.
Qed.

(** A key fails with [AttributeError], [TypeError], [ValueError] or
    [OverflowError]: neither an exception of [requests] nor the plain
    [Exception] of the clients. *)
Lemma chap_key_exception x e :
  chap_key py x = inl e ->
  is_RequestException e = false /\ forall msg, e <> PlainException msg.
Proof.
  unfold chap_key, py_get, no_attribute, rbind. intros Ek.
  assert (Hf : forall v, py_float py v = inl e ->
             is_RequestException e = false /\ forall msg, e <> PlainException msg).
  { intros v. unfold py_float.
    destruct v as [| b | z | f | s | items | fields];
      try (intros H; discriminate H);
      try (intros [= <-]; split; [reflexivity | intros msg; discriminate]).
    - destruct (Z.abs z <=? 2 ^ 53)%Z; [discriminate|].
      destruct (float_of_int py z); [discriminate|].
      intros [= <-]. split; [reflexivity | intros msg; discriminate].
    - destruct (float_of_string py s); [discriminate|].
      intros [= <-]. split; [reflexivity | intros msg; discriminate]. }
  destruct x as [| b | z | f | s | items | fields];
    try (injection Ek as <-; split; [reflexivity | intros msg; discriminate]).
  destruct (lookup fields "chap") as [c|]; exact (Hf _ Ek).
Qed.

Lemma keys_not_RequestException items e :
  with_keys py items = inl e -> is_RequestException e = false.
Proof.
  induction items as [|x items IH]; simpl; [discriminate|].
  destruct (chap_key py x) as [e0|k] eqn:Ek; simpl.
  - intros [= <-]. exact (proj1 (chap_key_exception x e0 Ek)).
  - destruct (with_keys py items) as [e1|krest]; simpl; [|discriminate].
    intros [= <-]. apply IH. reflexivity.
Qed.

(** The sort of the chat bot's client, when no key is NaN: a permutation of
    the items, in ascending order of their keys. *)
Lemma sort_chapters_sorted items :
  (forall x, In x items -> exists k, chap_key py x = inr k /\ k <> NaN) ->
  exists l keys,
    sort_chapters py (JArr items) = inr l /\
    Permutation items l /\
    Forall2 (fun x k => chap_key py x = inr k) l keys /\
    StronglySorted float_le keys.
Proof.
  intros H.
  destruct (with_keys_total items) as [keyed Hk].
  { intros x Hx. destruct (H x Hx) as (k & Hkx & _). eauto. }
  destruct (with_keys_ok _ _ Hk) as [Hm Hf].
  assert (Hn : Forall (fun ky => is_nan (fst ky) = false) keyed).
  { rewrite Forall_forall in *. intros kx Hin.
    destruct (H (snd kx)) as (k & Hkx & Hnan).
    - rewrite <- Hm. apply in_map. exact Hin.
    - rewrite (Hf kx Hin) in Hkx. injection Hkx as <-.
      destruct (fst kx); try reflexivity. contradiction. }
  exists (map snd (insertion_sort keyed)), (map fst (insertion_sort keyed)).
  simpl. rewrite Hk. simpl. rewrite (sort_by_key_plain keyed Hn). repeat split.
  - rewrite <- Hm. apply Permutation_map, Permutation_sym, insertion_sort_perm.
  - assert (Hf' : Forall (fun kx => chap_key py (snd kx) = inr (fst kx))
                         (insertion_sort keyed))
      by (eapply Permutation_Forall; [apply Permutation_sym, insertion_sort_perm | exact Hf]).
    induction Hf'; simpl; constructor; assumption.
  - pose proof (insertion_sort_sorted keyed Hn) as Hs.
    induction Hs as [|kx l Hs IH Hall]; simpl; constructor; [exact IH|].
    rewrite Forall_map. exact Hall.
Qed.

End Sorting.

Lemma chap_key_zero (py : Python) (fields : list (string * Json)) :
  lookup fields "chap" = None \/ lookup fields "chap" = Some JNull \/
  lookup fields "chap" = Some (JStr "") ->
  chap_key py (JObj fields) = inr (Finite 0).
Proof.
  unfold chap_key, py_get, rbind. intros [-> | [-> | ->]]; reflexivity.
Qed.

Lemma chap_key_string (py : Python) (fields : list (string * Json)) (s : string) :
  lookup fields "chap" = Some (JStr s) -> s <> ""%string ->
  chap_key py (JObj fields) =
    match float_of_string py s with
    | Some f => inr f
    | None => inl (ValueError ("could not convert string to float: " ++ repr py s)%string)
    end.
Proof.
  unfold chap_key, py_get, rbind, or_zero. intros -> Hs. simpl.
  destruct (String.eqb s "") eqn:E; [apply String.eqb_eq in E; contradiction|].
  reflexivity.
Qed.

(** C9, as the code has it.  The chat bot's [get_chapters], on a response it
    can read whose [chapters] is a list: a chapter without a number, or with
    a null or empty one, has key 0, and a chapter whose number is a string
    has the float that [float] reads from it; when every chapter has a key
    and no key is NaN the call returns a permutation of the list in
    ascending order of the keys; when a chapter has no key the call raises
    the exception of the first such chapter, as it is, which is neither an
    exception of [requests] nor the clients' plain [Exception]: for a number
    that is a string [float] cannot read, the [ValueError] of [float]; and
    when every chapter has a key the call returns, with or without NaN.  The
    viewer's [get_chapters] returns the list as received. *)
Theorem bot_chapters_sorted (py : Python) (http : Http)
    (hid lang : string) (limit : nat) (r : Response) (data : Json) (items : list Json) :
  http (base_url ++ "/comic/" ++ hid ++ "/chapters?lang=" ++ lang
        ++ "&limit=" ++ str_nat limit)%string = inr r ->
  (400 <=? status_code r) && (status_code r <? 600) = false ->
  json_body r = inr data ->
  py_get data "chapters" (JArr []) = inr (JArr items) ->
  (forall fields,
     lookup fields "chap" = None \/ lookup fields "chap" = Some JNull \/
     lookup fields "chap" = Some (JStr "") ->
     chap_key py (JObj fields) = inr (Finite 0)) /\
  (forall fields s, lookup fields "chap" = Some (JStr s) -> s <> ""%string ->
     chap_key py (JObj fields) =
       match float_of_string py s with
       | Some f => inr f
       | None => inl (ValueError ("could not convert string to float: " ++ repr py s)%string)
       end) /\
  ((forall x, In x items -> exists k, chap_key py x = inr k /\ k <> NaN) ->
   exists l keys,
     Bot.get_chapters py http hid lang limit = inr l /\
     Permutation items l /\
     Forall2 (fun x k => chap_key py x = inr k) l keys /\
     StronglySorted float_le keys) /\
  (forall pre x post e,
     items = pre ++ x :: post ->
     (forall y, In y pre -> exists k, chap_key py y = inr k) ->
     chap_key py x = inl e ->
     Bot.get_chapters py http hid lang limit = inl e /\
     is_RequestException e = false /\ (forall msg, e <> PlainException msg)) /\
  (forall pre fields post s,
     items = pre ++ JObj fields :: post ->
     (forall y, In y pre -> exists k, chap_key py y = inr k) ->
     lookup fields "chap" = Some (JStr s) -> s <> ""%string ->
     float_of_string py s = None ->
     Bot.get_chapters py http hid lang limit
       = inl (ValueError ("could not convert string to float: " ++ repr py s)%string)) /\
  ((forall x, In x items -> exists k, chap_key py x = inr k) ->
   exists l, Bot.get_chapters py http hid lang limit = inr l) /\
  Viewer.get_chapters http hid lang limit = inr (JArr items).
Proof.
  intros Hget Hst Hjson Hchapters.
  assert (E : Bot.get_chapters py http hid lang limit =
              except_RequestException "Failed to get chapters"
                (sort_chapters py (JArr items))).
  { unfold Bot.get_chapters, requests_get, raise_for_status, json, rbind. cbv zeta.
    rewrite Hget. cbv beta iota. rewrite Hst, Hjson, Hchapters. reflexivity. }
  assert (Hfirst : forall pre x post e,
            items = pre ++ x :: post ->
            (forall y, In y pre -> exists k, chap_key py y = inr k) ->
            chap_key py x = inl e ->
            Bot.get_chapters py http hid lang limit = inl e /\
            is_RequestException e = false /\ (forall msg, e <> PlainException msg)).
  { intros pre x post e -> Hpre He.
    destruct (chap_key_exception py x e He) as [Hr Hp].
    rewrite E. cbn [sort_chapters]. rewrite (with_keys_first py pre x post e Hpre He).
    cbn [rbind except_RequestException]. rewrite Hr. auto. }
  split; [apply chap_key_zero|]. split; [apply chap_key_string|].
  split; [|split; [exact Hfirst | split; [|split]]].
  - intros Hall. destruct (sort_chapters_sorted py items Hall)
      as (l & keys & Hs & Hp & Hk & Hsorted).
    exists l, keys. rewrite E, Hs. auto.
  - intros pre fields post s Hitems Hpre Hchap Hs Hnone.
    apply (Hfirst pre (JObj fields) post _ Hitems Hpre).
    rewrite (chap_key_string py fields s Hchap Hs), Hnone. reflexivity.
  - intros Hall. destruct (with_keys_total py items Hall) as [keyed Hk].
    rewrite E. cbn [sort_chapters]. rewrite Hk. cbn. eauto.
  - unfold Viewer.get_chapters, requests_get, raise_for_status, json, rbind. cbv zeta.
    rewrite Hget. cbv beta iota. rewrite Hst, Hjson, Hchapters. reflexivity.
Qed.

(** [Extra] is no number: the call raises the [ValueError] of [float], and
    the chapter does not sort as 0. *)
Lemma bot_chapters_non_numeric_raises :
  Bot.get_chapters example_python (answering (JObj [("chapters", JArr with_extra)]))
                   "h" "en" 100
  = inl (ValueError "could not convert string to float: 'Extra'").
Proof. reflexivity. Qed.

(** The viewer's [get_chapters] returns the list in the order received. *)
Lemma viewer_chapters_in_remote_order :
  Viewer.get_chapters (answering (JObj [("chapters", JArr five_chapters)])) "h" "en" 100
  = inr (JArr five_chapters).
Proof. reflexivity. Qed.

(** Five chapters numbered 10, 2.5, null, nothing and 2.5. *)
Lemma five_chapters_have_keys :
  forall x, In x five_chapters ->
    exists k, chap_key example_python x = inr k /\ k <> NaN.
Proof.
  intros x [<- | [<- | [<- | [<- | [<- | []]]]]];
    eexists; (split; [reflexivity | discriminate]).
Defined.

(** They come back in the order null, nothing, 2.5, 2.5, 10. *)
Lemma bot_chapters_sorted_witness :
  let http := answering (JObj [("chapters", JArr five_chapters)]) in
  (exists r data,
     http (base_url ++ "/comic/h/chapters?lang=en&limit=" ++ str_nat 100)%string = inr r /\
     (400 <=? status_code r) && (status_code r <? 600) = false /\
     json_body r = inr data /\
     py_get data "chapters" (JArr []) = inr (JArr five_chapters)) /\
  (forall x, In x five_chapters ->
     exists k, chap_key example_python x = inr k /\ k <> NaN) /\
  exists l keys,
    Bot.get_chapters example_python http "h" "en" 100 = inr l /\
    Permutation five_chapters l /\
    Forall2 (fun x k => chap_key example_python x = inr k) l keys /\
    StronglySorted float_le keys.
Proof.
  intros http. split; [|split; [exact five_chapters_have_keys|]].
  - eexists _, _. repeat split.
  - exact (proj1 (proj2 (proj2
      (bot_chapters_sorted example_python http "h" "en" 100
         (mkResponse 200 "" [] (inr (JObj [("chapters", JArr five_chapters)])))
         (JObj [("chapters", JArr five_chapters)]) five_chapters
         eq_refl eq_refl eq_refl eq_refl))) five_chapters_have_keys).
Defined.


End ClientProofs.

(* ===================================================================== *)
(** * Properties of the download job *)
(* ===================================================================== *)

Module WorkerProofs.
Import PyStr PyStrFacts Worker.

Section WithImage.
Context {Image : Type}.
Local Abbreviation State := (State Image).
Local Abbreviation World := (World Image).
Local Abbreviation Entry := (Entry Image).

(** ** Reasoning about runs *)

Lemma wp_bind {A B} (m : M A) (f : A -> M B) (Q : Result B -> State -> Prop) s :
  wp m (fun r s1 =>
          match r with
          | Ok a => wp (f a) Q s1
          | Raise e => Q (Raise e) s1
          | OutOfFuel => Q OutOfFuel s1
          end) s ->
  wp (bind m f) Q s.
Proof.
  unfold wp, bind. destruct (m s) as [[a|e|] s1]; simpl; auto.
Qed.

Lemma wp_mono {A} (m : M A) (Q Q' : Result A -> State -> Prop) s :
  (forall r s', Q r s' -> Q' r s') -> wp m Q s -> wp m Q' s.
Proof. unfold wp. auto. Qed.

Lemma wp_ret {A} (a : A) (Q : Result A -> State -> Prop) s :
  Q (Ok a) s -> wp (ret a) Q s.
Proof. auto. Qed.

Lemma wp_raise {A} (e : string) (Q : Result A -> State -> Prop) s :
  Q (Raise e) s -> wp (raise e) Q s.
Proof. auto. Qed.

Lemma wp_run {A} (m : M A) (Q : Result A -> State -> Prop) s r s' :
  m s = (r, s') -> wp m Q s -> Q r s'.
Proof. unfold wp. intros ->. auto. Qed.

(** ** The parts sent and the images asked for *)

Lemma sent_documents_app (t1 t2 : list (Event Image)) :
  sent_documents (t1 ++ t2) = sent_documents t1 ++ sent_documents t2.
Proof.
  induction t1 as [|e t1 IH]; simpl; [reflexivity|].
  destruct e; simpl; rewrite ?IH; reflexivity.
Qed.

Lemma image_requests_app (t1 t2 : list (Event Image)) :
  image_requests (t1 ++ t2) = image_requests t1 ++ image_requests t2.
Proof.
  induction t1 as [|e t1 IH]; simpl; [reflexivity|].
  destruct e; simpl; rewrite ?IH; reflexivity.
Qed.

(** ** The packer *)

Section Packer.
Variable w : World.

(** The inner loop changes nothing; it stops either short of the end, one
    step back from a file it has written into an archive that is now over
    the ceiling, or at the end with an archive within bounds. *)
Lemma fill_part_spec rest : forall page_index pages zipf s,
  pages = List.length zipf ->
  fits w zipf ->
  wp (fill_part w rest page_index pages zipf)
     (fun r s' =>
        s' = s /\
        forall page_index' zipf', r = Ok (page_index', zipf') ->
          (rest <> [] \/ zipf <> [] -> zipf' <> []) /\
          ((page_index' < page_index + List.length rest /\
            (SAFE_LIMIT < getsize w zipf')%Z /\ 2 <= List.length zipf')
           \/ (page_index' = page_index + List.length rest /\ fits w zipf'))) s.
Proof.
  induction rest as [|page_path rest IH]; intros page_index pages zipf s Hp Hfit.
  - simpl. apply wp_ret. split; [reflexivity|].
    intros ? ? [= <- <-]. split; [intros [H|H]; congruence|]. right. split; [lia | exact Hfit].
  - simpl. apply wp_bind. unfold wp at 1, read_file.
    destruct (scratch s) as [fs|]; simpl; [|split; [reflexivity | discriminate]].
    destruct (lookup_file fs page_path) as [img|]; simpl;
      [|split; [reflexivity | discriminate]].
    set (zipf' := zipf ++ [(basename page_path, img)]).
    assert (Hlen : List.length zipf' = pages + 1)
      by (unfold zipf'; rewrite length_app; simpl; lia).
    destruct ((SAFE_LIMIT <? getsize w zipf')%Z && (0 <? pages)) eqn:Hc.
    + apply wp_ret. split; [reflexivity|].
      intros ? ? [= <- <-]. apply andb_true_iff in Hc as [Hs Hpg].
      apply Z.ltb_lt in Hs. apply Nat.ltb_lt in Hpg.
      split; [intros _ E; rewrite E in Hlen; simpl in Hlen; lia|].
      left. simpl. repeat split; lia.
    + eapply wp_mono; [|apply (IH (page_index + 1) (pages + 1) zipf' s)].
      * intros r s' [-> H]. split; [reflexivity|].
        intros pi z Hr. destruct (H pi z Hr) as [Hne Hcase].
        split.
        { intros _. apply Hne. right.
          intros E; rewrite E in Hlen; simpl in Hlen; lia. }
        simpl. destruct Hcase as [(Hlt & Hs & Hl) | (He & Hf)].
        { left. repeat split; try assumption; lia. }
        { right. split; [lia | exact Hf]. }
      * lia.
      * apply andb_false_iff in Hc as [Hs | Hpg].
        { left. apply Z.ltb_ge in Hs. exact Hs. }
        { right. apply Nat.ltb_ge in Hpg. lia. }
Qed.


Lemma wp_emit (e : Event Image) (Q : Result unit -> State -> Prop) s :
  Q (Ok tt) (mkState (clock s) (scratch s) (cwd s) (trace s ++ [e])) -> wp (emit e) Q s.
Proof. auto. Qed.

Lemma docs_emit s c f d (e : Event Image) :
  docs (mkState c f d (trace s ++ [e])) =
  docs s ++ match e with SendDocument n z => [(n, z)] | _ => [] end.
Proof. unfold docs. simpl. rewrite sent_documents_app. destruct e; reflexivity. Qed.

Lemma pack_post_nil title single paths part_num page_index s r :
  (forall part_num', r = Ok part_num' ->
     part_num' = part_num /\ List.length paths <= page_index) ->
  pack_post w title single paths part_num page_index s r s.
Proof.
  intros H. exists []. rewrite app_nil_r. repeat split; auto.
  - destruct (H _ H0) as [-> _]. simpl. lia.
  - intros Hlt. destruct (H _ H0) as [_ Hge]. lia.
Qed.

Lemma pack_parts_spec title single paths fuel : forall part_num page_index s,
  wp (pack_parts w fuel title single paths part_num page_index)
     (pack_post w title single paths part_num page_index s) s.
Proof.
  induction fuel as [|fuel IH]; intros part_num page_index s; simpl;
    destruct (page_index <? List.length paths) eqn:Hlt.
  - apply pack_post_nil. discriminate.
  - apply Nat.ltb_ge in Hlt. apply wp_ret, pack_post_nil. intros ? [= <-]. auto.
  - apply Nat.ltb_lt in Hlt.
    set (cbz := cbz_filename title single part_num).
    apply wp_bind, wp_emit. apply wp_bind. unfold wp at 1, create_file. simpl.
    match goal with |- wp _ _ ?s1 => set (s1' := s1) end.
    assert (Hd1 : docs s1' = docs s) by (unfold s1'; rewrite docs_emit, app_nil_r; reflexivity).
    apply wp_bind.
    eapply wp_mono; [|apply (fill_part_spec (skipn page_index paths) page_index 0 [] s1');
                       [reflexivity | right; simpl; lia]].
    intros r s2 [-> Hfill].
    destruct r as [[page_index' zipf]|e|].
    2,3: (exists []; rewrite app_nil_r; repeat split; auto; try discriminate; lia).
    destruct (Hfill _ _ eq_refl) as [Hne Hcase]. clear Hfill.
    assert (Hz : zipf <> []).
    { apply Hne. left. intros E.
      apply (f_equal (@List.length _)) in E. rewrite length_skipn in E. simpl in E. lia. }
    apply wp_bind, wp_emit. apply wp_bind.
    unfold send_document. apply wp_bind. unfold wp at 1, tick. simpl.
    destruct (upload w (clock s) cbz) as [e|].
    { apply wp_raise. exists []. rewrite app_nil_r.
      repeat split; auto; try discriminate; try lia.
      unfold docs. simpl. rewrite sent_documents_app, app_nil_r. exact Hd1. }
    apply wp_emit. apply wp_bind. unfold wp at 1, os_remove. simpl.
    match goal with |- wp _ _ ?s3 => set (s3' := s3) end.
    assert (Hd3 : docs s3' = docs s ++ [(cbz, zipf)]).
    { unfold s3', docs. simpl. rewrite !sent_documents_app. simpl.
      rewrite ?app_nil_r. reflexivity. }
    eapply wp_mono; [|apply (IH (part_num + 1) page_index' s3')].
    intros r s4 (new & Hdocs & Hall & Hnames & Hnil & Hok).
    exists ((cbz, zipf) :: new). repeat split.
    + rewrite Hdocs, Hd3, <- app_assoc. reflexivity.
    + constructor; assumption.
    + simpl. rewrite Hnames. f_equal. f_equal. f_equal. lia.
    + lia.
    + destruct (Hok _ H) as [-> _]. simpl. lia.
    + intros _. destruct (Hok _ H) as [_ Hlast].
      rewrite length_skipn in Hcase.
      destruct Hcase as [(Hshort & _) | (Hend & Hfit)].
      * destruct Hlast as (init & d & -> & Hf); [lia|].
        exists ((cbz, zipf) :: init), d. split; [reflexivity | exact Hf].
      * rewrite Hnil by lia.
        exists [], (cbz, zipf). split; [reflexivity | exact Hfit].
  - apply Nat.ltb_ge in Hlt. apply wp_ret, pack_post_nil. intros ? [= <-]. auto.
Qed.

End Packer.
(** ** The pre-pass and the fetch: what they leave alone *)

Section Frames.
Variable w : World.

Ltac frame_simpl :=
  unfold docs, imgs; simpl;
  rewrite ?sent_documents_app, ?image_requests_app; simpl; rewrite ?app_nil_r.

Lemma wp_api_get_chapter_pages chapter_hid (Q : Result (list Page) -> State -> Prop) s :
  (forall r, Q r (mkState (S (clock s)) (scratch s) (cwd s)
                          (trace s ++ [PagesRequest chapter_hid]))) ->
  wp (api_get_chapter_pages w chapter_hid) Q s.
Proof.
  intros H. unfold api_get_chapter_pages.
  apply wp_bind. unfold wp at 1, tick. simpl.
  apply wp_bind, wp_emit.
  destruct (get_chapter_pages w (clock s) chapter_hid); [apply wp_raise | apply wp_ret]; apply H.
Qed.

(** The pre-pass sends nothing, asks for no image and touches no file. *)
Lemma count_pages_frame chs : forall counts total s,
  wp (count_pages w chs counts total)
     (fun _ s' => docs s' = docs s /\ imgs s' = imgs s /\
                  scratch s' = scratch s /\ cwd s' = cwd s) s.
Proof.
  induction chs as [|c chs IH]; intros counts total s; simpl.
  - apply wp_ret. auto.
  - apply wp_bind. unfold api_get_chapter_pages.
    apply wp_bind. unfold wp at 1, tick. simpl.
    apply wp_bind, wp_emit.
    destruct (get_chapter_pages w (clock s) (hid c)) as [e|pages].
    + apply wp_raise. frame_simpl. auto.
    + apply wp_ret. eapply wp_mono; [|apply IH].
      intros _ s' (-> & -> & -> & ->). frame_simpl. auto.
Qed.

(** The fetch sends nothing and leaves the working directory alone. *)
Lemma fetch_pages_frame dir c n total page_nums : forall idx paths s,
  wp (fetch_pages w dir c n total page_nums idx paths)
     (fun _ s' => docs s' = docs s /\ cwd s' = cwd s) s.
Proof.
  induction page_nums as [|p page_nums IH]; intros idx paths s; simpl.
  - apply wp_ret. auto.
  - apply wp_bind, wp_emit. apply wp_bind. unfold api_get_chapter_pages.
    apply wp_bind. unfold wp at 1, tick. simpl.
    apply wp_bind, wp_emit.
    destruct (get_chapter_pages w (clock s) (hid c)) as [e|pages].
    { apply wp_raise. frame_simpl. auto. }
    apply wp_ret.
    destruct (nth_error pages p) as [page|]; [|apply wp_raise; frame_simpl; auto].
    destruct (no_key page).
    { eapply wp_mono; [|apply IH]. intros _ s' [-> ->]. frame_simpl. auto. }
    apply wp_bind. unfold api_download_image.
    apply wp_bind. unfold wp at 1, tick. simpl.
    apply wp_bind, wp_emit.
    destruct (download_image w (S (clock s)) (image_url page)) as [e|img].
    { apply wp_raise. frame_simpl. auto. }
    apply wp_ret. apply wp_bind. unfold wp at 1, write_file. simpl.
    destruct (scratch s) as [fs|]; simpl; [|frame_simpl; auto].
    eapply wp_mono; [|apply IH]. intros _ s' [-> ->]. frame_simpl. auto.
Qed.

Lemma fetch_chapters_frame dir counts total chs : forall idx paths s,
  wp (fetch_chapters w dir counts total chs idx paths)
     (fun _ s' => docs s' = docs s /\ cwd s' = cwd s) s.
Proof.
  induction chs as [|c chs IH]; intros idx paths s; simpl.
  - apply wp_ret. auto.
  - destruct (counts_get counts (hid c)) as [n|]; [|apply wp_raise; auto].
    apply wp_bind. eapply wp_mono; [|apply fetch_pages_frame].
    intros r s1 [Hd Hc]. destruct r as [[idx' paths']|e|]; auto.
    eapply wp_mono; [|apply IH]. intros _ s' [-> ->]. auto.
Qed.

(** The packing loop asks for no image and leaves the scratch files alone. *)
Lemma fill_part_same rest : forall page_index pages zipf s,
  wp (fill_part w rest page_index pages zipf) (fun _ s' => s' = s) s.
Proof.
  induction rest as [|p rest IH]; intros page_index pages zipf s; simpl.
  - apply wp_ret. reflexivity.
  - apply wp_bind. unfold wp at 1, read_file.
    destruct (scratch s) as [fs|]; simpl; [|reflexivity].
    destruct (lookup_file fs p) as [img|]; simpl; [|reflexivity].
    match goal with |- wp (if ?c then _ else _) _ _ => destruct c end.
    + apply wp_ret. reflexivity.
    + apply IH.
Qed.

Lemma pack_parts_frame title single paths fuel : forall part_num page_index s,
  wp (pack_parts w fuel title single paths part_num page_index)
     (fun _ s' => imgs s' = imgs s /\ scratch s' = scratch s) s.
Proof.
  induction fuel as [|fuel IH]; intros part_num page_index s; simpl;
    destruct (page_index <? List.length paths); try (apply wp_ret; auto); [unfold wp; simpl; auto|].
  apply wp_bind, wp_emit. apply wp_bind. unfold wp at 1, create_file. simpl.
  apply wp_bind. eapply wp_mono; [|apply fill_part_same].
  intros r s1 ->. destruct r as [[page_index' zipf]|e|]; try (frame_simpl; auto).
  apply wp_bind, wp_emit. apply wp_bind. unfold send_document.
  apply wp_bind. unfold wp at 1, tick. simpl.
  match goal with |- wp (match ?u with _ => _ end) _ _ => destruct u end.
  { apply wp_raise. frame_simpl. auto. }
  apply wp_emit. apply wp_bind. unfold wp at 1, os_remove. simpl.
  eapply wp_mono; [|apply IH]. intros _ s' [H1 H2]. unfold imgs in *. rewrite H1, H2. simpl.
  rewrite ?image_requests_app. simpl. rewrite ?app_nil_r. auto.
Qed.

End Frames.
(** ** The fetch, when the service answers *)

Lemma skipn_nth_error {A} (l : list A) : forall j x,
  nth_error l j = Some x -> skipn j l = x :: skipn (S j) l.
Proof.
  induction l as [|a l IH]; intros [|j] x H; simpl in *; try discriminate.
  - injection H as ->. reflexivity.
  - apply IH. exact H.
Qed.

Lemma counts_get_In (d : Counts) k v : counts_get d k = Some v -> In (k, v) d.
Proof.
  unfold counts_get. destruct (find _ d) as [[k' v']|] eqn:E; [|discriminate].
  intros [= <-]. apply find_some in E as [Hin Heq]. simpl in Heq.
  apply String.eqb_eq in Heq. subst. exact Hin.
Qed.

Section Fetch.
Variable w : World.

(** The page list each chapter handle stands for. *)
Variable pages_of : string -> list Page.
Variable dir : string.

Lemma count_pages_ok chs : forall counts total s,
  steady w pages_of chs -> counts_true pages_of counts ->
  wp (count_pages w chs counts total)
     (fun r _ => exists counts',
        r = Ok (counts', total + List.length (all_pages pages_of chs)) /\
        counts_true pages_of counts' /\
        forall k, (counts_get counts k <> None \/ exists c, In c chs /\ hid c = k) ->
                  counts_get counts' k <> None) s.
Proof.
  induction chs as [|c chs IH]; intros counts total s Hst Hct; simpl.
  - apply wp_ret. exists counts. rewrite Nat.add_0_r. repeat split; auto.
    intros k [H | (c & [] & _)]. exact H.
  - destruct (Hst c (or_introl eq_refl)) as (Hget & _).
    apply wp_bind. unfold api_get_chapter_pages.
    apply wp_bind. unfold wp at 1, tick. simpl.
    apply wp_bind, wp_emit. rewrite Hget. apply wp_ret.
    eapply wp_mono; [|apply IH].
    + intros r _ (counts' & -> & Hct' & Hhas). exists counts'.
      unfold all_pages. simpl. rewrite length_app, Nat.add_assoc.
      repeat split; auto.
      intros k [H | (c' & [<- | Hin] & Hk)]; apply Hhas.
      * left. unfold counts_get, counts_set in *. simpl.
        destruct (String.eqb (hid c) k); [discriminate | exact H].
      * left. unfold counts_get, counts_set. simpl. rewrite Hk, String.eqb_refl.
        discriminate.
      * right. exists c'. auto.
    + intros c' Hin. apply Hst. right. exact Hin.
    + intros k v [[= <- <-] | Hin]; [reflexivity | apply Hct; exact Hin].
Qed.

Lemma fetch_pages_ok c n total : forall k j idx paths s fs,
  (forall t, get_chapter_pages w t (hid c) = inr (pages_of (hid c))) ->
  (forall p, In p (pages_of (hid c)) -> no_key p = false) ->
  (forall t p, In p (pages_of (hid c)) ->
     exists img, download_image w t (image_url p) = inr img) ->
  j + k = List.length (pages_of (hid c)) ->
  scratch s = Some fs ->
  wp (fetch_pages w dir c n total (seq j k) idx paths)
     (fun r s' =>
        r = Ok (idx + k, paths ++ map (img_path dir) (seq idx k)) /\
        exists files,
          scratch s' = Some (fs ++ files) /\
          map fst files = map (img_path dir) (seq idx k) /\
          Forall2 (holds_image w) files (skipn j (pages_of (hid c))) /\
          imgs s' = imgs s ++ map image_url (skipn j (pages_of (hid c)))) s.
Proof.
  intros k. induction k as [|k IH]; intros j idx paths s fs Hget Hkey Hdl Hjk Hs; simpl.
  - apply wp_ret. rewrite Nat.add_0_r, !app_nil_r. split; [reflexivity|].
    exists []. rewrite app_nil_r.
    assert (E : skipn j (pages_of (hid c)) = []) by (apply skipn_all2; lia).
    rewrite E. simpl. rewrite app_nil_r. repeat split; auto.
  - apply wp_bind, wp_emit. apply wp_bind. unfold api_get_chapter_pages.
    apply wp_bind. unfold wp at 1, tick. simpl.
    apply wp_bind, wp_emit. rewrite Hget. apply wp_ret.
    destruct (nth_error (pages_of (hid c)) j) as [page|] eqn:Hnth;
      [|apply nth_error_None in Hnth; lia].
    assert (Hin : In page (pages_of (hid c))) by (eapply nth_error_In; eauto).
    rewrite (Hkey _ Hin).
    apply wp_bind. unfold api_download_image.
    apply wp_bind. unfold wp at 1, tick. simpl.
    apply wp_bind, wp_emit.
    destruct (Hdl (S (clock s)) page Hin) as [img Himg]. rewrite Himg.
    apply wp_ret. apply wp_bind. unfold wp at 1, write_file. simpl.
    rewrite Hs. simpl.
    eapply wp_mono; [|apply (IH (S j) (idx + 1) _ _ (fs ++ [(img_path dir idx, img)]));
                       auto; lia].
    intros r s' (-> & files & Hsc & Hnames & Hall & Himgs).
    split.
    { f_equal. f_equal; [lia|]. rewrite <- app_assoc. simpl.
      replace (idx + 1) with (S idx) by lia. reflexivity. }
    exists ((img_path dir idx, img) :: files).
    rewrite (skipn_nth_error _ _ _ Hnth). repeat split.
    + rewrite Hsc, <- app_assoc. reflexivity.
    + simpl. rewrite Hnames. replace (idx + 1) with (S idx) by lia. reflexivity.
    + constructor; [exists (S (clock s)); exact Himg | exact Hall].
    + rewrite Himgs. unfold imgs. cbn [trace]. rewrite !image_requests_app.
      cbn [image_requests map]. rewrite !app_nil_r, <- app_assoc. reflexivity.
Qed.

Lemma fetch_chapters_ok counts total chs : forall idx paths s fs,
  steady w pages_of chs ->
  (forall c, In c chs ->
     counts_get counts (hid c) = Some (List.length (pages_of (hid c)))) ->
  scratch s = Some fs ->
  wp (fetch_chapters w dir counts total chs idx paths)
     (fun r s' =>
        let n := List.length (all_pages pages_of chs) in
        r = Ok (idx + n, paths ++ map (img_path dir) (seq idx n)) /\
        exists files,
          scratch s' = Some (fs ++ files) /\
          map fst files = map (img_path dir) (seq idx n) /\
          Forall2 (holds_image w) files (all_pages pages_of chs) /\
          imgs s' = imgs s ++ map image_url (all_pages pages_of chs)) s.
Proof.
  induction chs as [|c chs IH]; intros idx paths s fs Hst Hcounts Hs; simpl.
  - apply wp_ret. rewrite Nat.add_0_r, !app_nil_r. split; [reflexivity|].
    exists []. rewrite !app_nil_r. repeat split; auto.
  - rewrite (Hcounts c (or_introl eq_refl)).
    destruct (Hst c (or_introl eq_refl)) as (Hget & Hkey & Hdl).
    apply wp_bind.
    eapply wp_mono; [|apply (fetch_pages_ok c _ total _ 0 idx paths s fs); auto].
    intros r s1 (-> & files1 & Hsc1 & Hn1 & Hall1 & Himg1). simpl in Hall1, Himg1.
    eapply wp_mono; [|apply (IH _ _ s1 (fs ++ files1)); auto].
    + intros r s2 (-> & files2 & Hsc2 & Hn2 & Hall2 & Himg2).
      unfold all_pages. simpl. rewrite length_app.
      set (n1 := List.length (pages_of (hid c))) in *.
      set (n2 := List.length (flat_map (fun c0 => pages_of (hid c0)) chs)) in *.
      split.
      { f_equal. f_equal; [lia|]. rewrite <- app_assoc, seq_app, map_app. reflexivity. }
      exists (files1 ++ files2). repeat split.
      * rewrite Hsc2, app_assoc. reflexivity.
      * rewrite map_app, Hn1, Hn2, seq_app, map_app. reflexivity.
      * apply Forall2_app; assumption.
      * rewrite Himg2, Himg1, map_app, app_assoc. reflexivity.
    + intros c' Hin. apply Hst. right. exact Hin.
    + intros c' Hin. apply Hcounts. right. exact Hin.
Qed.

End Fetch.
(** ** The job as a whole *)

Section Job.
Variable w : World.

Lemma fill_part_fits rest entries :
  forall zipf page_index pages s fs,
    scratch s = Some fs ->
    Forall2 (fun p e => lookup_file fs p = Some (snd e) /\ fst e = basename p)
            rest entries ->
    pages = List.length zipf ->
    (forall k, 2 <= k -> (getsize w (firstn k (zipf ++ entries)) <= SAFE_LIMIT)%Z) ->
    fill_part w rest page_index pages zipf s =
    (Ok (page_index + List.length rest, zipf ++ entries), s).
Proof.
  intros zipf page_index pages s fs Hs Hall. revert zipf page_index pages.
  induction Hall as [|p e rest entries [Hp He] Hall IH]; intros zipf page_index pages Hlen Hfit.
  - simpl. unfold ret. rewrite Nat.add_0_r, app_nil_r. reflexivity.
  - simpl. unfold bind at 1, read_file. rewrite Hs, Hp.
    assert (Ee : (basename p, snd e) = e) by (rewrite <- He; destruct e; reflexivity).
    cbv beta iota zeta. rewrite Ee.
    match goal with |- (if ?c then _ else _) _ = _ => assert (Hc : c = false) end.
    { destruct pages as [|pages]; [apply andb_false_r|].
      apply andb_false_iff. left. apply Z.ltb_ge.
      specialize (Hfit (S (S pages)) ltac:(lia)).
      replace (zipf ++ e :: entries) with ((zipf ++ [e]) ++ entries) in Hfit
        by (rewrite <- app_assoc; reflexivity).
      rewrite firstn_app, firstn_all2 in Hfit by (rewrite length_app; simpl; lia).
      replace (S (S pages) - List.length (zipf ++ [e])) with 0 in Hfit
        by (rewrite length_app; cbn [List.length]; lia).
      simpl in Hfit. rewrite app_nil_r in Hfit. exact Hfit. }
    rewrite Hc.
    etransitivity; [apply (IH (zipf ++ [e]) (page_index + 1) (pages + 1))|].
    + rewrite length_app. simpl. lia.
    + intros k Hk. rewrite <- app_assoc. simpl. apply Hfit. exact Hk.
    + rewrite <- app_assoc. simpl. do 2 f_equal. f_equal. lia.
Qed.

(** Whatever the service does, the parts a job sends are those of its
    packing loop, started at part 1. *)
Lemma archive_body_parts fuel job s :
  wp (archive_body w fuel job)
     (fun _ s' => exists new,
        docs s' = docs s ++ new /\
        Forall (fun d => snd d <> []) new /\
        map fst new =
          map (cbz_filename (safe_title (archive_title job))
                            (is_single_chapter_download (archive_title job)))
              (seq 1 (List.length new))) s.
Proof.
  assert (Hnil : forall s' : State, docs s' = docs s ->
            exists new, docs s' = docs s ++ new /\
              Forall (fun d => snd d <> []) new /\
              map fst new =
                map (cbz_filename (safe_title (archive_title job))
                       (is_single_chapter_download (archive_title job)))
                    (seq 1 (List.length new))).
  { intros s' H. exists []. rewrite app_nil_r. repeat split; auto. }
  unfold archive_body. apply wp_bind.
  eapply wp_mono; [|apply count_pages_frame].
  intros r s1 (Hd1 & _). destruct r as [[counts total]|e|]; auto.
  destruct (total =? 0).
  { apply wp_bind, wp_emit. unfold send_message. apply wp_emit. apply Hnil.
    unfold docs in *. simpl. rewrite !sent_documents_app. simpl.
    rewrite !app_nil_r. exact Hd1. }
  apply wp_bind. unfold wp at 1, rmtree_if_exists. simpl.
  apply wp_bind. unfold wp at 1, makedirs. simpl.
  apply wp_bind. eapply wp_mono; [|apply fetch_chapters_frame].
  intros r s2 (Hd2 & _). unfold docs in Hd2 at 2. simpl in Hd2. fold (docs s1) in Hd2.
  destruct r as [[idx paths]|e|]; try (apply Hnil; congruence).
  destruct paths as [|p paths].
  { apply wp_bind, wp_emit. unfold send_message. apply wp_emit. apply Hnil.
    unfold docs in *. simpl. rewrite !sent_documents_app. simpl.
    rewrite !app_nil_r. congruence. }
  apply wp_bind. eapply wp_mono; [|apply pack_parts_spec].
  intros r s3 (new & Hd3 & Hall & Hnames & _).
  assert (Hres : forall s' : State, docs s' = docs s3 ->
            exists new, docs s' = docs s ++ new /\
              Forall (fun d => snd d <> []) new /\
              map fst new =
                map (cbz_filename (safe_title (archive_title job))
                       (is_single_chapter_download (archive_title job)))
                    (seq 1 (List.length new))).
  { intros s' H. exists new. rewrite H, Hd3, Hd2, Hd1. auto. }
  destruct r as [part_num|e|]; try (apply Hres; reflexivity).
  apply wp_bind. unfold send_message. apply wp_emit.
  unfold delete_message. apply wp_emit. apply Hres.
  unfold docs. simpl. rewrite !sent_documents_app. simpl. rewrite !app_nil_r. reflexivity.
Qed.

Lemma archive_worker_parts fuel job s :
  wp (archive_worker w fuel job)
     (fun _ s' => exists new,
        docs s' = docs s ++ new /\
        Forall (fun d => snd d <> []) new /\
        map fst new =
          map (cbz_filename (safe_title (archive_title job))
                            (is_single_chapter_download (archive_title job)))
              (seq 1 (List.length new))) s.
Proof.
  pose proof (archive_body_parts fuel job s) as H.
  unfold wp in *. unfold archive_worker, try_except_finally.
  destruct (archive_body w fuel job s) as [[[]|e|] s1]; simpl in *; auto.
  destruct H as (new & Hd & Hall & Hn). exists new. repeat split; auto.
  rewrite <- Hd. unfold docs. simpl. rewrite !sent_documents_app. simpl.
  rewrite !app_nil_r. reflexivity.
Qed.

End Job.
(** ** The properties of the specification *)

Lemma wp_and {A} (m : M A) (Q1 Q2 : Result A -> State -> Prop) s :
  wp m Q1 s -> wp m Q2 s -> wp m (fun r s' => Q1 r s' /\ Q2 r s') s.
Proof. unfold wp. auto. Qed.

Lemma counts_get_found (pages_of : string -> list Page) (d : Counts) k :
  counts_true pages_of d -> counts_get d k <> None ->
  counts_get d k = Some (List.length (pages_of k)).
Proof.
  intros Ht Hn. destruct (counts_get d k) as [v|] eqn:E; [|congruence].
  apply counts_get_In in E. rewrite (Ht _ _ E). reflexivity.
Qed.

(** C4. When every call for a chapter of the job returns the chapter's page
    list, every page has a key and every download succeeds, and the pages
    number [n > 0], the plan totals [n] and the try block leaves exactly [n]
    files in the scratch directory: they are named by the numbers 1..n in
    the order written, the k-th holds the image of the k-th page in chapter
    order and page order, and the images asked for are those pages', in that
    order. *)
Theorem fetched_pages_numbered (w : World) (pages_of : string -> list Page)
    (fuel : nat) (job : Job) (s : State) :
  steady w pages_of (chapters job) ->
  0 < List.length (all_pages pages_of (chapters job)) ->
  let n := List.length (all_pages pages_of (chapters job)) in
  let s' := snd (archive_body w fuel job s) in
  (exists counts, fst (count_pages w (chapters job) [] 0 s) = Ok (counts, n)) /\
  exists files,
    scratch s' = Some files /\
    List.length files = n /\
    map fst files = map (img_path (temp_dir (chat_id job))) (seq 1 n) /\
    Forall2 (holds_image w) files (all_pages pages_of (chapters job)) /\
    imgs s' = imgs s ++ map image_url (all_pages pages_of (chapters job)).
Proof.
  intros Hst Hpos n s'.
  assert (Hcount : wp (count_pages w (chapters job) [] 0)
            (fun r s1 =>
               (exists counts', r = Ok (counts', 0 + n) /\
                  counts_true pages_of counts' /\
                  forall k, (counts_get [] k <> None \/
                             exists c, In c (chapters job) /\ hid c = k) ->
                            counts_get counts' k <> None) /\
               docs s1 = docs s /\ imgs s1 = imgs s /\
               scratch s1 = scratch s /\ cwd s1 = cwd s) s).
  { apply wp_and; [apply count_pages_ok; [exact Hst | intros k v []]
                  | apply count_pages_frame]. }
  split.
  { destruct Hcount as [(counts' & E & _) _]. exists counts'. exact E. }
  enough (H : wp (archive_body w fuel job)
            (fun _ s' => exists files,
               scratch s' = Some files /\
               map fst files = map (img_path (temp_dir (chat_id job))) (seq 1 n) /\
               Forall2 (holds_image w) files (all_pages pages_of (chapters job)) /\
               imgs s' = imgs s ++ map image_url (all_pages pages_of (chapters job))) s).
  { destruct H as (files & H1 & H2 & H3 & H4). exists files. repeat split; auto.
    rewrite <- (length_map fst), H2, length_map, length_seq. reflexivity. }
  unfold archive_body. apply wp_bind.
  eapply wp_mono; [|exact Hcount].
  intros r s1 [(counts & -> & Htrue & Hhas) (_ & Hi1 & _)]. simpl.
  destruct (n =? 0) eqn:En; [apply Nat.eqb_eq in En; unfold n in En; lia|].
  apply wp_bind. unfold wp at 1, rmtree_if_exists. simpl.
  apply wp_bind. unfold wp at 1, makedirs. simpl.
  apply wp_bind.
  eapply wp_mono;
    [|apply (fetch_chapters_ok w pages_of (temp_dir (chat_id job)) counts n
               (chapters job) 1 [] _ []); auto].
  2:{ intros c Hin. apply counts_get_found; [exact Htrue|].
      apply Hhas. right. exists c. auto. }
  cbv zeta. fold n.
  intros r s2 (-> & files & Hsc & Hnames & Hall & Himgs). simpl in Hsc.
  unfold imgs in Himgs at 2. simpl in Himgs. fold (imgs s1) in Himgs. rewrite Hi1 in Himgs.
  assert (Hdone : forall s3 : State, scratch s3 = scratch s2 -> imgs s3 = imgs s2 ->
            exists files,
              scratch s3 = Some files /\
              map fst files = map (img_path (temp_dir (chat_id job))) (seq 1 n) /\
              Forall2 (holds_image w) files (all_pages pages_of (chapters job)) /\
              imgs s3 = imgs s ++ map image_url (all_pages pages_of (chapters job))).
  { intros s3 E1 E2. exists files. rewrite E1, E2. auto. }
  simpl. destruct (map (img_path (temp_dir (chat_id job))) (seq 1 n)) as [|p paths] eqn:Ep.
  { apply (f_equal (@List.length _)) in Ep. rewrite length_map, length_seq in Ep.
    simpl in Ep. unfold n in Ep. lia. }
  apply wp_bind. eapply wp_mono; [|apply pack_parts_frame].
  intros r s3 [Hi3 Hs3].
  destruct r as [part_num|e|]; try (apply Hdone; assumption).
  apply wp_bind. unfold send_message. apply wp_emit.
  unfold delete_message. apply wp_emit. apply Hdone.
  - simpl. exact Hs3.
  - unfold imgs in *. simpl. rewrite !image_requests_app. simpl.
    rewrite !app_nil_r. exact Hi3.
Qed.

(** No part sent holds zero files, whatever the list of paths, the fuel and
    the world; and a list of one file, over the ceiling or not, is sent as
    one part holding that file. *)
Theorem sealed_parts_nonempty (w : World) (title : string) (single : bool)
    (paths : list string) :
  (forall fuel part_num page_index s new,
     docs (snd (pack_parts w fuel title single paths part_num page_index s))
       = docs s ++ new ->
     Forall (fun part => snd part <> []) new) /\
  (forall fuel p img fs s,
     paths = [p] ->
     scratch s = Some fs ->
     lookup_file fs p = Some img ->
     upload w (clock s) (cbz_filename title single 1) = None ->
     let run := pack_parts w (S fuel) title single paths 1 0 s in
     fst run = Ok 2 /\
     docs (snd run) = docs s ++ [(cbz_filename title single 1, [(basename p, img)])]).
Proof.
  split.
  - intros fuel part_num page_index s new Hnew.
    destruct (pack_parts_spec w title single paths fuel part_num page_index s)
      as (new' & Hd & Hall & _).
    rewrite Hd in Hnew. apply app_inv_head in Hnew. subst. exact Hall.
  - intros fuel p img fs s -> Hs Hp Hup run. unfold run.
    change (wp (pack_parts w (S fuel) title single [p] 1 0)
              (fun r s' => r = Ok 2 /\
                 docs s' = docs s ++ [(cbz_filename title single 1, [(basename p, img)])]) s).
    cbn [pack_parts List.length Nat.ltb Nat.leb].
    apply wp_bind, wp_emit. apply wp_bind. unfold wp at 1, create_file. cbn [fst snd].
    apply wp_bind. cbn [skipn fill_part].
    apply wp_bind. unfold wp at 1, read_file. cbn [scratch]. rewrite Hs, Hp. cbn [fst snd app].
    rewrite andb_false_r. apply wp_ret.
    apply wp_bind, wp_emit. apply wp_bind. unfold send_document.
    apply wp_bind. unfold wp at 1, tick. cbn [fst snd clock]. rewrite Hup.
    apply wp_emit. apply wp_bind. unfold wp at 1, os_remove. cbn [fst snd].
    replace (pack_parts w fuel title single [p] (1 + 1) (0 + 1))
      with (@ret Image nat 2) by (destruct fuel; reflexivity).
    apply wp_ret. split; [reflexivity|].
    unfold docs. cbn [trace]. rewrite !sent_documents_app. cbn [sent_documents].
    rewrite !app_nil_r. reflexivity.
Qed.

(** C3, as the code has it.  The name of a part depends on the flag alone:
    with the flag set every part carries the bare title, split or not, and
    with the flag clear the k-th part carries [_Part_k], from 1 on.  The flag
    is set for every single-chapter job.  A list whose archive never measures
    over the ceiling once it holds two files is sent as one part; and a run
    that is completed after some part of two or more files measured over the
    ceiling has sent two parts or more. *)
Theorem part_names_follow_flag (w : World) (title : string) :
  (forall chat manga_title all_chapters h job,
     download_action chat manga_title all_chapters (dl_chapter h) = Some job ->
     is_single_chapter_download (archive_title job) = true) /\
  (forall fuel single paths s new,
     docs (snd (pack_parts w fuel title single paths 1 0 s)) = docs s ++ new ->
     map fst new =
       map (fun k => ((if single then title
                       else title ++ "_Part_" ++ str_nat k) ++ ".cbz")%string)
           (seq 1 (List.length new))) /\
  (forall fuel single paths entries s fs,
     paths <> [] ->
     scratch s = Some fs ->
     Forall2 (fun p e => lookup_file fs p = Some (snd e) /\ fst e = basename p)
             paths entries ->
     (forall k, 2 <= k -> (getsize w (firstn k entries) <= SAFE_LIMIT)%Z) ->
     upload w (clock s) (cbz_filename title single 1) = None ->
     let run := pack_parts w (S fuel) title single paths 1 0 s in
     fst run = Ok 2 /\
     docs (snd run) = docs s ++ [(cbz_filename title single 1, entries)]) /\
  (forall fuel single paths s part_num new,
     fst (pack_parts w fuel title single paths 1 0 s) = Ok part_num ->
     docs (snd (pack_parts w fuel title single paths 1 0 s)) = docs s ++ new ->
     (exists part, In part new /\
        (SAFE_LIMIT < getsize w (snd part))%Z /\ 2 <= List.length (snd part)) ->
     2 <= List.length new).
Proof.
  split; [|split; [|split]].
  - intros chat manga_title all_chapters h job. simpl.
    destruct (find _ all_chapters) as [c|]; [|discriminate].
    intros [= <-]. exact (contains_infix manga_title "_Ch_" (chap c)).
  - intros fuel single paths s new Hnew.
    destruct (pack_parts_spec w title single paths fuel 1 0 s)
      as (new' & Hd & _ & Hnames & _).
    rewrite Hd in Hnew. apply app_inv_head in Hnew. subst new'.
    rewrite Hnames. apply map_ext. intros k.
    unfold cbz_filename, part_name. destruct single; reflexivity.
  - intros fuel single paths entries s fs Hne Hs Hall Hfit Hup run. unfold run.
    change (wp (pack_parts w (S fuel) title single paths 1 0)
              (fun r s' => r = Ok 2 /\
                 docs s' = docs s ++ [(cbz_filename title single 1, entries)]) s).
    assert (Hlen : 0 < List.length paths) by (destruct paths; [congruence | simpl; lia]).
    cbn [pack_parts]. apply Nat.ltb_lt in Hlen. rewrite Hlen.
    apply wp_bind, wp_emit. apply wp_bind. unfold wp at 1, create_file. cbn [fst snd].
    apply wp_bind. unfold wp at 1. cbn [skipn].
    erewrite fill_part_fits; [| exact Hs | exact Hall | reflexivity | exact Hfit].
    cbn [fst snd app].
    apply wp_bind, wp_emit. apply wp_bind. unfold send_document.
    apply wp_bind. unfold wp at 1, tick. cbn [fst snd clock]. rewrite Hup.
    apply wp_emit. apply wp_bind. unfold wp at 1, os_remove. cbn [fst snd].
    replace (pack_parts w fuel title single paths (1 + 1) (0 + List.length paths))
      with (@ret Image nat 2).
    2:{ destruct fuel; cbn [pack_parts];
          rewrite (proj2 (Nat.ltb_ge _ _)) by (cbn; lia); reflexivity. }
    apply wp_ret. split; [reflexivity|].
    unfold docs. cbn [trace]. rewrite !sent_documents_app. cbn [sent_documents].
    rewrite !app_nil_r. reflexivity.
  - intros fuel single paths s part_num new Hok Hnew (part & Hin & Hover & Hlen).
    pose proof (pack_parts_spec w title single paths fuel 1 0 s) as Hspec.
    unfold wp in Hspec. destruct Hspec as (new' & Hd & _ & _ & Hnil & Hlast).
    rewrite Hd in Hnew. apply app_inv_head in Hnew. subst new'.
    destruct (Hlast _ Hok) as [_ Hfits].
    destruct (Nat.lt_ge_cases 0 (List.length paths)) as [Hp | Hp].
    + destruct (Hfits Hp) as (init & d & -> & Hd_fits).
      rewrite length_app. simpl.
      destruct init as [|d0 init]; [|simpl; lia].
      simpl in Hin. destruct Hin as [<- | []].
      destruct Hd_fits as [Hsz | Hl]; lia.
    + rewrite (Hnil Hp) in Hin. destruct Hin.
Qed.

(** C6. When the plan totals zero pages the job ends at once: the status
    message is set to the no-pages text and the notice follows, these being
    the last things the job does; no image has been asked for, no part sent,
    and afterwards the scratch directory does not exist and the working
    directory holds no archive of the job's title. *)
Theorem empty_plan_aborts (w : World) (fuel : nat) (job : Job)
    (scratch0 : option (list (string * Image))) (cwd0 : list string)
    (counts : Counts) (s1 : State) :
  count_pages w (chapters job) [] 0 (start scratch0 cwd0) = (Ok (counts, 0), s1) ->
  let run := archive_worker w fuel job (start scratch0 cwd0) in
  fst run = Ok tt /\
  trace (snd run) =
    trace s1 ++
    [EditMessage (StatusText "Could not get page counts. Aborting.");
     SendMessage "Error retrieving page information. Please try again or /start a new search."] /\
  image_requests (trace (snd run)) = [] /\
  sent_documents (trace (snd run)) = [] /\
  scratch (snd run) = None /\
  forall f, In f (cwd (snd run)) -> stray (safe_title (archive_title job)) f = false.
Proof.
  intros Hplan run.
  pose proof (count_pages_frame w (chapters job) [] 0 (start scratch0 cwd0)) as Hfr.
  unfold wp in Hfr. rewrite Hplan in Hfr. simpl in Hfr.
  destruct Hfr as (Hd & Hi & _). unfold docs, imgs in Hd, Hi. simpl in Hd, Hi.
  assert (E : run = (Ok tt,
            mkState (clock s1) None
              (List.filter (fun f => negb (stray (safe_title (archive_title job)) f)) (cwd s1))
              (trace s1 ++
               [EditMessage (StatusText "Could not get page counts. Aborting.")] ++
               [SendMessage "Error retrieving page information. Please try again or /start a new search."]))).
  { unfold run, archive_worker, try_except_finally, archive_body.
    unfold bind at 1. rewrite Hplan. simpl.
    unfold bind, edit_message_text, send_message, emit, cleanup. simpl.
    rewrite <- app_assoc. reflexivity. }
  rewrite E. simpl. repeat split.
  - rewrite image_requests_app, Hi. reflexivity.
  - rewrite sent_documents_app, Hd. reflexivity.
  - intros f Hin. apply filter_In in Hin as [_ Hf]. apply negb_true_iff in Hf. exact Hf.
Qed.

(** C7. However the job ends (completed, aborted for want of pages, or
    with an exception raised anywhere in the try block and reported), the
    [finally] block has run: the scratch directory does not exist and the
    working directory holds no file that ends in [.cbz] or [.zip] and starts
    with the sanitized title. *)
Theorem cleanup_always_runs (w : World) (fuel : nat) (job : Job)
    (s : State) (r : Result unit) (s' : State) :
  archive_worker w fuel job s = (r, s') ->
  r <> OutOfFuel ->
  r = Ok tt /\
  scratch s' = None /\
  forall f, In f (cwd s') -> stray (safe_title (archive_title job)) f = false.
Proof.
  unfold archive_worker, try_except_finally.
  destruct (archive_body w fuel job s) as [[[]|e|] s1]; simpl.
  - intros [= <- <-] _. simpl. repeat split.
    intros f Hin. apply filter_In in Hin as [_ Hf]. apply negb_true_iff in Hf. exact Hf.
  - intros [= <- <-] _. simpl. repeat split.
    intros f Hin. apply filter_In in Hin as [_ Hf]. apply negb_true_iff in Hf. exact Hf.
  - intros [= <- <-] H. congruence.
Qed.

(** C10. The flag is set exactly when the title contains [_Ch_]; so every
    part of a download-all job whose manga title contains [_Ch_] carries the
    bare sanitized title, however many parts there are. *)
Theorem single_flag_is_title_marker :
  (forall title,
     is_single_chapter_download title = true <->
     exists pre post, title = (pre ++ "_Ch_" ++ post)%string) /\
  (forall (w : World) fuel chat manga_title all_chapters job s new,
     download_action chat manga_title all_chapters dl_all = Some job ->
     (exists pre post, manga_title = (pre ++ "_Ch_" ++ post)%string) ->
     docs (snd (archive_worker w fuel job s)) = docs s ++ new ->
     forall part, In part new ->
       fst part = (safe_title manga_title ++ ".cbz")%string).
Proof.
  split.
  - intros title. apply contains_iff.
  - intros w fuel chat manga_title all_chapters job s new [= <-] Hch Hnew part Hin.
    destruct (archive_worker_parts w fuel (mkJob chat manga_title all_chapters) s)
      as (new' & Hd & _ & Hnames).
    rewrite Hd in Hnew. apply app_inv_head in Hnew. subst new'. simpl in Hnames.
    apply (in_map fst) in Hin. rewrite Hnames in Hin.
    apply in_map_iff in Hin as (k & <- & _).
    unfold cbz_filename, part_name, is_single_chapter_download.
    rewrite (proj2 (contains_iff _ _) Hch). reflexivity.
Qed.

End WithImage.

(** ** Runs of the examples *)

(** C1, on the code.  Three pages of 30, 10 and 10 MiB: the third page takes
    the archive over the ceiling, and the archive is sent with the three
    pages in it, 50 MiB and more. *)
Theorem oversize_part_is_sent :
  let w := service three_pages None in
  let run := archive_worker w 5 (mkJob 7 "Title" one_chapter) (start None []) in
  let first := [("0001.jpg", 30 * MiB); ("0002.jpg", 10 * MiB); ("0003.jpg", 10 * MiB)]%Z in
  fst run = Ok tt /\
  sent_documents (trace (snd run)) =
    [("Title_Part_1.cbz", first);
     ("Title_Part_2.cbz", [("0002.jpg", 10 * MiB); ("0003.jpg", 10 * MiB)]%Z)] /\
  (getsize w first = 50 * MiB + 114)%Z /\
  (SAFE_LIMIT < getsize w first)%Z.
Proof. vm_compute. repeat split; reflexivity. Qed.

(** C2, on the code.  The same job: the scratch directory holds pages 1, 2
    and 3, and the parts sent hold, in order, pages 1, 2, 3, 2, 3. *)
Theorem pages_repeated_across_parts :
  let w := service three_pages None in
  let s := snd (archive_body w 5 (mkJob 7 "Title" one_chapter) (start None [])) in
  option_map (map fst) (scratch s) =
    Some ["./temp_7/0001.jpg"; "./temp_7/0002.jpg"; "./temp_7/0003.jpg"] /\
  map fst (List.concat (map snd (sent_documents (trace s)))) =
    ["0001.jpg"; "0002.jpg"; "0003.jpg"; "0002.jpg"; "0003.jpg"].
Proof. vm_compute. split; reflexivity. Qed.

(** A single-chapter job that goes over the ceiling once: the first part is
    sent over the ceiling, a second part follows, and both carry the bare
    title, without [_Part_1] and [_Part_2]. *)
Lemma split_single_chapter_keeps_bare_name :
  let w := service three_pages None in
  exists job,
    download_action 7 "Title" one_chapter (dl_chapter "h1") = Some job /\
    sent_documents (trace (snd (archive_worker w 5 job (start None [])))) =
      [("Title_Ch_1.cbz",
        [("0001.jpg", 30 * MiB); ("0002.jpg", 10 * MiB); ("0003.jpg", 10 * MiB)]%Z);
       ("Title_Ch_1.cbz", [("0002.jpg", 10 * MiB); ("0003.jpg", 10 * MiB)]%Z)] /\
    (SAFE_LIMIT <
     getsize w [("0001.jpg", 30 * MiB); ("0002.jpg", 10 * MiB); ("0003.jpg", 10 * MiB)])%Z.
Proof. eexists. split; [reflexivity | vm_compute; split; reflexivity]. Qed.

(** Two pages of 30 MiB: every part is sent with both pages in it and the
    cursor is back at the first; the loop does not end. *)
Lemma two_large_pages_never_packed (title : string) (single : bool) :
  let w := service [("h1", [("a", 30 * MiB); ("b", 30 * MiB)])]%Z None in
  let fs := [("./temp_7/0001.jpg", 30 * MiB); ("./temp_7/0002.jpg", 30 * MiB)]%Z in
  forall fuel part_num s,
    scratch s = Some fs ->
    fst (pack_parts w fuel title single (map fst fs) part_num 0 s) = OutOfFuel.
Proof.
  intros w fs fuel. induction fuel as [|fuel IH]; intros part_num s Hs; [reflexivity|].
  destruct s as [c sc d tr]. cbn [scratch] in Hs. subst sc.
  cbn [pack_parts map fst fs List.length Nat.ltb Nat.leb skipn].
  unfold bind at 1. cbn [edit_message_text emit clock scratch cwd trace].
  unfold bind at 1. cbn [create_file clock scratch cwd trace].
  unfold bind at 1.
  match goal with |- context [fill_part ?w0 ?r ?i ?p ?z ?s0] =>
    replace (fill_part w0 r i p z s0)
      with (@Ok (nat * list (Entry Z)) (0, [("0001.jpg", 30 * MiB); ("0002.jpg", 30 * MiB)]%Z), s0)
      by (vm_compute; reflexivity)
  end.
  cbv beta iota.
  unfold bind at 1. cbn [edit_message_text emit clock scratch cwd trace].
  unfold bind at 1. unfold send_document, bind at 1.
  cbn [tick upload w service clock scratch cwd trace emit].
  unfold bind at 1. cbn [os_remove clock scratch cwd trace].
  apply IH. reflexivity.
Qed.

(** C5, on the code.  A page of 60 MiB followed by one of 1000 bytes: the
    first page alone is over the ceiling, and it is never alone in a part.
    Every part sent holds both pages, the cursor is back at the first page
    after each part, and the loop does not end: with any fuel it runs out,
    having sent as many parts as it had fuel.  So does the job. *)
Theorem oversize_page_is_not_alone :
  let w := service [("h1", [("a", 60 * MiB); ("b", 1000)])]%Z None in
  let fs := [("./temp_7/0001.jpg", 60 * MiB); ("./temp_7/0002.jpg", 1000)]%Z in
  let both := [("0001.jpg", 60 * MiB); ("0002.jpg", 1000)]%Z in
  (SAFE_LIMIT < getsize w [("0001.jpg", 60 * MiB)%Z])%Z /\
  (forall fuel part_num s,
     scratch s = Some fs ->
     let run := pack_parts w fuel "Title" false (map fst fs) part_num 0 s in
     fst run = OutOfFuel /\
     docs (snd run)
       = docs s ++ map (fun k => (cbz_filename "Title" false k, both)) (seq part_num fuel)) /\
  (let run := archive_worker w 3 (mkJob 7 "Title" one_chapter) (start None []) in
   fst run = OutOfFuel /\
   docs (snd run) = [("Title_Part_1.cbz", both); ("Title_Part_2.cbz", both);
                     ("Title_Part_3.cbz", both)]).
Proof.
  intros w fs both. split; [vm_compute; reflexivity|]. split.
  - intros fuel. induction fuel as [|fuel IH]; intros part_num s Hs run.
    + split; [reflexivity|]. cbn. now rewrite app_nil_r.
    + subst run. destruct s as [c sc d tr]. cbn [scratch] in Hs. subst sc.
      cbn [pack_parts map fst fs List.length Nat.ltb Nat.leb skipn].
      unfold bind at 1. cbn [edit_message_text emit clock scratch cwd trace].
      unfold bind at 1. cbn [create_file clock scratch cwd trace].
      unfold bind at 1.
      match goal with |- context [fill_part ?w0 ?r ?i ?p ?z ?s0] =>
        replace (fill_part w0 r i p z s0)
          with (@Ok (nat * list (Entry Z)) (0, both), s0)
          by (vm_compute; reflexivity)
      end.
      cbv beta iota.
      unfold bind at 1. cbn [edit_message_text emit clock scratch cwd trace].
      unfold bind at 1. unfold send_document, bind at 1.
      cbn [tick upload w service clock scratch cwd trace emit].
      unfold bind at 1. cbn [os_remove clock scratch cwd trace].
      match goal with |- context [pack_parts _ fuel _ _ _ ?pn _ ?s1] =>
        destruct (IH pn s1 eq_refl) as [Hr Hd]; cbv zeta in Hr, Hd
      end.
      split; [exact Hr|]. etransitivity; [exact Hd|]. unfold docs. cbn [trace].
      rewrite !sent_documents_app. cbn [sent_documents app].
      rewrite !app_nil_r, <- app_assoc. cbn [seq map app].
      replace (part_num + 1) with (S part_num) by lia. reflexivity.
  - vm_compute. split; reflexivity.
Qed.

(** *** Instances *)

(** The service of the three small pages is steady. *)
Lemma small_pages_steady :
  steady (service small_pages None) (pages_held small_pages) one_chapter.
Proof.
  intros c [<- | []]. split; [|split].
  - intros t. reflexivity.
  - intros p [<- | [<- | [<- | []]]]; reflexivity.
  - intros t p [<- | [<- | [<- | []]]]; eexists; reflexivity.
Defined.

(** Three small pages: three files, numbered 1 to 3. *)
Lemma fetched_pages_numbered_witness :
  let w := service small_pages None in
  let job := mkJob 7 "Title" one_chapter in
  let s' := snd (archive_body w 5 job (start None [])) in
  steady w (pages_held small_pages) (chapters job) /\
  0 < List.length (all_pages (pages_held small_pages) (chapters job)) /\
  exists files,
    scratch s' = Some files /\
    List.length files = 3 /\
    map fst files = ["./temp_7/0001.jpg"; "./temp_7/0002.jpg"; "./temp_7/0003.jpg"] /\
    Forall2 (holds_image w) files (all_pages (pages_held small_pages) (chapters job)) /\
    imgs s' = ["https://meo.comick.pictures/a"; "https://meo.comick.pictures/b";
               "https://meo.comick.pictures/c"].
Proof.
  intros w job s'.
  split; [exact small_pages_steady|]. split; [vm_compute; lia|].
  exact (proj2 (fetched_pages_numbered w (pages_held small_pages) 5 job (start None [])
                  small_pages_steady (Nat.lt_0_succ 2))).
Defined.

(** The three small pages fit together. *)
Lemma small_entries_fit :
  forall k, 2 <= k ->
    (getsize (service small_pages None)
       (firstn k [("0001.jpg", 1000); ("0002.jpg", 2000); ("0003.jpg", 3000)]%Z)
     <= SAFE_LIMIT)%Z.
Proof.
  intros [|[|[|k]]] Hk; try lia.
  - vm_compute. discriminate.
  - cbn [firstn]. rewrite firstn_nil. vm_compute. discriminate.
Defined.

(** Three small pages, flag clear: one part, named [Title_Part_1.cbz].
    The three large pages: the first part measures over the ceiling, the run
    is completed, and two parts have been sent. *)
Lemma part_names_follow_flag_witness :
  let w := service small_pages None in
  let fs := [("./temp_7/0001.jpg", 1000); ("./temp_7/0002.jpg", 2000);
             ("./temp_7/0003.jpg", 3000)]%Z in
  let entries := [("0001.jpg", 1000); ("0002.jpg", 2000); ("0003.jpg", 3000)]%Z in
  let s := mkState 7 (Some fs) [] [] in
  let w3 := service three_pages None in
  let fs3 := [("./temp_7/0001.jpg", 30 * MiB); ("./temp_7/0002.jpg", 10 * MiB);
              ("./temp_7/0003.jpg", 10 * MiB)]%Z in
  let first3 := ("Title_Part_1.cbz",
                 [("0001.jpg", 30 * MiB); ("0002.jpg", 10 * MiB); ("0003.jpg", 10 * MiB)]%Z) in
  let run3 := pack_parts w3 5 "Title" false (map fst fs3) 1 0 (mkState 7 (Some fs3) [] []) in
  ((map fst fs <> [] /\
    Forall2 (fun p e => lookup_file fs p = Some (snd e) /\ fst e = basename p)
            (map fst fs) entries /\
    (forall k, 2 <= k -> (getsize w (firstn k entries) <= SAFE_LIMIT)%Z) /\
    upload w 7 (cbz_filename "Title" false 1) = None) /\
   fst (pack_parts w 3 "Title" false (map fst fs) 1 0 s) = Ok 2 /\
   docs (snd (pack_parts w 3 "Title" false (map fst fs) 1 0 s))
     = [("Title_Part_1.cbz", entries)]) /\
  ((fst run3 = Ok 3 /\
    In first3 (docs (snd run3)) /\
    (SAFE_LIMIT < getsize w3 (snd first3))%Z /\ 2 <= List.length (snd first3)) /\
   2 <= List.length (docs (snd run3))).
Proof.
  intros w fs entries s w3 fs3 first3 run3.
  assert (Hne : map fst fs <> []) by discriminate.
  assert (Hall : Forall2 (fun p e => lookup_file fs p = Some (snd e) /\ fst e = basename p)
                         (map fst fs) entries)
    by (repeat constructor).
  assert (Hok : fst run3 = Ok 3) by (vm_compute; reflexivity).
  assert (Hin : In first3 (docs (snd run3))) by (vm_compute; left; reflexivity).
  assert (Hover : (SAFE_LIMIT < getsize w3 (snd first3))%Z) by (vm_compute; reflexivity).
  assert (Hlen : 2 <= List.length (snd first3)) by (vm_compute; lia).
  split.
  - split; [repeat split; [exact Hne | exact Hall | exact small_entries_fit]|].
    exact (proj1 (proj2 (proj2 (part_names_follow_flag w "Title")))
             2 false (map fst fs) entries s fs Hne eq_refl Hall small_entries_fit eq_refl).
  - split; [exact (conj Hok (conj Hin (conj Hover Hlen)))|].
    exact (proj2 (proj2 (proj2 (part_names_follow_flag w3 "Title")))
             5 false (map fst fs3) (mkState 7 (Some fs3) [] []) 3 (docs (snd run3))
             Hok eq_refl (ex_intro _ first3 (conj Hin (conj Hover Hlen)))).
Defined.

(** One page of 60 MiB: one part, holding it. *)
Lemma sealed_parts_nonempty_witness :
  let w := service [("h1", [("a", 60 * MiB)])]%Z None in
  let fs := [("./temp_7/0001.jpg", 60 * MiB)]%Z in
  let s := mkState 3 (Some fs) [] [] in
  let run := pack_parts w 2 "Title_Ch_1" true ["./temp_7/0001.jpg"] 1 0 s in
  (SAFE_LIMIT < getsize w [("0001.jpg", 60 * MiB)])%Z /\
  lookup_file fs "./temp_7/0001.jpg" = Some (60 * MiB)%Z /\
  upload w 3 (cbz_filename "Title_Ch_1" true 1) = None /\
  fst run = Ok 2 /\
  docs (snd run) = [("Title_Ch_1.cbz", [("0001.jpg", 60 * MiB)%Z])].
Proof.
  intros w fs s run.
  split; [vm_compute; reflexivity|]. split; [reflexivity|]. split; [reflexivity|].
  exact (proj2 (sealed_parts_nonempty w "Title_Ch_1" true ["./temp_7/0001.jpg"])
           1 "./temp_7/0001.jpg" (60 * MiB)%Z fs s eq_refl eq_refl eq_refl eq_refl).
Defined.

(** A chapter with no page. *)
Lemma empty_plan_aborts_witness :
  let w := service no_pages None in
  let job := mkJob 7 "Title" [mkChapter "h0" "1"] in
  let run := archive_worker w 5 job (start (Some []) ["Title_old.cbz"; "notes.txt"]) in
  count_pages w (chapters job) [] 0 (start (Some []) ["Title_old.cbz"; "notes.txt"])
    = (Ok ([("h0", 0)], 0),
       mkState 1 (Some []) ["Title_old.cbz"; "notes.txt"] [PagesRequest "h0"]) /\
  fst run = Ok tt /\
  trace (snd run) =
    [PagesRequest "h0";
     EditMessage (StatusText "Could not get page counts. Aborting.");
     SendMessage "Error retrieving page information. Please try again or /start a new search."] /\
  image_requests (trace (snd run)) = [] /\
  sent_documents (trace (snd run)) = [] /\
  scratch (snd run) = None /\
  forall f, In f (cwd (snd run)) -> stray (safe_title (archive_title job)) f = false.
Proof.
  intros w job run. split; [reflexivity|].
  exact (empty_plan_aborts w 5 job (Some []) ["Title_old.cbz"; "notes.txt"]
           [("h0", 0)]
           (mkState 1 (Some []) ["Title_old.cbz"; "notes.txt"] [PagesRequest "h0"])
           eq_refl).
Defined.

(** A title with a letter outside ASCII.  The upload of the first part is
    refused: the exception is reported, and the archive left behind goes
    with the older one of the same title; the archive of the title spelled
    without the letter stays. *)
Lemma cleanup_always_runs_witness :
  let w := service three_pages (Some "Pokémon_Part_1.cbz") in
  let job := mkJob 7 "Pokémon!" one_chapter in
  let run := archive_worker w 5 job
               (start None ["notes.txt"; "Pokémon_old.zip"; "Pokmon_old.zip"]) in
  fst run <> OutOfFuel /\
  In (EditMessage (StatusText "An unexpected error occurred: Request Entity Too Large"))
     (trace (snd run)) /\
  safe_title (archive_title job) = "Pokémon"%string /\
  cwd (snd run) = ["notes.txt"; "Pokmon_old.zip"] /\
  fst run = Ok tt /\
  scratch (snd run) = None /\
  forall f, In f (cwd (snd run)) -> stray (safe_title (archive_title job)) f = false.
Proof.
  intros w job run.
  assert (Hr : fst run <> OutOfFuel) by (vm_compute; discriminate).
  split; [exact Hr|]. split; [vm_compute; tauto|]. split; [vm_compute; reflexivity|].
  split; [vm_compute; reflexivity|].
  exact (cleanup_always_runs w 5 job
           (start None ["notes.txt"; "Pokémon_old.zip"; "Pokmon_old.zip"])
           (fst run) (snd run) (surjective_pairing run) Hr).
Defined.

(** A manga called [Pokémon_Ch_Special], downloaded whole: two parts, both
    named [Pokémon_Ch_Special.cbz]. *)
Lemma single_flag_is_title_marker_witness :
  let w := service three_pages None in
  let job := mkJob 7 "Pokémon_Ch_Special" one_chapter in
  let run := archive_worker w 5 job (start None []) in
  download_action 7 "Pokémon_Ch_Special" one_chapter dl_all = Some job /\
  (exists pre post, "Pokémon_Ch_Special"%string = (pre ++ "_Ch_" ++ post)%string) /\
  List.length (docs (snd run)) = 2 /\
  safe_title "Pokémon_Ch_Special" = "Pokémon_Ch_Special"%string /\
  forall part, In part (docs (snd run)) -> fst part = "Pokémon_Ch_Special.cbz"%string.
Proof.
  intros w job run.
  assert (Hex : exists pre post,
             "Pokémon_Ch_Special"%string = (pre ++ "_Ch_" ++ post)%string)
    by (exists "Pokémon"%string, "Special"%string; reflexivity).
  split; [reflexivity|]. split; [exact Hex|]. split; [vm_compute; reflexivity|].
  split; [vm_compute; reflexivity|].
  exact (proj2 single_flag_is_title_marker w 5 7%Z "Pokémon_Ch_Special"%string
           one_chapter job (start None []) (docs (snd run)) eq_refl Hex eq_refl).
Defined.

End WorkerProofs.

(* ===================================================================== *)
(** * More facts about the string operations *)
(* ===================================================================== *)

Module PyStrExtProofs.
Import PyStr PyStrFacts PyStrExt.
Local Open Scope string_scope.

Lemma append_nil_r (s : string) : s ++ "" = s.
Proof. induction s as [|c s IH]; simpl; [reflexivity | now rewrite IH]. Qed.

Lemma append_assoc (a b c : string) : (a ++ b) ++ c = a ++ (b ++ c).
Proof. induction a as [|x a IH]; simpl; [reflexivity | now rewrite IH]. Qed.

Lemma length_append (a b : string) :
  String.length (a ++ b) = String.length a + String.length b.
Proof. induction a as [|x a IH]; simpl; [reflexivity | now rewrite IH]. Qed.

Lemma substring_all (p : string) : substring 0 (String.length p) p = p.
Proof. induction p as [|c p IH]; simpl; [reflexivity | now rewrite IH]. Qed.

Lemma substring_append (x p : string) :
  substring (String.length x) (String.length p) (x ++ p) = p.
Proof. induction x as [|c x IH]; simpl; [apply substring_all | exact IH]. Qed.

Lemma endswith_append (x p : string) : endswith (x ++ p) p = true.
Proof.
  unfold endswith. rewrite length_append.
  replace (String.length x + String.length p - String.length p) with (String.length x) by lia.
  rewrite substring_append, String.eqb_refl, andb_true_r.
  apply Nat.leb_le. lia.
Qed.

Lemma startswith_append (p x : string) : startswith (p ++ x) p = true.
Proof. apply startswith_iff. now exists x. Qed.

Lemma startswith_nil (s : string) : startswith s "" = true.
Proof. destruct s; reflexivity. Qed.

(** ** [all] *)

Lemma all_append (f : ascii -> bool) (a b : string) :
  all f (a ++ b) = all f a && all f b.
Proof. induction a as [|c a IH]; simpl; [reflexivity | now rewrite IH, andb_assoc]. Qed.

Lemma all_impl (f g : ascii -> bool) (s : string) :
  (forall c, f c = true -> g c = true) -> all f s = true -> all g s = true.
Proof.
  intros H. induction s as [|c s IH]; simpl; [reflexivity|].
  rewrite !andb_true_iff. intros [Hc Hs]. auto.
Qed.

Lemma all_join (f : ascii -> bool) (l : list string) :
  Forall (fun c => all f c = true) l -> all f (join l) = true.
Proof.
  induction 1 as [|c l Hc _ IH]; [reflexivity|].
  cbn [join]. now rewrite all_append, Hc, IH.
Qed.

(** ** The characters of a string *)

Lemma join_app (l1 l2 : list string) : join (l1 ++ l2) = (join l1 ++ join l2)%string.
Proof.
  induction l1 as [|c l1 IH]; [reflexivity|].
  cbn [app join]. now rewrite IH, append_assoc.
Qed.

Lemma split_chars_join (s : string) : forall p,
  (fst (split_chars p s) ++ join (snd (split_chars p s)))%string = s.
Proof.
  induction s as [|c s IH]; intros p; [reflexivity|].
  cbn [split_chars]. destruct p as [|p].
  - specialize (IH (followers c)). destruct (split_chars (followers c) s) as [cur rest].
    cbn [fst snd join] in *. cbn. now rewrite IH.
  - specialize (IH p). destruct (split_chars p s) as [cur rest].
    cbn [fst snd] in *. cbn. now rewrite IH.
Qed.

(** Joining the characters of a string gives the string. *)
Lemma join_chars (s : string) : join (chars s) = s.
Proof.
  pose proof (split_chars_join s 0) as H. unfold chars.
  destruct s as [|c s]; [reflexivity|]. cbn [split_chars] in *.
  destruct (split_chars (followers c) s). exact H.
Qed.

Lemma split_chars_exact (t s : string) :
  split_chars (String.length t) (t ++ s) = (t, chars s).
Proof.
  induction t as [|c t IH].
  - cbn [String.length append]. unfold chars.
    destruct s as [|c s]; [reflexivity|]. cbn [split_chars].
    destruct (split_chars (followers c) s); reflexivity.
  - cbn [String.length]. change (String c t ++ s)%string with (String c (t ++ s)).
    cbn [split_chars]. now rewrite IH.
Qed.

Lemma split_chars_short (t : string) : forall p,
  String.length t <= p -> split_chars p t = (t, []).
Proof.
  induction t as [|c t IH]; intros p Hp; [reflexivity|].
  cbn [String.length] in Hp. destruct p as [|p]; [lia|].
  cbn [split_chars]. rewrite IH by lia. reflexivity.
Qed.

Lemma chars_whole (c s : string) : whole c -> chars (c ++ s) = c :: chars s.
Proof.
  destruct c as [|a t]; [intros []|]. cbn [whole]. intros Hlen.
  unfold chars at 1. change (String a t ++ s)%string with (String a (t ++ s)).
  cbn [split_chars]. rewrite <- Hlen, split_chars_exact. reflexivity.
Qed.

Lemma chars_cut_short (c : string) : cut_short c -> chars c = [c].
Proof.
  destruct c as [|a t]; [intros []|]. cbn [cut_short]. intros Hlen.
  unfold chars. cbn [split_chars]. rewrite (split_chars_short t _ Hlen). reflexivity.
Qed.

Lemma whole_cut_short (c : string) : whole c -> cut_short c.
Proof. destruct c as [|a t]; cbn; [auto | lia]. Qed.

(** The characters of a list of characters joined are the list. *)
Lemma chars_join (l : list string) : well_cut l -> chars (join l) = l.
Proof.
  induction l as [|c l IH]; [reflexivity|].
  cbn [well_cut join]. destruct l as [|d l].
  - intros Hc. cbn [join]. rewrite append_nil_r. exact (chars_cut_short c Hc).
  - intros [Hc Hl]. rewrite (chars_whole c _ Hc), (IH Hl). reflexivity.
Qed.

Lemma split_chars_well_cut (s : string) : forall p,
  String.length (fst (split_chars p s)) <= p /\
  well_cut (snd (split_chars p s)) /\
  (snd (split_chars p s) <> [] -> String.length (fst (split_chars p s)) = p).
Proof.
  induction s as [|c s IH]; intros p.
  - cbn. split; [lia|]. split; [exact I | intros H; contradiction].
  - cbn [split_chars]. destruct p as [|p].
    + destruct (IH (followers c)) as (Hle & Hw & Hfull).
      destruct (split_chars (followers c) s) as [cur rest]. cbn [fst snd] in *.
      split; [cbn; lia|]. split; [|reflexivity].
      cbn [well_cut]. destruct rest as [|d rest]; [exact Hle|].
      split; [|exact Hw]. cbn [whole]. apply Hfull. discriminate.
    + destruct (IH p) as (Hle & Hw & Hfull).
      destruct (split_chars p s) as [cur rest]. cbn [fst snd] in *.
      split; [cbn; lia|]. split; [exact Hw|].
      intros Hne. cbn. f_equal. exact (Hfull Hne).
Qed.

Lemma well_cut_chars (s : string) : well_cut (chars s).
Proof. exact (proj1 (proj2 (split_chars_well_cut s 0))). Qed.

Lemma well_cut_cons (c : string) (l : list string) :
  well_cut (c :: l) -> cut_short c /\ well_cut l.
Proof.
  cbn [well_cut]. destruct l as [|d l]; [intros H; split; [exact H | exact I]|].
  intros [Hc Hl]. split; [exact (whole_cut_short c Hc) | exact Hl].
Qed.

Lemma well_cut_filter (f : string -> bool) (l : list string) :
  well_cut l -> well_cut (List.filter f l).
Proof.
  induction l as [|c l IH]; [auto|]. intros Hw.
  destruct (well_cut_cons c l Hw) as [Hc Hl]. specialize (IH Hl).
  cbn [List.filter]. destruct (f c); [|exact IH].
  cbn [well_cut]. destruct (List.filter f l) as [|d r] eqn:E; [exact Hc|].
  split; [|exact IH].
  cbn [well_cut] in Hw. destruct l as [|e l]; [discriminate E | exact (proj1 Hw)].
Qed.

Lemma well_cut_firstn (n : nat) (l : list string) :
  well_cut l -> well_cut (firstn n l).
Proof.
  revert l. induction n as [|n IH]; intros l Hw; [exact I|].
  destruct l as [|c l]; [exact I|].
  destruct (well_cut_cons c l Hw) as [Hc Hl]. specialize (IH l Hl).
  cbn [firstn well_cut]. destruct (firstn n l) as [|d r] eqn:E; [exact Hc|].
  split; [|exact IH].
  cbn [well_cut] in Hw. destruct l as [|e l];
    [destruct n; discriminate E | exact (proj1 Hw)].
Qed.

(** [s[:n]] has at most [n] characters. *)
Lemma len_truncate (n : nat) (s : string) : len (truncate n s) <= n.
Proof.
  unfold len, truncate.
  rewrite (chars_join _ (well_cut_firstn n _ (well_cut_chars s))).
  rewrite length_firstn. lia.
Qed.

(** ** [rstrip] *)

Lemma rstrip_chars_prefix (l : list string) :
  exists r, l = (rstrip_chars l ++ r)%list /\ Forall (fun c => isspace c = true) r.
Proof.
  induction l as [|c l (r & Hl & Hr)]; [exists []; split; [reflexivity | constructor]|].
  cbn [rstrip_chars]. destruct (rstrip_chars l) as [|d k] eqn:E.
  - destruct (isspace c) eqn:Ec.
    + exists (c :: l). split; [reflexivity|]. cbn in Hl. subst r.
      constructor; assumption.
    + exists r. cbn in Hl |- *. split; [now rewrite Hl | exact Hr].
  - exists r. split; [|exact Hr]. cbn [app]. f_equal. exact Hl.
Qed.

Lemma well_cut_rstrip (l : list string) : well_cut l -> well_cut (rstrip_chars l).
Proof.
  induction l as [|c l IH]; [auto|]. intros Hw.
  destruct (well_cut_cons c l Hw) as [Hc Hl]. specialize (IH Hl).
  cbn [rstrip_chars]. destruct (rstrip_chars l) as [|d r] eqn:E.
  - destruct (isspace c); [exact I | exact Hc].
  - cbn [well_cut]. split; [|exact IH].
    cbn [well_cut] in Hw. destruct l as [|e l]; [discriminate E | exact (proj1 Hw)].
Qed.

Lemma rstrip_chars_idem (l : list string) :
  rstrip_chars (rstrip_chars l) = rstrip_chars l.
Proof.
  induction l as [|c l IH]; [reflexivity|].
  cbn [rstrip_chars]. destruct (rstrip_chars l) as [|d r] eqn:E.
  - destruct (isspace c) eqn:Ec; [reflexivity|]. cbn. now rewrite Ec.
  - cbn [rstrip_chars]. cbn [rstrip_chars] in IH. rewrite IH. reflexivity.
Qed.

Lemma rstrip_chars_spaces (l : list string) :
  Forall (fun c => isspace c = true) l -> rstrip_chars l = [].
Proof.
  induction 1 as [|c l Hc _ IH]; [reflexivity|].
  cbn [rstrip_chars]. now rewrite IH, Hc.
Qed.

(** What is left does not end with white space. *)
Lemma rstrip_chars_last (l pre : list string) (c : string) :
  rstrip_chars l = (pre ++ [c])%list -> isspace c = false.
Proof.
  revert pre. induction l as [|d l IH]; intros pre.
  - destruct pre; discriminate.
  - cbn [rstrip_chars]. destruct (rstrip_chars l) as [|e r] eqn:E.
    + destruct (isspace d) eqn:Ed; [destruct pre; discriminate|].
      destruct pre as [|x pre]; [intros [= <-]; exact Ed|].
      intros [= _ H]. destruct pre; discriminate.
    + destruct pre as [|x pre]; [discriminate|].
      intros [= _ H]. apply (IH pre). exact H.
Qed.

(** The characters of a stripped string. *)
Lemma chars_rstrip (s : string) : chars (rstrip s) = rstrip_chars (chars s).
Proof.
  unfold rstrip. apply chars_join, well_cut_rstrip, well_cut_chars.
Qed.

(** ** Slashes and [basename] *)

Lemma contains_slash_false (s : string) :
  all not_slash s = true -> contains "/" s = false.
Proof.
  induction s as [|c s IH]; [reflexivity|].
  change (all not_slash (String c s)) with (not_slash c && all not_slash s).
  change (contains "/" (String c s))
    with ((Ascii.eqb "/" c && startswith s "") || contains "/" s).
  rewrite andb_true_iff. unfold not_slash at 1. rewrite negb_true_iff.
  intros [Hc Hs]. rewrite (IH Hs), orb_false_r.
  rewrite Ascii.eqb_sym, Hc. reflexivity.
Qed.

Lemma basename_plain (s : string) : all not_slash s = true -> basename s = s.
Proof.
  destruct s as [|c s]; [reflexivity|].
  change (all not_slash (String c s)) with (not_slash c && all not_slash s).
  cbn [basename].
  rewrite andb_true_iff. unfold not_slash at 1. rewrite negb_true_iff.
  intros [Hc Hs]. rewrite (contains_slash_false s Hs), Hc. reflexivity.
Qed.

(** ** Decimal numbers *)

Lemma digits_of_uint (d : Decimal.uint) :
  all isdigit (DecimalString.NilEmpty.string_of_uint d) = true.
Proof. induction d; simpl; auto. Qed.

Lemma str_nat_digits (n : nat) : all isdigit (str_nat n) = true.
Proof.
  unfold str_nat, DecimalString.NilZero.string_of_uint.
  destruct (Nat.to_uint n); try reflexivity; apply digits_of_uint.
Qed.

Lemma isdigit_not_slash (c : ascii) : isdigit c = true -> not_slash c = true.
Proof.
  destruct c as [[] [] [] [] [] [] [] []]; vm_compute; congruence.
Qed.

Lemma isdigit_not_underscore (c : ascii) : isdigit c = true -> not_underscore c = true.
Proof.
  destruct c as [[] [] [] [] [] [] [] []]; vm_compute; congruence.
Qed.

End PyStrExtProofs.

(* ===================================================================== *)
(** * More properties of the content client *)
(* ===================================================================== *)

Module ClientExtProofs.
Import PyStr Client ClientProofs ClientExt.

Section Stable.
Variable py : Python.

Lemma float_eq_lt (a b q : PyFloat) :
  float_eq a q = true -> float_eq b q = true -> float_lt b a = false.
Proof.
  destruct a as [x| | |], b as [y| | |], q as [z| | |]; simpl; try discriminate; auto.
  intros Ha Hb. apply Qeq_bool_iff in Ha, Hb. apply negb_false_iff.
  apply Qle_bool_iff. rewrite Ha, Hb. apply Qle_refl.
Qed.

Lemma insert_by_key_filter (q : PyFloat) (kx : PyFloat * Json) (l : list (PyFloat * Json)) :
  List.filter (fun ky => float_eq (fst ky) q) (insert_by_key kx l) =
  List.filter (fun ky => float_eq (fst ky) q) (kx :: l).
Proof.
  induction l as [|ky l IH]; [reflexivity|].
  cbn [insert_by_key]. destruct (float_lt (fst ky) (fst kx)) eqn:E; [|reflexivity].
  cbn [List.filter] in *. rewrite IH.
  destruct (float_eq (fst kx) q) eqn:Ex; [|reflexivity].
  destruct (float_eq (fst ky) q) eqn:Ey; [|reflexivity].
  (* both keys equal [q]: then [ky < kx] is false, against [E] *)
  rewrite (float_eq_lt _ _ q Ex Ey) in E. discriminate.
Qed.

Lemma insertion_sort_filter (q : PyFloat) (l : list (PyFloat * Json)) :
  List.filter (fun ky => float_eq (fst ky) q) (insertion_sort l) =
  List.filter (fun ky => float_eq (fst ky) q) l.
Proof.
  induction l as [|kx l IH]; [reflexivity|].
  cbn [insertion_sort fold_right]. rewrite insert_by_key_filter.
  cbn [List.filter]. fold (insertion_sort l). rewrite IH. reflexivity.
Qed.

Lemma filter_keyed (q : PyFloat) (keyed : list (PyFloat * Json)) :
  Forall (fun kx => chap_key py (snd kx) = inr (fst kx)) keyed ->
  List.filter (has_number py q) (map snd keyed) =
  map snd (List.filter (fun ky => float_eq (fst ky) q) keyed).
Proof.
  induction 1 as [|kx keyed Hk _ IH]; [reflexivity|].
  cbn [map List.filter]. unfold has_number at 1. rewrite Hk, IH.
  destruct (float_eq (fst kx) q); reflexivity.
Qed.

(** Without NaN the sort is stable: among the chapters of any one number,
    the order received is the order returned. *)
Lemma sort_chapters_stable (items l : list Json) (q : PyFloat) :
  no_nan py items ->
  sort_chapters py (JArr items) = inr l ->
  List.filter (has_number py q) l = List.filter (has_number py q) items.
Proof.
  intros Hnan. cbn [sort_chapters]. unfold rbind.
  destruct (with_keys py items) as [e|keyed] eqn:Hk; [discriminate|].
  intros [= <-]. destruct (with_keys_ok _ _ _ Hk) as [Hm Hf].
  assert (Hn : Forall (fun ky => is_nan (fst ky) = false) keyed).
  { rewrite Forall_forall in *. intros kx Hin.
    destruct (fst kx) eqn:Ek; try reflexivity. exfalso.
    apply (Hnan (snd kx)); [rewrite <- Hm; apply in_map; exact Hin|].
    rewrite (Hf kx Hin), Ek. reflexivity. }
  rewrite (sort_by_key_plain py keyed Hn).
  rewrite (filter_keyed q (insertion_sort keyed)), insertion_sort_filter.
  - rewrite <- (filter_keyed q keyed Hf), Hm. reflexivity.
  - eapply Permutation_Forall; [apply Permutation_sym, insertion_sort_perm | exact Hf].
Qed.

(** *** The stable sort is the insertion sort

    [list.sort] promises a sorted list in which items with equal keys keep
    their order.  Without NaN there is one such list, and the insertion
    sort gives it. *)

Lemma float_eq_refl (a : PyFloat) : is_nan a = false -> float_eq a a = true.
Proof.
  destruct a as [p| | |]; simpl; try discriminate; auto.
  intros _. apply Qeq_bool_iff. reflexivity.
Qed.

Lemma float_le_eq (a b x : PyFloat) :
  float_eq x a = true -> float_le b x -> float_le b a.
Proof.
  destruct a as [p| | |], b as [q| | |], x as [r| | |]; simpl; try discriminate; auto.
  intros H. apply Qeq_bool_iff in H. now rewrite H.
Qed.

Lemma float_le_antisym (a b : PyFloat) :
  float_le a b -> float_le b a -> float_eq a b = true.
Proof.
  destruct a as [p| | |], b as [q| | |]; simpl; try tauto.
  intros H1 H2. apply Qeq_bool_iff. apply Qle_antisym; assumption.
Qed.

Lemma float_le_refl (a : PyFloat) : is_nan a = false -> float_le a a.
Proof. destruct a as [p| | |]; simpl; try discriminate; auto. intros _. apply Qle_refl. Qed.

(** In a sorted list the head is below every item with the key [q] of
    some item of the list. *)
Lemma head_le_member (h x : PyFloat * Json) (t : list (PyFloat * Json)) :
  is_nan (fst h) = false ->
  StronglySorted key_le (h :: t) -> In x (h :: t) -> float_le (fst h) (fst x).
Proof.
  intros Hn Hs [<- | Hin]; [exact (float_le_refl _ Hn)|].
  apply StronglySorted_inv in Hs as [_ Hall].
  rewrite Forall_forall in Hall. exact (Hall x Hin).
Qed.

Lemma sorted_stable_unique (l1 : list (PyFloat * Json)) : forall l2,
  Forall (fun ky => is_nan (fst ky) = false) l1 ->
  Forall (fun ky => is_nan (fst ky) = false) l2 ->
  StronglySorted key_le l1 -> StronglySorted key_le l2 ->
  (forall q, List.filter (fun ky => float_eq (fst ky) q) l1
             = List.filter (fun ky => float_eq (fst ky) q) l2) ->
  l1 = l2.
Proof.
  induction l1 as [|h1 t1 IH]; intros l2 Hn1 Hn2 Hs1 Hs2 Hf.
  - destruct l2 as [|h2 t2]; [reflexivity|]. exfalso.
    apply Forall_cons_iff in Hn2 as [Hh2 _].
    specialize (Hf (fst h2)). cbn [List.filter] in Hf.
    rewrite (float_eq_refl _ Hh2) in Hf. discriminate.
  - pose proof Hn1 as Hn1'. apply Forall_cons_iff in Hn1' as [Hh1 Ht1].
    destruct l2 as [|h2 t2].
    { exfalso. specialize (Hf (fst h1)). cbn [List.filter] in Hf.
      rewrite (float_eq_refl _ Hh1) in Hf. discriminate. }
    pose proof Hn2 as Hn2'. apply Forall_cons_iff in Hn2' as [Hh2 Ht2].
    (* the two heads have equal keys *)
    assert (Hle21 : float_le (fst h2) (fst h1)).
    { assert (Hin : In h1 (List.filter (fun ky => float_eq (fst ky) (fst h1)) (h2 :: t2))).
      { rewrite <- Hf. cbn [List.filter]. rewrite (float_eq_refl _ Hh1). left. reflexivity. }
      apply filter_In in Hin as [Hin _].
      exact (head_le_member h2 h1 t2 Hh2 Hs2 Hin). }
    assert (Hle12 : float_le (fst h1) (fst h2)).
    { assert (Hin : In h2 (List.filter (fun ky => float_eq (fst ky) (fst h2)) (h1 :: t1))).
      { rewrite Hf. cbn [List.filter]. rewrite (float_eq_refl _ Hh2). left. reflexivity. }
      apply filter_In in Hin as [Hin _].
      exact (head_le_member h1 h2 t1 Hh1 Hs1 Hin). }
    pose proof (float_le_antisym _ _ Hle21 Hle12) as Heq.
    (* so they are the same item *)
    assert (Hh : h1 = h2).
    { specialize (Hf (fst h1)). cbn [List.filter] in Hf.
      rewrite (float_eq_refl _ Hh1), Heq in Hf. congruence. }
    subst h2. f_equal.
    apply IH; try assumption.
    + exact (proj1 (StronglySorted_inv Hs1)).
    + exact (proj1 (StronglySorted_inv Hs2)).
    + intros q. specialize (Hf q). cbn [List.filter] in Hf.
      destruct (float_eq (fst h1) q); congruence.
Qed.

(** Any sorted rearrangement of a list without NaN that keeps the order of
    the items of each key is the list the insertion sort returns. *)
Lemma stable_sort_is_insertion_sort (l l' : list (PyFloat * Json)) :
  Forall (fun ky => is_nan (fst ky) = false) l ->
  Permutation l l' ->
  StronglySorted key_le l' ->
  (forall q, List.filter (fun ky => float_eq (fst ky) q) l'
             = List.filter (fun ky => float_eq (fst ky) q) l) ->
  l' = insertion_sort l.
Proof.
  intros Hn Hp Hs Hf. apply sorted_stable_unique.
  - eapply Permutation_Forall; [exact Hp | exact Hn].
  - eapply Permutation_Forall; [apply Permutation_sym, insertion_sort_perm | exact Hn].
  - exact Hs.
  - apply insertion_sort_sorted. exact Hn.
  - intros q. rewrite Hf, insertion_sort_filter. reflexivity.
Qed.

End Stable.

Lemma except_RequestException_inr {A} (lbl : string) (body : Res A) (a : A) :
  except_RequestException lbl body = inr a -> body = inr a.
Proof.
  destruct body as [e|a']; cbn; [destruct (is_RequestException e); discriminate | auto].
Qed.

Lemma rbind_inr {A B} (m : Res A) (k : A -> Res B) (b : B) :
  rbind m k = inr b -> exists a, m = inr a /\ k a = inr b.
Proof. destruct m as [e|a]; cbn; [discriminate | eauto]. Qed.

(** X1. The chat bot's [get_chapters] sorts stably when no chapter number
    is NaN: when it returns, the chapters that share a number come back in
    the order the service sent them (the order the viewer's [get_chapters]
    returns). *)
Theorem bot_chapters_sort_stable (py : Python) (http : Http)
    (hid lang : string) (limit : nat) (l : list Json) :
  Bot.get_chapters py http hid lang limit = inr l ->
  exists items,
    Viewer.get_chapters http hid lang limit = inr (JArr items) /\
    (no_nan py items ->
     forall q, List.filter (has_number py q) l = List.filter (has_number py q) items).
Proof.
  unfold Bot.get_chapters, Viewer.get_chapters. cbv zeta.
  set (url := (base_url ++ "/comic/" ++ hid ++ "/chapters?lang=" ++ lang
               ++ "&limit=" ++ str_nat limit)%string).
  intros H. apply except_RequestException_inr in H.
  apply rbind_inr in H as (response & E1 & H).
  apply rbind_inr in H as ([] & E2 & H).
  apply rbind_inr in H as (data & E3 & H).
  apply rbind_inr in H as (chapters & E4 & H).
  rewrite E1. cbn [rbind]. rewrite E2. cbn [rbind]. rewrite E3. cbn [rbind]. rewrite E4.
  destruct chapters as [| | | | |items|]; try discriminate.
  exists items. split; [reflexivity|].
  intros Hnan q. apply sort_chapters_stable; assumption.
Qed.

(** The two chapters numbered 7 stay in their order, and the one numbered 3
    comes before them. *)
Lemma bot_chapters_sort_stable_witness :
  let http := answering (JObj [("chapters", JArr twice_seven)]) in
  let sorted := [chapter_json "low" (JStr "3"); chapter_json "first" (JStr "7");
                 chapter_json "second" (JStr "7.0")] in
  Bot.get_chapters example_python http "h" "en" 100 = inr sorted /\
  no_nan example_python twice_seven /\
  List.filter (has_number example_python (Finite 7)) sorted
    = [chapter_json "first" (JStr "7"); chapter_json "second" (JStr "7.0")] /\
  exists items,
    Viewer.get_chapters http "h" "en" 100 = inr (JArr items) /\
    (no_nan example_python items ->
     forall q, List.filter (has_number example_python q) sorted =
               List.filter (has_number example_python q) items).
Proof.
  intros http sorted. split; [reflexivity|]. split; [|split; [reflexivity|]].
  - intros x [<- | [<- | [<- | []]]]; discriminate.
  - exact (bot_chapters_sort_stable example_python http "h" "en" 100 _ eq_refl).
Defined.

(** X18. Keys missing from the answer give no pages, a null does not.  For
    an answer that decodes to an object, [get_chapter_pages] (the same in
    both clients) returns the empty list when the object has no [chapter],
    and the [md_images] of the chapter, or the empty list when it has none,
    when [chapter] is an object; when [chapter] is anything else, a null
    included, it raises [AttributeError], which is not turned into the
    client's own error. *)
Theorem missing_keys_give_no_pages (http : Http) (chapter_hid : string)
    (response : Response) (fields : list (string * Json)) :
  http (base_url ++ "/chapter/" ++ chapter_hid)%string = inr response ->
  raise_for_status response = inr tt ->
  json_body response = inr (JObj fields) ->
  let result := Bot.get_chapter_pages http chapter_hid in
  Viewer.get_chapter_pages http chapter_hid = result /\
  (lookup fields "chapter" = None -> result = inr (JArr [])) /\
  (forall inner, lookup fields "chapter" = Some (JObj inner) ->
     result = inr (match lookup inner "md_images" with
                   | Some v => v
                   | None => JArr []
                   end)) /\
  (forall v, lookup fields "chapter" = Some v -> (forall inner, v <> JObj inner) ->
     result = inl (AttributeError
                     ("'" ++ type_name v ++ "' object has no attribute 'get'")%string)).
Proof.
  intros Hhttp Hstatus Hjson result.
  unfold result, Bot.get_chapter_pages, Viewer.get_chapter_pages. cbv zeta.
  unfold requests_get, json. rewrite Hhttp. cbn [rbind]. rewrite Hstatus. cbn [rbind].
  rewrite Hjson. cbn [rbind py_get].
  split; [reflexivity|]. split; [|split].
  - intros ->. reflexivity.
  - intros inner ->. cbn [rbind py_get]. destruct (lookup inner "md_images"); reflexivity.
  - intros v -> Hv. cbn [rbind].
    destruct v as [| | | | | |inner]; try reflexivity.
    exfalso. exact (Hv inner eq_refl).
Qed.

(** An object whose [chapter] is the number 5, one whose [chapter] is null,
    and an empty object. *)
Lemma missing_keys_give_no_pages_witness :
  let http := answering (JObj [("chapter", JInt 5)]) in
  let response := mkResponse 200 "" [] (inr (JObj [("chapter", JInt 5)])) in
  let result := Bot.get_chapter_pages http "h1" in
  (http (base_url ++ "/chapter/" ++ "h1")%string = inr response /\
   raise_for_status response = inr tt /\
   json_body response = inr (JObj [("chapter", JInt 5)])) /\
  result = inl (AttributeError "'int' object has no attribute 'get'") /\
  Viewer.get_chapter_pages http "h1" = result /\
  Bot.get_chapter_pages (answering (JObj [("chapter", JNull)])) "h1"
    = inl (AttributeError "'NoneType' object has no attribute 'get'") /\
  Bot.get_chapter_pages (answering (JObj [])) "h1" = inr (JArr []).
Proof.
  intros http response result.
  split; [repeat split|].
  destruct (missing_keys_give_no_pages http "h1" response [("chapter", JInt 5)]
              eq_refl eq_refl eq_refl) as (Hsame & _ & _ & Hother).
  split; [|split; [exact Hsame | split; reflexivity]].
  apply (Hother (JInt 5) eq_refl). intros inner. discriminate.
Defined.

End ClientExtProofs.

(* ===================================================================== *)
(** * More properties of the download job *)
(* ===================================================================== *)

Module WorkerExtProofs.
Import PyStr PyStrFacts PyStrExt PyStrExtProofs Worker WorkerProofs WorkerExt.

Section WithImage.
Context {Image : Type}.
Local Abbreviation State := (State Image).
Local Abbreviation World := (World Image).
Local Abbreviation Entry := (Entry Image).

Lemma page_requests_app (t1 t2 : list (Event Image)) :
  page_requests (t1 ++ t2) = page_requests t1 ++ page_requests t2.
Proof.
  induction t1 as [|e t1 IH]; simpl; [reflexivity|].
  destruct e; simpl; rewrite ?IH; reflexivity.
Qed.

(** ** The fetch, pages without a key included *)

Section Keyed.
Variable w : World.
Variable pages_of : string -> list Page.
Variable dir : string.

Lemma count_pages_answers chs : forall counts total s,
  listed w pages_of chs -> counts_true pages_of counts ->
  wp (count_pages w chs counts total)
     (fun r s' => exists counts',
        r = Ok (counts', total + List.length (all_pages pages_of chs)) /\
        counts_true pages_of counts' /\
        (forall k, (counts_get counts k <> None \/ exists c, In c chs /\ hid c = k) ->
                   counts_get counts' k <> None) /\
        preqs s' = preqs s ++ map hid chs /\
        cwd s' = cwd s) s.
Proof.
  induction chs as [|c chs IH]; intros counts total s Hst Hct; simpl.
  - apply wp_ret. exists counts. rewrite Nat.add_0_r, app_nil_r. repeat split; auto.
    intros k [H | (c & [] & _)]. exact H.
  - pose proof (Hst c (or_introl eq_refl)) as Hget.
    apply wp_bind. unfold api_get_chapter_pages.
    apply wp_bind. unfold wp at 1, tick. simpl.
    apply wp_bind, wp_emit. rewrite Hget. apply wp_ret.
    eapply wp_mono; [|apply IH].
    + intros r s' (counts' & -> & Hct' & Hhas & Hreq & Hcwd). exists counts'.
      unfold all_pages. simpl. rewrite length_app, Nat.add_assoc.
      repeat split; auto.
      * intros k [H | (c' & [<- | Hin] & Hk)]; apply Hhas.
        { left. unfold counts_get, counts_set in *. simpl.
          destruct (String.eqb (hid c) k); [discriminate | exact H]. }
        { left. unfold counts_get, counts_set. simpl. rewrite Hk, String.eqb_refl.
          discriminate. }
        { right. exists c'. auto. }
      * rewrite Hreq. unfold preqs. cbn [trace]. rewrite page_requests_app.
        cbn [page_requests]. rewrite <- app_assoc. reflexivity.
    + intros c' Hin. apply Hst. right. exact Hin.
    + intros k v [[= <- <-] | Hin]; [reflexivity | apply Hct; exact Hin].
Qed.

Lemma fetch_pages_keyed c n total : forall k j idx paths s fs,
  (forall t, get_chapter_pages w t (hid c) = inr (pages_of (hid c))) ->
  (forall t p, In p (pages_of (hid c)) -> no_key p = false ->
     exists img, download_image w t (image_url p) = inr img) ->
  j + k = List.length (pages_of (hid c)) ->
  scratch s = Some fs ->
  wp (fetch_pages w dir c n total (seq j k) idx paths)
     (fun r s' =>
        let kept := List.filter has_key (skipn j (pages_of (hid c))) in
        let m := List.length kept in
        r = Ok (idx + m, paths ++ map (img_path dir) (seq idx m)) /\
        exists files,
          scratch s' = Some (fs ++ files) /\
          map fst files = map (img_path dir) (seq idx m) /\
          Forall2 (holds_image w) files kept /\
          imgs s' = imgs s ++ map image_url kept /\
          preqs s' = preqs s ++ repeat (hid c) k) s.
Proof.
  intros k. induction k as [|k IH]; intros j idx paths s fs Hget Hdl Hjk Hs; simpl.
  - apply wp_ret.
    assert (E : skipn j (pages_of (hid c)) = []) by (apply skipn_all2; lia).
    rewrite E. cbn. rewrite Nat.add_0_r, !app_nil_r. split; [reflexivity|].
    exists []. rewrite !app_nil_r. repeat split; auto.
  - apply wp_bind, wp_emit. apply wp_bind. unfold api_get_chapter_pages.
    apply wp_bind. unfold wp at 1, tick. simpl.
    apply wp_bind, wp_emit. rewrite Hget. apply wp_ret.
    destruct (nth_error (pages_of (hid c)) j) as [page|] eqn:Hnth;
      [|apply nth_error_None in Hnth; lia].
    assert (Hin : In page (pages_of (hid c))) by (eapply nth_error_In; eauto).
    rewrite (skipn_nth_error _ _ _ Hnth). cbn [List.filter].
    assert (Hh : has_key page = negb (no_key page)) by reflexivity.
    remember (skipn (S j) (pages_of (hid c))) as rest eqn:Erest.
    destruct (no_key page) eqn:Hk; rewrite Hh; cbn [negb].
    + subst rest. eapply wp_mono; [|apply (IH (S j) idx paths _ fs); auto; lia].
      intros r s' (-> & files & Hsc & Hnames & Hall & Himgs & Hreq).
      split; [reflexivity|]. exists files. repeat split; auto.
      * rewrite Himgs. unfold imgs. cbn [trace]. rewrite !image_requests_app.
        cbn [image_requests]. rewrite !app_nil_r. reflexivity.
      * rewrite Hreq. unfold preqs. cbn [trace]. rewrite !page_requests_app.
        cbn [page_requests repeat]. rewrite !app_nil_r, <- app_assoc. reflexivity.
    + apply wp_bind. unfold api_download_image.
      apply wp_bind. unfold wp at 1, tick. simpl.
      apply wp_bind, wp_emit.
      destruct (Hdl (S (clock s)) page Hin Hk) as [img Himg]. rewrite Himg.
      apply wp_ret. apply wp_bind. unfold wp at 1, write_file. simpl.
      rewrite Hs. simpl. subst rest.
      eapply wp_mono; [|apply (IH (S j) (idx + 1) _ _ (fs ++ [(img_path dir idx, img)]));
                         auto; lia].
      cbv zeta. intros r s' (-> & files & Hsc & Hnames & Hall & Himgs & Hreq).
      cbn [List.length]. split.
      { f_equal. f_equal; [lia|]. rewrite <- app_assoc. cbn [seq map app].
        replace (idx + 1) with (S idx) by lia. reflexivity. }
      exists ((img_path dir idx, img) :: files). repeat split.
      * rewrite Hsc, <- app_assoc. reflexivity.
      * cbn [seq map fst]. rewrite Hnames. replace (idx + 1) with (S idx) by lia.
        reflexivity.
      * constructor; [exists (S (clock s)); exact Himg | exact Hall].
      * rewrite Himgs. unfold imgs. cbn [trace]. rewrite !image_requests_app.
        cbn [image_requests map]. rewrite !app_nil_r, <- app_assoc. reflexivity.
      * rewrite Hreq. unfold preqs. cbn [trace]. rewrite !page_requests_app.
        cbn [page_requests repeat]. rewrite !app_nil_r, <- !app_assoc. reflexivity.
Qed.

Lemma fetch_chapters_keyed counts total chs : forall idx paths s fs,
  answers w pages_of chs ->
  (forall c, In c chs ->
     counts_get counts (hid c) = Some (List.length (pages_of (hid c)))) ->
  scratch s = Some fs ->
  wp (fetch_chapters w dir counts total chs idx paths)
     (fun r s' =>
        let m := List.length (keyed_pages pages_of chs) in
        r = Ok (idx + m, paths ++ map (img_path dir) (seq idx m)) /\
        exists files,
          scratch s' = Some (fs ++ files) /\
          map fst files = map (img_path dir) (seq idx m) /\
          Forall2 (holds_image w) files (keyed_pages pages_of chs) /\
          imgs s' = imgs s ++ map image_url (keyed_pages pages_of chs) /\
          preqs s' = preqs s ++ refetches pages_of chs /\
          docs s' = docs s /\ cwd s' = cwd s) s.
Proof.
  induction chs as [|c chs IH]; intros idx paths s fs Hst Hcounts Hs; simpl.
  - apply wp_ret. cbn. rewrite Nat.add_0_r, !app_nil_r. split; [reflexivity|].
    exists []. rewrite !app_nil_r. repeat split; auto.
  - rewrite (Hcounts c (or_introl eq_refl)).
    destruct (Hst c (or_introl eq_refl)) as (Hget & Hdl).
    apply wp_bind.
    eapply wp_mono;
      [|apply wp_and;
          [apply (fetch_pages_keyed c (List.length (pages_of (hid c))) total
                    (List.length (pages_of (hid c))) 0 idx paths s fs); auto
          |apply (fetch_pages_frame w dir c (List.length (pages_of (hid c))) total
                    (seq 0 (List.length (pages_of (hid c)))) idx paths s)]].
    cbv zeta. cbn [skipn].
    intros r s1 [(-> & files1 & Hsc1 & Hn1 & Hall1 & Himg1 & Hreq1) (Hd1 & Hc1)].
    eapply wp_mono; [|apply (IH _ _ s1 (fs ++ files1)); auto].
    + cbv zeta.
      intros r s2 (-> & files2 & Hsc2 & Hn2 & Hall2 & Himg2 & Hreq2 & Hd2 & Hc2).
      unfold keyed_pages, all_pages in *. cbn [flat_map]. rewrite filter_app, length_app.
      set (n1 := List.length (List.filter has_key (pages_of (hid c)))) in *.
      set (n2 := List.length (List.filter has_key
                    (flat_map (fun c0 => pages_of (hid c0)) chs))) in *.
      split.
      { f_equal. f_equal; [lia|]. rewrite <- app_assoc, seq_app, map_app. reflexivity. }
      exists (files1 ++ files2). repeat split.
      * rewrite Hsc2, app_assoc. reflexivity.
      * rewrite map_app, Hn1, Hn2, seq_app, map_app. reflexivity.
      * apply Forall2_app; assumption.
      * rewrite Himg2, Himg1, map_app, app_assoc. reflexivity.
      * rewrite Hreq2, Hreq1. unfold refetches. cbn [flat_map].
        rewrite app_assoc. reflexivity.
      * congruence.
      * congruence.
    + intros c' Hin. apply Hst. right. exact Hin.
    + intros c' Hin. apply Hcounts. right. exact Hin.
Qed.

End Keyed.

Lemma fill_part_unchanged (w : World) rest : forall page_index pages zipf s,
  wp (fill_part w rest page_index pages zipf) (fun _ s' => s' = s) s.
Proof.
  induction rest as [|p rest IH]; intros page_index pages zipf s; simpl.
  - apply wp_ret. reflexivity.
  - apply wp_bind. unfold wp at 1, read_file.
    destruct (scratch s) as [fs|]; simpl; [|reflexivity].
    destruct (lookup_file fs p) as [img|]; simpl; [|reflexivity].
    match goal with |- wp (if ?c then _ else _) _ _ => destruct c end.
    + apply wp_ret. reflexivity.
    + apply IH.
Qed.

(** The packing loop asks the service for nothing. *)
Lemma pack_parts_preqs (w : World) title single paths fuel : forall part_num page_index s,
  wp (pack_parts w fuel title single paths part_num page_index)
     (fun _ s' => preqs s' = preqs s) s.
Proof.
  induction fuel as [|fuel IH]; intros part_num page_index s; simpl;
    destruct (page_index <? List.length paths); try (apply wp_ret; auto);
    [unfold wp; simpl; auto|].
  apply wp_bind, wp_emit. apply wp_bind. unfold wp at 1, create_file. simpl.
  apply wp_bind. eapply wp_mono; [|apply fill_part_unchanged].
  intros r s1 ->. destruct r as [[page_index' zipf]|e|];
    try (unfold preqs; cbn [trace]; rewrite page_requests_app; cbn;
         rewrite app_nil_r; reflexivity).
  apply wp_bind, wp_emit. apply wp_bind. unfold send_document.
  apply wp_bind. unfold wp at 1, tick. simpl.
  match goal with |- wp (match ?u with _ => _ end) _ _ => destruct u end.
  { apply wp_raise. unfold preqs. cbn [trace]. rewrite !page_requests_app. cbn.
    rewrite !app_nil_r. reflexivity. }
  apply wp_emit. apply wp_bind. unfold wp at 1, os_remove. simpl.
  eapply wp_mono; [|apply IH]. intros r' s' H. cbv beta in H. rewrite H.
  unfold preqs. cbn [trace]. rewrite !page_requests_app. cbn.
  rewrite !app_nil_r. reflexivity.
Qed.

(** What the try block does when the service answers. *)
Lemma archive_body_answers (w : World) (pages_of : string -> list Page)
    (fuel : nat) (job : Job) (s : State) :
  answers w pages_of (chapters job) ->
  0 < List.length (all_pages pages_of (chapters job)) ->
  wp (archive_body w fuel job)
     (fun r s' =>
        let keyed := keyed_pages pages_of (chapters job) in
        let m := List.length keyed in
        (exists files,
           scratch s' = Some files /\
           map fst files = map (img_path (temp_dir (chat_id job))) (seq 1 m) /\
           Forall2 (holds_image w) files keyed) /\
        imgs s' = imgs s ++ map image_url keyed /\
        preqs s' = preqs s ++ map hid (chapters job) ++ refetches pages_of (chapters job) /\
        (m = 0 ->
         r = Ok tt /\ docs s' = docs s /\
         exists tr,
           trace s' = tr ++
             [EditMessage (StatusText "Could not download any images. Aborting.");
              SendMessage "No pages could be downloaded for this chapter/manga. Please try again or /start a new search."])) s.
Proof.
  intros Hst Hpos. set (n := List.length (all_pages pages_of (chapters job))) in *.
  unfold archive_body. apply wp_bind.
  eapply wp_mono;
    [|apply wp_and;
        [apply (count_pages_answers w pages_of (chapters job) [] 0 s);
         [intros c Hin; apply (Hst c Hin) | intros k v []]
        | apply count_pages_frame]].
  intros r s1 [(counts & -> & Htrue & Hhas & Hreq1 & _) (Hd1 & Hi1 & _)].
  cbn [Nat.add]. fold n.
  destruct (n =? 0) eqn:En; [apply Nat.eqb_eq in En; lia|].
  apply wp_bind. unfold wp at 1, rmtree_if_exists. cbn [fst snd].
  apply wp_bind. unfold wp at 1, makedirs. cbn [fst snd scratch].
  apply wp_bind.
  eapply wp_mono;
    [|apply (fetch_chapters_keyed w pages_of (temp_dir (chat_id job)) counts n
               (chapters job) 1 [] _ []); auto].
  2:{ intros c Hin. apply counts_get_found; [exact Htrue|].
      apply Hhas. right. exists c. auto. }
  cbv zeta.
  set (keyed := keyed_pages pages_of (chapters job)).
  set (m := List.length keyed).
  intros r s2 (-> & files & Hsc & Hnames & Hall & Himgs & Hreq2 & Hd2 & _).
  cbn [app] in Hsc.
  unfold imgs in Himgs at 2. cbn [trace] in Himgs. fold (imgs s1) in Himgs.
  rewrite Hi1 in Himgs.
  unfold preqs in Hreq2 at 2. cbn [trace] in Hreq2. fold (preqs s1) in Hreq2.
  rewrite Hreq1, <- app_assoc in Hreq2.
  unfold docs in Hd2 at 2. cbn [trace] in Hd2. fold (docs s1) in Hd2. rewrite Hd1 in Hd2.
  cbn [app].
  destruct (map (img_path (temp_dir (chat_id job))) (seq 1 m)) as [|p paths] eqn:Ep.
  - (* nothing was fetched *)
    apply wp_bind, wp_emit. unfold send_message. apply wp_emit.
    split; [exists files; auto|].
    unfold imgs, preqs, docs in *. cbn [trace].
    rewrite !image_requests_app, !page_requests_app, !sent_documents_app. cbn.
    rewrite !app_nil_r. repeat split; auto.
    exists (trace s2). rewrite <- app_assoc. reflexivity.
  - assert (Hm : m <> 0).
    { intros E. rewrite E in Ep. discriminate. }
    apply wp_bind.
    eapply wp_mono; [|apply wp_and; [apply pack_parts_frame | apply pack_parts_preqs]].
    intros r s3 [[Hi3 Hs3] Hr3].
    assert (Hdone : forall (r' : Result unit) (s4 : State),
              scratch s4 = scratch s3 -> imgs s4 = imgs s3 -> preqs s4 = preqs s3 ->
              (exists files0,
                 scratch s4 = Some files0 /\
                 map fst files0 = p :: paths /\ Forall2 (holds_image w) files0 keyed) /\
              imgs s4 = imgs s ++ map image_url keyed /\
              preqs s4 = preqs s ++ map hid (chapters job)
                         ++ refetches pages_of (chapters job) /\
              (m = 0 ->
               r' = Ok tt /\ docs s4 = docs s /\
               exists tr,
                 trace s4 = tr ++
                   [EditMessage (StatusText "Could not download any images. Aborting.");
                    SendMessage "No pages could be downloaded for this chapter/manga. Please try again or /start a new search."])).
    { intros r' s4 E1 E2 E3. rewrite E1, E2, E3, Hs3, Hi3, Hr3.
      split; [exists files; auto|]. repeat split; auto; contradiction. }
    destruct r as [part_num|e|]; try (apply Hdone; reflexivity).
    apply wp_bind. unfold send_message. apply wp_emit.
    unfold delete_message. apply wp_emit. apply Hdone.
    + reflexivity.
    + unfold imgs. cbn [trace]. rewrite !image_requests_app. cbn.
      rewrite !app_nil_r. reflexivity.
    + unfold preqs. cbn [trace]. rewrite !page_requests_app. cbn.
      rewrite !app_nil_r. reflexivity.
Qed.

(** X2. Pages without a key take no number.  When every page-list call
    returns the chapter's list and every image of a page that has a key
    downloads, the try block leaves in the scratch directory one file for
    each page that has a key, numbered 1, 2, ... without a gap in chapter
    order and page order, and asks for the images of those pages only. *)
Theorem keyless_pages_take_no_number (w : World) (pages_of : string -> list Page)
    (fuel : nat) (job : Job) (s : State) :
  answers w pages_of (chapters job) ->
  0 < List.length (all_pages pages_of (chapters job)) ->
  let keyed := keyed_pages pages_of (chapters job) in
  let s' := snd (archive_body w fuel job s) in
  (exists files,
     scratch s' = Some files /\
     map fst files = map (img_path (temp_dir (chat_id job))) (seq 1 (List.length keyed)) /\
     Forall2 (holds_image w) files keyed) /\
  imgs s' = imgs s ++ map image_url keyed.
Proof.
  intros Hst Hpos keyed s'.
  destruct (archive_body_answers w pages_of fuel job s Hst Hpos) as (H1 & H2 & _).
  split; assumption.
Qed.

(** X3. The page list of a chapter is asked for once in the pre-pass and
    once more for every page of the chapter, with or without a key: with the
    service answering, the calls are those of the chapters in order followed
    by as many calls for each chapter as it has pages. *)
Theorem page_lists_asked_again (w : World) (pages_of : string -> list Page)
    (fuel : nat) (job : Job) (s : State) :
  answers w pages_of (chapters job) ->
  0 < List.length (all_pages pages_of (chapters job)) ->
  let s' := snd (archive_body w fuel job s) in
  preqs s' = preqs s ++ map hid (chapters job) ++ refetches pages_of (chapters job) /\
  List.length (refetches pages_of (chapters job)) =
    List.length (all_pages pages_of (chapters job)).
Proof.
  intros Hst Hpos s'.
  destruct (archive_body_answers w pages_of fuel job s Hst Hpos) as (_ & _ & H3 & _).
  split; [exact H3|].
  unfold refetches, all_pages. clear.
  induction (chapters job) as [|c chs IH]; [reflexivity|].
  cbn [flat_map]. rewrite !length_app, repeat_length, IH. reflexivity.
Qed.

(** X4. When the plan is not empty but no page has a key, the job stops
    before packing: the last things it does are to set the status to the
    no-images text and to send the notice; it has asked for no image and
    sent no part, and the scratch directory is gone. *)
Theorem keyless_job_aborts (w : World) (pages_of : string -> list Page)
    (fuel : nat) (job : Job) (s : State) :
  answers w pages_of (chapters job) ->
  0 < List.length (all_pages pages_of (chapters job)) ->
  keyed_pages pages_of (chapters job) = [] ->
  let run := archive_worker w fuel job s in
  fst run = Ok tt /\
  (exists tr,
     trace (snd run) = tr ++
       [EditMessage (StatusText "Could not download any images. Aborting.");
        SendMessage "No pages could be downloaded for this chapter/manga. Please try again or /start a new search."]) /\
  imgs (snd run) = imgs s /\
  docs (snd run) = docs s /\
  scratch (snd run) = None.
Proof.
  intros Hst Hpos Hnone run.
  pose proof (archive_body_answers w pages_of fuel job s Hst Hpos) as H.
  unfold wp in H. cbv zeta in H. rewrite Hnone in H. cbn [List.length map] in H.
  destruct H as (_ & Hi & _ & Habort).
  destruct (Habort eq_refl) as (Hr & Hd & tr & Htr).
  unfold run, archive_worker, try_except_finally.
  destruct (archive_body w fuel job s) as [r s1]. cbn [fst snd] in *. subst r.
  cbn [cleanup fst snd trace scratch]. unfold imgs, docs in *. cbn [trace].
  rewrite app_nil_r in Hi. repeat split; auto. exists tr. exact Htr.
Qed.


(** ** The characters of the sanitized title *)

Lemma code_whole (c : string) (cp : N) : code c = Some cp -> whole c.
Proof.
  unfold code, whole, followers.
  destruct c as [|a [|b [|c3 [|d [|e t]]]]]; try discriminate; cbn [String.length];
    intros H.
  - destruct (N.ltb_spec (byte a) 128); [|discriminate H].
    destruct (N.ltb_spec (byte a) 192); [reflexivity | lia].
  - destruct (N.leb_spec 192 (byte a)); [|discriminate H].
    destruct (N.ltb_spec (byte a) 224); [|discriminate H].
    destruct (N.ltb_spec (byte a) 192); [lia | reflexivity].
  - destruct (N.leb_spec 224 (byte a)); [|discriminate H].
    destruct (N.ltb_spec (byte a) 240); [|discriminate H].
    destruct (N.ltb_spec (byte a) 192); [lia|].
    destruct (N.ltb_spec (byte a) 224); [lia | reflexivity].
  - destruct (N.leb_spec 240 (byte a)); [|discriminate H].
    destruct (N.ltb_spec (byte a) 248); [|discriminate H].
    destruct (N.ltb_spec (byte a) 192); [lia|].
    destruct (N.ltb_spec (byte a) 224); [lia|].
    destruct (N.ltb_spec (byte a) 240); [lia | reflexivity].
Qed.

Lemma kept_whole (c : string) : kept c = true -> whole c.
Proof.
  unfold kept. rewrite !orb_true_iff. intros [[H | H] | H].
  - unfold isalnum in H. destruct (code c) as [cp|] eqn:E; [|discriminate].
    exact (code_whole c cp E).
  - apply String.eqb_eq in H. subst c. reflexivity.
  - apply String.eqb_eq in H. subst c. reflexivity.
Qed.

Lemma high_byte_not_slash (x : ascii) : (128 <=? byte x)%N = true -> not_slash x = true.
Proof.
  destruct x as [[] [] [] [] [] [] [] []]; vm_compute; congruence.
Qed.

Lemma continues_high (x : ascii) : continues x = true -> (128 <=? byte x)%N = true.
Proof. unfold continues. rewrite andb_true_iff. tauto. Qed.

Lemma alnum_byte_not_slash (a : ascii) :
  isalnum (String a "") = true -> not_slash a = true.
Proof.
  destruct (Ascii.eqb_spec a "/") as [-> | Hne]; [vm_compute; congruence|].
  intros _. unfold not_slash. apply negb_true_iff, Ascii.eqb_neq. exact Hne.
Qed.

(** A character the title keeps holds no slash. *)
Lemma kept_no_slash (c : string) : kept c = true -> all not_slash c = true.
Proof.
  unfold kept. rewrite !orb_true_iff. intros [[H | H] | H].
  - pose proof H as Hal. unfold isalnum in H.
    destruct (code c) as [cp|] eqn:E; [|discriminate]. clear H. unfold code in E.
    destruct c as [|a [|b [|c3 [|d [|e t]]]]]; try discriminate.
    + cbn [all]. now rewrite (alnum_byte_not_slash a Hal).
    + destruct (N.leb_spec 192 (byte a)) as [Ha|]; [|discriminate E].
      destruct (byte a <? 224)%N; [|discriminate E].
      destruct (continues b) eqn:Hb; [|discriminate E].
      cbn [all]. rewrite (high_byte_not_slash a), (high_byte_not_slash b);
        [reflexivity | exact (continues_high b Hb) | apply N.leb_le; lia].
    + destruct (N.leb_spec 224 (byte a)) as [Ha|]; [|discriminate E].
      destruct (byte a <? 240)%N; [|discriminate E].
      destruct (continues b) eqn:Hb; [|discriminate E].
      destruct (continues c3) eqn:Hc; [|discriminate E].
      cbn [all]. rewrite (high_byte_not_slash a), (high_byte_not_slash b),
        (high_byte_not_slash c3);
        [reflexivity | exact (continues_high c3 Hc) | exact (continues_high b Hb)
        | apply N.leb_le; lia].
    + destruct (N.leb_spec 240 (byte a)) as [Ha|]; [|discriminate E].
      destruct (byte a <? 248)%N; [|discriminate E].
      destruct (continues b) eqn:Hb; [|discriminate E].
      destruct (continues c3) eqn:Hc; [|discriminate E].
      destruct (continues d) eqn:Hd; [|discriminate E].
      cbn [all]. rewrite (high_byte_not_slash a), (high_byte_not_slash b),
        (high_byte_not_slash c3), (high_byte_not_slash d);
        [reflexivity | exact (continues_high d Hd) | exact (continues_high c3 Hc)
        | exact (continues_high b Hb) | apply N.leb_le; lia].
  - apply String.eqb_eq in H. subst c. reflexivity.
  - apply String.eqb_eq in H. subst c. reflexivity.
Qed.

Lemma filter_kept_whole (l : list string) :
  Forall (fun c => kept c = true) (List.filter kept l).
Proof.
  apply Forall_forall. intros c Hc. apply filter_In in Hc. tauto.
Qed.

Lemma filter_all_kept (l : list string) :
  Forall (fun c => kept c = true) l -> List.filter kept l = l.
Proof.
  induction 1 as [|c l Hc _ IH]; [reflexivity|].
  cbn [List.filter]. now rewrite Hc, IH.
Qed.

(** The characters of the sanitized title: those of the title that are
    kept, less the trailing white space. *)
Lemma chars_safe_title (title : string) :
  chars (safe_title title) = rstrip_chars (List.filter kept (chars title)).
Proof.
  unfold safe_title. fold kept.
  change (fun c => isalnum c || String.eqb c " " || String.eqb c "_") with kept.
  rewrite chars_rstrip.
  rewrite (chars_join _ (well_cut_filter kept _ (well_cut_chars title))).
  reflexivity.
Qed.

Lemma safe_title_join (title : string) :
  safe_title title = join (rstrip_chars (List.filter kept (chars title))).
Proof. rewrite <- chars_safe_title. symmetry. apply join_chars. Qed.

Lemma safe_title_kept (title : string) :
  Forall (fun c => kept c = true) (chars (safe_title title)).
Proof.
  rewrite chars_safe_title.
  destruct (rstrip_chars_prefix (List.filter kept (chars title))) as (r & Hl & _).
  pose proof (filter_kept_whole (chars title)) as H. rewrite Hl in H.
  apply Forall_app in H. tauto.
Qed.
(** ** The working directory *)

Lemma stray_cbz (title : string) (single : bool) (k : nat) :
  stray title (cbz_filename title single k) = true.
Proof.
  unfold stray, cbz_filename, part_name.
  rewrite endswith_append. cbn [orb andb].
  destruct single; cbn [negb].
  - apply startswith_append.
  - rewrite append_assoc. apply startswith_append.
Qed.

Lemma filter_remove_stray (title cbz : string) (l : list string) :
  stray title cbz = true ->
  List.filter (not_stray title) (List.filter (fun f => negb (String.eqb f cbz)) l)
  = List.filter (not_stray title) l.
Proof.
  intros Hs. induction l as [|f l IH]; [reflexivity|].
  cbn [List.filter]. destruct (String.eqb f cbz) eqn:E; cbn [negb List.filter].
  - apply String.eqb_eq in E. subst f. unfold not_stray at 2. rewrite Hs. exact IH.
  - rewrite IH. reflexivity.
Qed.

Lemma filter_create_stray (title cbz : string) (l : list string) :
  stray title cbz = true ->
  List.filter (not_stray title)
    (if existsb (String.eqb cbz) l then l else l ++ [cbz])
  = List.filter (not_stray title) l.
Proof.
  intros Hs. destruct (existsb (String.eqb cbz) l); [reflexivity|].
  rewrite filter_app. cbn [List.filter]. unfold not_stray at 2. rewrite Hs.
  apply app_nil_r.
Qed.

(** The packing loop creates and removes archives of the title only. *)
Lemma pack_parts_cwd (w : World) title single paths fuel : forall part_num page_index s,
  wp (pack_parts w fuel title single paths part_num page_index)
     (fun _ s' => List.filter (not_stray title) (cwd s')
                  = List.filter (not_stray title) (cwd s)) s.
Proof.
  induction fuel as [|fuel IH]; intros part_num page_index s; simpl;
    destruct (page_index <? List.length paths); try (apply wp_ret; auto);
    [unfold wp; simpl; auto|].
  apply wp_bind, wp_emit. apply wp_bind. unfold wp at 1, create_file. cbn [fst snd].
  apply wp_bind. eapply wp_mono; [|apply fill_part_unchanged].
  intros r s1 ->.
  assert (Hc : forall c (sc : option (list (string * Image))) (tr : list (Event Image)),
            List.filter (not_stray title)
              (cwd (mkState c sc
                 (if existsb (String.eqb (cbz_filename title single part_num)) (cwd s)
                  then cwd s else cwd s ++ [cbz_filename title single part_num]) tr))
            = List.filter (not_stray title) (cwd s)).
  { intros. cbn [cwd]. apply filter_create_stray, stray_cbz. }
  destruct r as [[page_index' zipf]|e|]; try apply Hc.
  apply wp_bind, wp_emit. apply wp_bind. unfold send_document.
  apply wp_bind. unfold wp at 1, tick. cbn [fst snd].
  match goal with |- wp (match ?u with _ => _ end) _ _ => destruct u end.
  { apply wp_raise. apply Hc. }
  apply wp_emit. apply wp_bind. unfold wp at 1, os_remove. cbn [fst snd].
  eapply wp_mono; [|apply IH]. intros r' s' H. cbv beta in H. rewrite H. cbn [cwd].
  rewrite filter_remove_stray by apply stray_cbz.
  apply filter_create_stray, stray_cbz.
Qed.

Lemma archive_body_cwd (w : World) (fuel : nat) (job : Job) (s : State) :
  wp (archive_body w fuel job)
     (fun _ s' => List.filter (not_stray (safe_title (archive_title job))) (cwd s')
                  = List.filter (not_stray (safe_title (archive_title job))) (cwd s)) s.
Proof.
  unfold archive_body. apply wp_bind.
  eapply wp_mono; [|apply count_pages_frame].
  intros r s1 (_ & _ & _ & Hc1). destruct r as [[counts total]|e|]; try (now rewrite Hc1).
  destruct (total =? 0).
  { apply wp_bind, wp_emit. unfold send_message. apply wp_emit. cbn [cwd]. now rewrite Hc1. }
  apply wp_bind. unfold wp at 1, rmtree_if_exists. cbn [fst snd].
  apply wp_bind. unfold wp at 1, makedirs. cbn [fst snd].
  apply wp_bind. eapply wp_mono; [|apply fetch_chapters_frame].
  intros r s2 (_ & Hc2). cbn [cwd] in Hc2. rewrite Hc1 in Hc2.
  destruct r as [[idx paths]|e|]; [| now rewrite Hc2 | now rewrite Hc2].
  destruct paths as [|p paths].
  { apply wp_bind, wp_emit. unfold send_message. apply wp_emit. cbn [cwd]. now rewrite Hc2. }
  apply wp_bind. eapply wp_mono; [|apply pack_parts_cwd].
  intros r s3 Hc3. cbv beta in Hc3. rewrite Hc2 in Hc3.
  destruct r as [part_num|e|]; exact Hc3.
Qed.

Lemma filter_idem {A} (f : A -> bool) (l : list A) :
  List.filter f (List.filter f l) = List.filter f l.
Proof.
  induction l as [|a l IH]; [reflexivity|].
  cbn [List.filter]. destruct (f a) eqn:E; cbn [List.filter]; rewrite ?E, IH; reflexivity.
Qed.

(** X5. When a job has ended, the working directory is what it was before
    the job, less the files that end in [.cbz] or [.zip] and start with the
    sanitized title: the job leaves no file of its own behind, removes the
    older archives of that title, and touches nothing else. *)
Theorem working_directory_after_job (w : World) (fuel : nat) (job : Job)
    (s : State) (r : Result unit) (s' : State) :
  archive_worker w fuel job s = (r, s') ->
  r <> OutOfFuel ->
  cwd s' = List.filter (fun f => negb (stray (safe_title (archive_title job)) f)) (cwd s).
Proof.
  pose proof (archive_body_cwd w fuel job s) as H. unfold wp in H.
  unfold archive_worker, try_except_finally.
  destruct (archive_body w fuel job s) as [[[]|e|] s1]; cbn [fst snd] in H.
  - intros [= <- <-] _. cbn [cleanup cwd].
    fold (not_stray (safe_title (archive_title job))).
    change (fun f => not_stray (safe_title (archive_title job)) f)
      with (not_stray (safe_title (archive_title job))).
    exact H.
  - cbn. intros [= <- <-] _. cbn [cwd].
    change (fun f => negb (stray (safe_title (archive_title job)) f))
      with (not_stray (safe_title (archive_title job))).
    exact H.
  - intros [= <- <-] Hr. congruence.
Qed.

(** X6. A title with no letter, digit or underscore sanitizes to the empty
    string, which every file name starts with: when such a job has ended, no
    file ending in [.cbz] or [.zip] is left in the working directory,
    whatever its name. *)
Theorem empty_title_removes_every_archive (w : World) (fuel : nat) (job : Job)
    (s : State) (r : Result unit) (s' : State) :
  forallb (fun c => negb (isalnum c || String.eqb c "_")) (chars (archive_title job))
    = true ->
  archive_worker w fuel job s = (r, s') ->
  r <> OutOfFuel ->
  safe_title (archive_title job) = ""%string /\
  forall f, In f (cwd s') -> endswith f ".cbz" = false /\ endswith f ".zip" = false.
Proof.
  intros Hall Hrun Hr.
  assert (Ht : safe_title (archive_title job) = ""%string).
  { rewrite safe_title_join, rstrip_chars_spaces; [reflexivity|].
    apply Forall_forall. intros c Hc. apply filter_In in Hc as [Hin Hk].
    rewrite forallb_forall in Hall. specialize (Hall c Hin).
    apply negb_true_iff, orb_false_iff in Hall as [Ha Hu].
    unfold kept in Hk. rewrite Ha, Hu, orb_false_r in Hk. cbn [orb] in Hk.
    apply String.eqb_eq in Hk. subst c. reflexivity. }
  split; [exact Ht|].
  pose proof (archive_body_cwd w fuel job s) as H. unfold wp in H.
  revert Hrun. unfold archive_worker, try_except_finally.
  intros Hrun f Hin.
  assert (Hf : In f (List.filter (fun f => negb (stray ""%string f)) (cwd s'))
               \/ stray ""%string f = false).
  { right.
    destruct (archive_body w fuel job s) as [[[]|e|] s1]; cbn in Hrun;
      injection Hrun as <- <-; try congruence;
      cbn [cwd] in Hin; rewrite Ht in Hin;
      apply filter_In in Hin as [_ Hn]; apply negb_true_iff in Hn; exact Hn. }
  assert (Hs : stray ""%string f = false).
  { destruct Hf as [Hf | Hf]; [|exact Hf].
    apply filter_In in Hf as [_ Hn]. apply negb_true_iff in Hn. exact Hn. }
  unfold stray in Hs. rewrite startswith_nil, andb_true_r in Hs.
  apply orb_false_iff in Hs. exact Hs.
Qed.

(** ** The sanitized title *)

(** X7. The sanitized title holds only the characters [safe_title] keeps
    (letters and digits as [str.isalnum] has them, spaces and underscores)
    and does not end with white space; sanitizing it again changes nothing;
    and the archive names built from it hold no slash, so that the name
    shown in the status is the name of the file. *)
Theorem safe_title_is_clean (title : string) (single : bool) (part_num : nat) :
  Forall (fun c => kept c = true) (chars (safe_title title)) /\
  (forall pre c, chars (safe_title title) = pre ++ [c] -> isspace c = false) /\
  safe_title (safe_title title) = safe_title title /\
  basename (cbz_filename (safe_title title) single part_num)
    = cbz_filename (safe_title title) single part_num.
Proof.
  pose proof (safe_title_kept title) as Hk.
  split; [exact Hk|]. split; [|split].
  - intros pre c H. rewrite chars_safe_title in H.
    exact (rstrip_chars_last _ pre c H).
  - rewrite (safe_title_join (safe_title title)).
    rewrite (filter_all_kept _ Hk), chars_safe_title, rstrip_chars_idem.
    symmetry. apply safe_title_join.
  - apply basename_plain. unfold cbz_filename, part_name.
    assert (Hs : all not_slash (safe_title title) = true).
    { rewrite <- (join_chars (safe_title title)). apply all_join.
      eapply Forall_impl; [|exact Hk]. exact kept_no_slash. }
    destruct single; cbn [negb]; rewrite !all_append, ?Hs; cbn [andb].
    + reflexivity.
    + rewrite (all_impl isdigit not_slash _ isdigit_not_slash (str_nat_digits part_num)).
      reflexivity.
Qed.

(** ** How the try block ends *)

(** The notice for [n] parts sent. *)
Lemma final_message_shows_count (title : string) (single : bool) (n : nat) :
  final_message title single (1 + n) =
  ("Your download of '" ++ title ++ "' is complete!" ++
   (if ((2 <=? n)%nat || (negb single && (n =? 1)%nat))%bool
    then " (" ++ str_nat n ++ " parts sent)." else "") ++
   nl ++ nl ++ "To search for another manga, please click /start.")%string.
Proof.
  unfold final_message.
  replace (1 + n - 1) with n by lia.
  replace (2 <? 1 + n) with (2 <=? n) by (destruct n as [|[|n]]; reflexivity).
  replace (1 + n =? 2) with (n =? 1) by (destruct n as [|[|n]]; reflexivity).
  reflexivity.
Qed.

(** X8. When the try block returns, it has ended in one of three ways:
    with the no-pages messages, nothing sent and no image asked for; with
    the no-images messages and nothing sent; or with the completion notice
    followed by the deletion of the status message, after at least one part
    was sent; the notice then names the number of parts sent, unless a single
    part was sent for a title that contains [_Ch_]. *)
Theorem try_block_endings (w : World) (fuel : nat) (job : Job) (s : State) :
  let run := archive_body w fuel job s in
  fst run = Ok tt ->
  (exists tr,
     trace (snd run) = tr ++
       [EditMessage (StatusText "Could not get page counts. Aborting.");
        SendMessage "Error retrieving page information. Please try again or /start a new search."] /\
     docs (snd run) = docs s /\ imgs (snd run) = imgs s) \/
  (exists tr,
     trace (snd run) = tr ++
       [EditMessage (StatusText "Could not download any images. Aborting.");
        SendMessage "No pages could be downloaded for this chapter/manga. Please try again or /start a new search."] /\
     docs (snd run) = docs s) \/
  (exists tr new,
     trace (snd run) = tr ++
       [SendMessage
          ("Your download of '" ++ archive_title job ++ "' is complete!" ++
           (if ((2 <=? List.length new)%nat ||
                (negb (is_single_chapter_download (archive_title job))
                 && (List.length new =? 1)%nat))%bool
            then " (" ++ str_nat (List.length new) ++ " parts sent)." else "") ++
           nl ++ nl ++ "To search for another manga, please click /start.")%string;
        DeleteMessage] /\
     docs (snd run) = docs s ++ new /\ new <> []).
Proof.
  intros run. setoid_rewrite <- final_message_shows_count.
  change (wp (archive_body w fuel job)
            (fun r s' => r = Ok tt ->
               (exists tr,
                  trace s' = tr ++
                    [EditMessage (StatusText "Could not get page counts. Aborting.");
                     SendMessage "Error retrieving page information. Please try again or /start a new search."] /\
                  docs s' = docs s /\ imgs s' = imgs s) \/
               (exists tr,
                  trace s' = tr ++
                    [EditMessage (StatusText "Could not download any images. Aborting.");
                     SendMessage "No pages could be downloaded for this chapter/manga. Please try again or /start a new search."] /\
                  docs s' = docs s) \/
               (exists tr new,
                  trace s' = tr ++
                    [SendMessage (final_message (archive_title job)
                                    (is_single_chapter_download (archive_title job))
                                    (1 + List.length new));
                     DeleteMessage] /\
                  docs s' = docs s ++ new /\ new <> [])) s).
  unfold archive_body. apply wp_bind.
  eapply wp_mono; [|apply count_pages_frame].
  intros r s1 (Hd1 & Hi1 & _). destruct r as [[counts total]|e|]; try discriminate.
  destruct (total =? 0).
  { apply wp_bind, wp_emit. unfold send_message. apply wp_emit. intros _. left.
    exists (trace s1). cbn [trace]. rewrite <- app_assoc. split; [reflexivity|].
    unfold docs, imgs in *. cbn [trace].
    rewrite !sent_documents_app, !image_requests_app. cbn. rewrite !app_nil_r. auto. }
  apply wp_bind. unfold wp at 1, rmtree_if_exists. cbn [fst snd].
  apply wp_bind. unfold wp at 1, makedirs. cbn [fst snd].
  apply wp_bind. eapply wp_mono; [|apply fetch_chapters_frame].
  intros r s2 (Hd2 & _). unfold docs in Hd2 at 2. cbn [trace] in Hd2.
  fold (docs s1) in Hd2. rewrite Hd1 in Hd2.
  destruct r as [[idx paths]|e|]; try discriminate.
  destruct paths as [|p paths].
  { apply wp_bind, wp_emit. unfold send_message. apply wp_emit. intros _. right. left.
    exists (trace s2). cbn [trace]. rewrite <- app_assoc. split; [reflexivity|].
    unfold docs in *. cbn [trace].
    rewrite !sent_documents_app. cbn. rewrite !app_nil_r. auto. }
  apply wp_bind. eapply wp_mono; [|apply pack_parts_spec].
  intros r s3 (new & Hd3 & _ & _ & _ & Hok).
  destruct r as [part_num|e|]; try discriminate.
  destruct (Hok _ eq_refl) as [-> Hlast].
  apply wp_bind. unfold send_message. apply wp_emit.
  unfold delete_message. apply wp_emit. intros _. right. right.
  exists (trace s3), new. cbn [trace]. rewrite <- app_assoc. split; [reflexivity|].
  split.
  - unfold docs in *. cbn [trace]. rewrite !sent_documents_app. cbn.
    rewrite !app_nil_r. rewrite Hd3, Hd2. reflexivity.
  - destruct Hlast as (init & d & -> & _); [cbn; lia|]. destruct init; discriminate.
Qed.


(** ** What the parts hold *)

Section Runs.
Variable w : World.
Variable fs : list (string * Image).

Lemma Forall2_skipn {A B} (R : A -> B -> Prop) (l : list A) (l' : list B) (n : nat) :
  Forall2 R l l' -> Forall2 R (skipn n l) (skipn n l').
Proof.
  intros H. revert n. induction H as [|a b l l' Hab H IH]; intros [|n]; cbn [skipn];
    try constructor; auto.
Qed.

Lemma in_segment {A} (l : list A) (a b i : nat) (x : A) :
  nth_error l i = Some x -> a <= i < b -> In x (segment l a b).
Proof.
  intros Hn [Ha Hb]. unfold segment.
  assert (H : nth_error (firstn (b - a) (skipn a l)) (i - a) = Some x).
  { rewrite nth_error_firstn.
    destruct (Nat.ltb_spec (i - a) (b - a)); [|lia].
    rewrite nth_error_skipn. replace (a + (i - a)) with i by lia. exact Hn. }
  eapply nth_error_In. exact H.
Qed.

(** With the files readable, the inner loop returns the entries of the
    first [q] files it was given, after those it started with: either it
    stopped on the [q]-th, one step back from it, or it took them all. *)
Lemma fill_part_run rest entries : forall zipf page_index pages s,
  scratch s = Some fs ->
  Forall2 (reads_as fs) rest entries ->
  pages <= page_index ->
  exists q page_index',
    fill_part w rest page_index pages zipf s
      = (Ok (page_index', zipf ++ firstn q entries), s) /\
    q <= List.length rest /\
    ((0 < pages + (q - 1) /\ 1 <= q /\ page_index' + 2 = page_index + q)
     \/ (q = List.length rest /\ page_index' = page_index + q)).
Proof.
  intros zipf page_index pages s Hs Hall. revert zipf page_index pages.
  induction Hall as [|p e rest entries [Hp He] Hall IH]; intros zipf page_index pages Hle.
  - exists 0, page_index. cbn. rewrite app_nil_r, Nat.add_0_r.
    split; [reflexivity|]. split; [lia|]. right. auto.
  - cbn [fill_part]. unfold bind at 1, read_file. rewrite Hs, Hp.
    assert (Ee : (basename p, snd e) = e) by (rewrite <- He; destruct e; reflexivity).
    cbv beta iota zeta. rewrite Ee.
    match goal with |- context [if ?c then _ else _] => destruct c eqn:Hc end.
    + exists 1, (page_index - 1). cbn [firstn List.length]. split; [reflexivity|].
      apply andb_true_iff in Hc as [_ Hpg]. apply Nat.ltb_lt in Hpg.
      split; [lia|]. left. lia.
    + destruct (IH (zipf ++ [e]) (page_index + 1) (pages + 1)) as (q & p' & Hrun & Hq & Hcase);
        [lia|].
      exists (S q), p'. cbn [firstn List.length]. split.
      { etransitivity; [exact Hrun|]. rewrite <- app_assoc. reflexivity. }
      split; [lia|].
      destruct Hcase as [(H1 & H2 & H3) | (H1 & H2)]; [left | right]; lia.
Qed.

(** The parts a run of the packing loop sends, the files being readable:
    each is a run of consecutive entries that starts at or after the cursor;
    and when the loop is left every entry from the cursor on is in one. *)
Lemma pack_parts_runs title single paths entries fuel :
  Forall2 (reads_as fs) paths entries ->
  forall part_num page_index s,
    scratch s = Some fs ->
    wp (pack_parts w fuel title single paths part_num page_index)
       (fun r s' => exists new,
          docs s' = docs s ++ new /\
          Forall (fun d => exists a b,
                    page_index <= a /\ a < b <= List.length entries /\
                    snd d = segment entries a b) new /\
          ((exists n, r = Ok n) ->
           forall i, page_index <= i < List.length entries ->
             exists d a b, In d new /\ snd d = segment entries a b /\ a <= i < b)) s.
Proof.
  intros Hall.
  assert (Hlen : List.length paths = List.length entries)
    by (eapply Forall2_length; exact Hall).
  induction fuel as [|fuel IH]; intros part_num page_index s Hs; cbn [pack_parts];
    destruct (page_index <? List.length paths) eqn:Hlt.
  - exists []. rewrite app_nil_r. repeat split; auto. intros [n Hn]. discriminate.
  - apply Nat.ltb_ge in Hlt. apply wp_ret. exists []. rewrite app_nil_r.
    repeat split; auto. intros _ i Hi. lia.
  - apply Nat.ltb_lt in Hlt.
    set (cbz := cbz_filename title single part_num).
    apply wp_bind, wp_emit. apply wp_bind. unfold wp at 1, create_file. cbn [fst snd].
    match goal with |- wp _ _ ?s1 => set (s1' := s1) end.
    destruct (fill_part_run (skipn page_index paths) (skipn page_index entries)
                [] page_index 0 s1') as (q & p' & Hrun & Hq & Hcase);
      [exact Hs | apply Forall2_skipn; exact Hall | lia |].
    rewrite length_skipn in Hq, Hcase. cbn [app] in Hrun.
    apply wp_bind. unfold wp at 1. rewrite Hrun. cbn [fst snd].
    assert (Hq1 : 1 <= q) by (destruct Hcase as [(_ & H & _) | (H & _)]; lia).
    assert (Hseg : firstn q (skipn page_index entries)
                   = segment entries page_index (page_index + q))
      by (unfold segment; f_equal; lia).
    apply wp_bind, wp_emit. apply wp_bind. unfold send_document.
    apply wp_bind. unfold wp at 1, tick. cbn [fst snd].
    match goal with |- wp (match ?u with _ => _ end) _ _ => destruct u end.
    { apply wp_raise. exists []. rewrite app_nil_r.
      split; [unfold docs, s1'; cbn [trace]; rewrite !sent_documents_app; cbn;
              rewrite !app_nil_r; reflexivity|].
      split; [constructor|]. intros [n Hn]. discriminate. }
    apply wp_emit. apply wp_bind. unfold wp at 1, os_remove. cbn [fst snd].
    match goal with |- wp _ _ ?s3 => set (s3' := s3) end.
    assert (Hd3 : docs s3' = docs s ++ [(cbz, firstn q (skipn page_index entries))]).
    { unfold s3', s1', docs. cbn [trace]. rewrite !sent_documents_app. cbn.
      rewrite !app_nil_r. reflexivity. }
    assert (Hp' : page_index <= p') by lia.
    eapply wp_mono; [|apply (IH (part_num + 1) p' s3'); exact Hs].
    intros r s4 (new & Hdocs & Hruns & Hcover).
    exists ((cbz, firstn q (skipn page_index entries)) :: new). repeat split.
    + rewrite Hdocs, Hd3, <- app_assoc. reflexivity.
    + constructor.
      * exists page_index, (page_index + q). cbn [snd]. repeat split; try lia. exact Hseg.
      * eapply Forall_impl; [|exact Hruns].
        intros d (a & b & Ha & Hb & Hd). exists a, b. repeat split; try lia. exact Hd.
    + intros Hok i Hi.
      destruct (Nat.lt_ge_cases i (page_index + q)) as [Hin | Hout].
      * exists (cbz, firstn q (skipn page_index entries)), page_index, (page_index + q).
        cbn [snd]. repeat split; try lia; [left; reflexivity | exact Hseg].
      * destruct (Hcover Hok i) as (d & a & b & Hd & Hs' & Hab); [lia|].
        exists d, a, b. repeat split; try lia; [right; exact Hd | exact Hs'].
  - apply Nat.ltb_ge in Hlt. apply wp_ret. exists []. rewrite app_nil_r.
    repeat split; auto. intros _ i Hi. lia.
Qed.

End Runs.

(** X9. With the fetched files readable, every part the packing loop sends
    holds a run of consecutive entries of the list, in the order of the list;
    and when the loop has ended every entry of the list is in some part.  The
    loop repeats pages but neither drops nor reorders them. *)
Theorem parts_are_runs_that_cover (w : World) (fs : list (string * Image))
    (title : string) (single : bool) (paths : list string) (entries : list Entry)
    (fuel : nat) (s : State) (new : list (string * list Entry)) :
  scratch s = Some fs ->
  Forall2 (reads_as fs) paths entries ->
  docs (snd (pack_parts w fuel title single paths 1 0 s)) = docs s ++ new ->
  (forall part, In part new ->
     exists a b, a < b <= List.length entries /\ snd part = segment entries a b) /\
  ((exists n, fst (pack_parts w fuel title single paths 1 0 s) = Ok n) ->
   forall e, In e entries -> exists part, In part new /\ In e (snd part)).
Proof.
  intros Hs Hall Hnew.
  destruct (pack_parts_runs w fs title single paths entries fuel Hall 1 0 s Hs)
    as (new' & Hd & Hruns & Hcover).
  rewrite Hd in Hnew. apply app_inv_head in Hnew. subst new'. split.
  - intros part Hin. rewrite Forall_forall in Hruns.
    destruct (Hruns part Hin) as (a & b & _ & Hab & Hseg). exists a, b. auto.
  - intros Hok e He. apply In_nth_error in He as [i Hi].
    assert (Hlt : i < List.length entries) by (apply nth_error_Some; congruence).
    destruct (Hcover Hok i) as (d & a & b & Hd' & Hseg & Hab); [lia|].
    exists d. split; [exact Hd'|]. rewrite Hseg. eapply in_segment; eauto.
Qed.

(** ** A download that fails *)

Section Failing.
Variable w : World.
Variable pages_of : string -> list Page.
Variable dir : string.

Lemma fetch_pages_fails c n total (pre post : list Page) (p : Page) (e : string) :
  pages_of (hid c) = pre ++ p :: post ->
  (forall t, get_chapter_pages w t (hid c) = inr (pages_of (hid c))) ->
  (forall t q, In q pre -> no_key q = false ->
     exists img, download_image w t (image_url q) = inr img) ->
  no_key p = false ->
  (forall t, download_image w t (image_url p) = inl e) ->
  forall k j idx paths s fs,
    j <= List.length pre ->
    j + k = List.length (pages_of (hid c)) ->
    scratch s = Some fs ->
    wp (fetch_pages w dir c n total (seq j k) idx paths)
       (fun r s' =>
          r = Raise e /\
          imgs s' = imgs s ++ map image_url (List.filter has_key (skipn j pre))
                    ++ [image_url p] /\
          docs s' = docs s) s.
Proof.
  intros HP Hget Hdl Hkp Hfail k.
  induction k as [|k IH]; intros j idx paths s fs Hj Hjk Hs.
  - rewrite HP, length_app in Hjk. cbn in Hjk. lia.
  - cbn [seq fetch_pages].
    apply wp_bind, wp_emit. apply wp_bind. unfold api_get_chapter_pages.
    apply wp_bind. unfold wp at 1, tick. cbn [fst snd].
    apply wp_bind, wp_emit. rewrite Hget. apply wp_ret.
    destruct (Nat.eq_dec j (List.length pre)) as [-> | Hne].
    + (* the page whose download fails *)
      rewrite HP, nth_error_app2, Nat.sub_diag by lia. cbn [nth_error].
      rewrite Hkp. apply wp_bind. unfold api_download_image.
      apply wp_bind. unfold wp at 1, tick. cbn [fst snd clock].
      apply wp_bind, wp_emit. rewrite Hfail. apply wp_raise.
      rewrite skipn_all. cbn [List.filter map app].
      unfold imgs, docs. cbn [trace].
      rewrite !image_requests_app, !sent_documents_app. cbn.
      rewrite !app_nil_r. auto.
    + assert (Hlt : j < List.length pre) by lia.
      destruct (nth_error pre j) as [page|] eqn:Hnth;
        [|apply nth_error_None in Hnth; lia].
      rewrite HP, nth_error_app1, Hnth by lia.
      assert (Hin : In page pre) by (eapply nth_error_In; eauto).
      rewrite (skipn_nth_error _ _ _ Hnth). cbn [List.filter].
      assert (Hh : has_key page = negb (no_key page)) by reflexivity.
      remember (skipn (S j) pre) as rest eqn:Erest.
      destruct (no_key page) eqn:Hk; rewrite Hh; cbn [negb].
      * subst rest. eapply wp_mono; [|apply (IH (S j) idx paths _ fs); auto; lia].
        intros r s' (-> & Hi & Hd). split; [reflexivity|].
        rewrite Hi, Hd. unfold imgs, docs. cbn [trace].
        rewrite !image_requests_app, !sent_documents_app. cbn.
        rewrite !app_nil_r. auto.
      * apply wp_bind. unfold api_download_image.
        apply wp_bind. unfold wp at 1, tick. cbn [fst snd clock].
        apply wp_bind, wp_emit.
        destruct (Hdl (S (clock s)) page Hin Hk) as [img Himg]. rewrite Himg.
        apply wp_ret. apply wp_bind. unfold wp at 1, write_file. cbn [scratch].
        rewrite Hs. cbn [fst snd]. subst rest.
        eapply wp_mono;
          [|apply (IH (S j) (idx + 1) _ _ (fs ++ [(img_path dir idx, img)]));
            auto; lia].
        intros r s' (-> & Hi & Hd). split; [reflexivity|].
        rewrite Hi, Hd. unfold imgs, docs. cbn [trace].
        rewrite !image_requests_app, !sent_documents_app. cbn.
        rewrite !app_nil_r, <- !app_assoc. auto.
Qed.

Lemma fetch_chapters_fails counts total c (chs2 : list Chapter)
    (pre post : list Page) (p : Page) (e : string) :
  pages_of (hid c) = pre ++ p :: post ->
  (forall t, get_chapter_pages w t (hid c) = inr (pages_of (hid c))) ->
  (forall t q, In q pre -> no_key q = false ->
     exists img, download_image w t (image_url q) = inr img) ->
  no_key p = false ->
  (forall t, download_image w t (image_url p) = inl e) ->
  forall chs1 idx paths s fs,
    answers w pages_of chs1 ->
    (forall c', In c' (chs1 ++ c :: chs2) ->
       counts_get counts (hid c') = Some (List.length (pages_of (hid c')))) ->
    scratch s = Some fs ->
    wp (fetch_chapters w dir counts total (chs1 ++ c :: chs2) idx paths)
       (fun r s' =>
          r = Raise e /\
          imgs s' = imgs s ++ map image_url (keyed_pages pages_of chs1)
                    ++ map image_url (List.filter has_key pre) ++ [image_url p] /\
          docs s' = docs s) s.
Proof.
  intros HP Hget Hdl Hkp Hfail chs1.
  induction chs1 as [|c1 chs1 IH]; intros idx paths s fs Hans Hcounts Hs.
  - cbn [app fetch_chapters]. rewrite (Hcounts c (or_introl eq_refl)).
    apply wp_bind.
    eapply wp_mono;
      [|apply (fetch_pages_fails c _ total pre post p e HP Hget Hdl Hkp Hfail
                 (List.length (pages_of (hid c))) 0 idx paths s fs); auto; lia].
    intros r s' (-> & Hi & Hd). cbn [skipn] in Hi. cbn. auto.
  - cbn [app fetch_chapters]. rewrite (Hcounts c1 (or_introl eq_refl)).
    destruct (Hans c1 (or_introl eq_refl)) as (Hget1 & Hdl1).
    apply wp_bind.
    eapply wp_mono;
      [|apply wp_and;
          [apply (fetch_pages_keyed w pages_of dir c1 (List.length (pages_of (hid c1)))
                    total (List.length (pages_of (hid c1))) 0 idx paths s fs); auto
          |apply (fetch_pages_frame w dir c1 (List.length (pages_of (hid c1))) total
                    (seq 0 (List.length (pages_of (hid c1)))) idx paths s)]].
    cbv zeta. cbn [skipn].
    intros r s1 [(-> & files1 & Hsc1 & _ & _ & Himg1 & _) (Hd1 & _)].
    eapply wp_mono; [|apply (IH _ _ s1 (fs ++ files1)); auto].
    + intros r s2 (-> & Hi & Hd). split; [reflexivity|].
      rewrite Hi, Hd, Himg1, Hd1. split; [|reflexivity].
      unfold keyed_pages, all_pages. cbn [flat_map].
      rewrite filter_app, map_app, <- !app_assoc. reflexivity.
    + intros c' Hin. apply Hans. right. exact Hin.
    + intros c' Hin. apply Hcounts. right. exact Hin.
Qed.

End Failing.

(** X10. A download that fails ends the job.  With the page lists
    answered and the images before it downloaded, when the download of a
    page's image fails the job asks for no further image, sends no part,
    sets the status to the text of the exception and sends the notice to try
    again; the worker itself returns normally and the scratch directory is
    gone. *)
Theorem failed_download_ends_job (w : World) (pages_of : string -> list Page)
    (fuel : nat) (job : Job) (s : State)
    (chs1 chs2 : list Chapter) (c : Chapter) (pre post : list Page) (p : Page)
    (e : string) :
  chapters job = chs1 ++ c :: chs2 ->
  listed w pages_of (chapters job) ->
  answers w pages_of chs1 ->
  pages_of (hid c) = pre ++ p :: post ->
  (forall t q, In q pre -> no_key q = false ->
     exists img, download_image w t (image_url q) = inr img) ->
  no_key p = false ->
  (forall t, download_image w t (image_url p) = inl e) ->
  let run := archive_worker w fuel job s in
  fst run = Ok tt /\
  (exists tr,
     trace (snd run) = tr ++
       [EditMessage (StatusText ("An unexpected error occurred: " ++ e)%string);
        SendMessage "Please try again or /start a new search."]) /\
  imgs (snd run) = imgs s ++ map image_url (keyed_pages pages_of chs1)
                   ++ map image_url (List.filter has_key pre) ++ [image_url p] /\
  docs (snd run) = docs s /\
  scratch (snd run) = None.
Proof.
  intros Hchs Hlist Hans HP Hdl Hkp Hfail run.
  assert (Hbody : wp (archive_body w fuel job)
            (fun r s' =>
               r = Raise e /\
               imgs s' = imgs s ++ map image_url (keyed_pages pages_of chs1)
                         ++ map image_url (List.filter has_key pre) ++ [image_url p] /\
               docs s' = docs s) s).
  { unfold archive_body. apply wp_bind.
    eapply wp_mono;
      [|apply wp_and;
          [apply (count_pages_answers w pages_of (chapters job) [] 0 s Hlist);
           intros k v []
          | apply count_pages_frame]].
    intros r s1 [(counts & -> & Htrue & Hhas & _) (Hd1 & Hi1 & _)].
    cbn [Nat.add].
    assert (Hpos : 0 < List.length (all_pages pages_of (chapters job))).
    { rewrite Hchs. unfold all_pages. rewrite flat_map_app. cbn [flat_map].
      rewrite HP, !length_app. cbn. lia. }
    destruct (List.length (all_pages pages_of (chapters job)) =? 0) eqn:En;
      [apply Nat.eqb_eq in En; lia|].
    apply wp_bind. unfold wp at 1, rmtree_if_exists. cbn [fst snd].
    apply wp_bind. unfold wp at 1, makedirs. cbn [fst snd scratch].
    apply wp_bind. rewrite Hchs.
    eapply wp_mono;
      [|apply (fetch_chapters_fails w pages_of (temp_dir (chat_id job)) counts _
                 c chs2 pre post p e HP (Hlist c ltac:(rewrite Hchs; apply in_elt))
                 Hdl Hkp Hfail chs1 1 [] _ []); auto].
    - intros r s2 (-> & Hi & Hd). split; [reflexivity|].
      rewrite Hi, Hd. unfold imgs, docs. cbn [trace]. fold (imgs s1) (docs s1).
      rewrite Hi1, Hd1. auto.
    - intros c' Hin. apply counts_get_found; [exact Htrue|].
      apply Hhas. right. exists c'. rewrite Hchs. auto. }
  unfold wp in Hbody. unfold run, archive_worker, try_except_finally.
  destruct (archive_body w fuel job s) as [r s1]. cbn [fst snd] in Hbody.
  destruct Hbody as (-> & Hi & Hd).
  cbn. unfold imgs, docs in *. cbn [trace].
  rewrite !image_requests_app, !sent_documents_app. cbn. rewrite !app_nil_r.
  repeat split; auto.
  exists (trace s1). rewrite <- app_assoc. reflexivity.
Qed.

End WithImage.

(** ** Examples *)

Lemma gaps_answers : answers gaps_service gaps_pages one_chapter.
Proof.
  intros c [<-|[]]. split; [intros t; reflexivity|].
  intros t p Hin Hk. cbn in Hin.
  destruct Hin as [<-|[<-|[<-|[<-|[]]]]]; try discriminate Hk;
    eexists; reflexivity.
Qed.

Lemma keyless_answers : answers keyless_service keyless_pages one_chapter.
Proof.
  intros c [<-|[]]. split; [intros t; reflexivity|].
  intros t p Hin Hk. cbn in Hin.
  destruct Hin as [<-|[<-|[]]]; discriminate Hk.
Qed.

(** Four pages, the second and the fourth without a key: two files, numbered
    1 and 2. *)
Lemma keyless_pages_take_no_number_witness :
  let job := mkJob 7 "Title" one_chapter in
  let s' := snd (archive_body gaps_service 5 job (start None [])) in
  answers gaps_service gaps_pages (chapters job) /\
  0 < List.length (all_pages gaps_pages (chapters job)) /\
  (exists files,
     scratch s' = Some files /\
     map fst files = ["./temp_7/0001.jpg"; "./temp_7/0002.jpg"] /\
     Forall2 (holds_image gaps_service) files [mkPage (Some "a"); mkPage (Some "c")]) /\
  imgs s' = ["https://meo.comick.pictures/a"; "https://meo.comick.pictures/c"].
Proof.
  intros job s'.
  split; [exact gaps_answers|]. split; [vm_compute; lia|].
  exact (keyless_pages_take_no_number gaps_service gaps_pages 5 job (start None [])
           gaps_answers (Nat.lt_0_succ 3)).
Defined.

(** Four pages: one call in the pre-pass and four in the fetch. *)
Lemma page_lists_asked_again_witness :
  let job := mkJob 7 "Title" one_chapter in
  let s' := snd (archive_body gaps_service 5 job (start None [])) in
  answers gaps_service gaps_pages (chapters job) /\
  0 < List.length (all_pages gaps_pages (chapters job)) /\
  preqs s' = ["h1"; "h1"; "h1"; "h1"; "h1"]%string /\
  List.length (refetches gaps_pages (chapters job)) = 4.
Proof.
  intros job s'.
  split; [exact gaps_answers|]. split; [vm_compute; lia|].
  exact (page_lists_asked_again gaps_service gaps_pages 5 job (start None [])
           gaps_answers (Nat.lt_0_succ 3)).
Defined.

(** Two pages, none with a key. *)
Lemma keyless_job_aborts_witness :
  let job := mkJob 7 "Title" one_chapter in
  let run := archive_worker keyless_service 5 job (start None []) in
  answers keyless_service keyless_pages (chapters job) /\
  0 < List.length (all_pages keyless_pages (chapters job)) /\
  keyed_pages keyless_pages (chapters job) = [] /\
  fst run = Ok tt /\
  (exists tr,
     trace (snd run) = tr ++
       [EditMessage (StatusText "Could not download any images. Aborting.");
        SendMessage "No pages could be downloaded for this chapter/manga. Please try again or /start a new search."]) /\
  imgs (snd run) = [] /\
  docs (snd run) = [] /\
  scratch (snd run) = None.
Proof.
  intros job run.
  split; [exact keyless_answers|]. split; [vm_compute; lia|]. split; [reflexivity|].
  exact (keyless_job_aborts keyless_service keyless_pages 5 job (start None [])
           keyless_answers (Nat.lt_0_succ 1) eq_refl).
Defined.

(** A job for [Pokémon] among an older archive of the title, an archive of
    the title spelled without its accent, an archive of another title and a
    text file. *)
Lemma working_directory_after_job_witness :
  let w := service small_pages None in
  let job := mkJob 7 "Pokémon" one_chapter in
  let s := start None ["notes.txt"; "Pokémon_old.cbz"; "Pokmon_old.cbz"; "Other.cbz";
                       "Pokémon.txt"] in
  let run := archive_worker w 5 job s in
  fst run <> OutOfFuel /\
  docs (snd run) = [("Pokémon_Part_1.cbz",
                     [("0001.jpg", 1000); ("0002.jpg", 2000); ("0003.jpg", 3000)]%Z)] /\
  cwd (snd run) = ["notes.txt"; "Pokmon_old.cbz"; "Other.cbz"; "Pokémon.txt"].
Proof.
  intros w job s run.
  assert (Hr : fst run <> OutOfFuel) by (vm_compute; discriminate).
  split; [exact Hr|]. split; [vm_compute; reflexivity|].
  etransitivity;
    [exact (working_directory_after_job w 5 job s (fst run) (snd run)
              (surjective_pairing run) Hr)|].
  vm_compute. reflexivity.
Defined.

(** A title of punctuation only. *)
Lemma empty_title_removes_every_archive_witness :
  let w := service small_pages None in
  let job := mkJob 7 "?! ¿" one_chapter in
  let s := start None ["notes.txt"; "Other.cbz"; "backup.zip"] in
  let run := archive_worker w 5 job s in
  forallb (fun c => negb (isalnum c || String.eqb c "_")) (chars (archive_title job))
    = true /\
  fst run <> OutOfFuel /\
  cwd (snd run) = ["notes.txt"] /\
  safe_title (archive_title job) = ""%string /\
  forall f, In f (cwd (snd run)) -> endswith f ".cbz" = false /\ endswith f ".zip" = false.
Proof.
  intros w job s run.
  assert (Ha : forallb (fun c => negb (isalnum c || String.eqb c "_"))
                 (chars (archive_title job)) = true) by (vm_compute; reflexivity).
  assert (Hr : fst run <> OutOfFuel) by (vm_compute; discriminate).
  split; [exact Ha|]. split; [exact Hr|]. split; [vm_compute; reflexivity|].
  exact (empty_title_removes_every_archive w 5 job s (fst run) (snd run)
           Ha (surjective_pairing run) Hr).
Defined.

(** Three small pages: the job ends with the notice for one part. *)
Lemma try_block_endings_witness :
  let w := service small_pages None in
  let job := mkJob 7 "Title" one_chapter in
  let s : State Z := start None [] in
  let run := archive_body w 5 job s in
  fst run = Ok tt /\
  List.length (docs (snd run)) = 1 /\
  ((exists tr,
     trace (snd run) = tr ++
       [EditMessage (StatusText "Could not get page counts. Aborting.");
        SendMessage "Error retrieving page information. Please try again or /start a new search."] /\
     docs (snd run) = docs s /\ imgs (snd run) = imgs s) \/
  (exists tr,
     trace (snd run) = tr ++
       [EditMessage (StatusText "Could not download any images. Aborting.");
        SendMessage "No pages could be downloaded for this chapter/manga. Please try again or /start a new search."] /\
     docs (snd run) = docs s) \/
  (exists tr new,
     trace (snd run) = tr ++
       [SendMessage
          ("Your download of '" ++ archive_title job ++ "' is complete!" ++
           (if ((2 <=? List.length new)%nat ||
                (negb (is_single_chapter_download (archive_title job))
                 && (List.length new =? 1)%nat))%bool
            then " (" ++ str_nat (List.length new) ++ " parts sent)." else "") ++
           nl ++ nl ++ "To search for another manga, please click /start.")%string;
        DeleteMessage] /\
     docs (snd run) = docs s ++ new /\ new <> [])).
Proof.
  intros w job s run.
  assert (Hr : fst run = Ok tt) by (vm_compute; reflexivity).
  split; [exact Hr|]. split; [vm_compute; reflexivity|].
  exact (try_block_endings w 5 job s Hr).
Defined.

(** The three large pages: the parts are the entries 0 to 2 and the entries
    1 to 2 of the list. *)
Lemma parts_are_runs_that_cover_witness :
  let w := service three_pages None in
  let fs := [("./temp_7/0001.jpg", 30 * MiB); ("./temp_7/0002.jpg", 10 * MiB);
             ("./temp_7/0003.jpg", 10 * MiB)]%Z in
  let entries := [("0001.jpg", 30 * MiB); ("0002.jpg", 10 * MiB);
                  ("0003.jpg", 10 * MiB)]%Z in
  let s := mkState 7 (Some fs) [] [] in
  let new := [("Title_Part_1.cbz", segment entries 0 3);
              ("Title_Part_2.cbz", segment entries 1 3)] in
  scratch s = Some fs /\
  Forall2 (reads_as fs) (map fst fs) entries /\
  docs (snd (pack_parts w 5 "Title" false (map fst fs) 1 0 s)) = docs s ++ new /\
  (forall part, In part new ->
     exists a b, a < b <= List.length entries /\ snd part = segment entries a b) /\
  ((exists n, fst (pack_parts w 5 "Title" false (map fst fs) 1 0 s) = Ok n) ->
   forall e, In e entries -> exists part, In part new /\ In e (snd part)).
Proof.
  intros w fs entries s new.
  assert (Hall : Forall2 (reads_as fs) (map fst fs) entries)
    by (repeat constructor).
  assert (Hnew : docs (snd (pack_parts w 5 "Title" false (map fst fs) 1 0 s))
                 = docs s ++ new) by (vm_compute; reflexivity).
  split; [reflexivity|]. split; [exact Hall|]. split; [exact Hnew|].
  exact (parts_are_runs_that_cover w fs "Title" false (map fst fs) entries 5 s new
           eq_refl Hall Hnew).
Defined.

(** Three pages, the image of the second not served: one image stored, the
    second asked for, the third never asked for. *)
Lemma failed_download_ends_job_witness :
  let job := mkJob 7 "Title" one_chapter in
  let run := archive_worker lost_service 5 job (start None []) in
  (chapters job = [] ++ mkChapter "h1" "1" :: [] /\
   listed lost_service lost_pages (chapters job) /\
   lost_pages "h1" = [mkPage (Some "a")] ++ mkPage (Some "b") :: [mkPage (Some "c")] /\
   (forall t, download_image lost_service t (image_url (mkPage (Some "b")))
              = inl "Failed to download image: 404 Client Error"%string)) /\
  fst run = Ok tt /\
  (exists tr,
     trace (snd run) = tr ++
       [EditMessage (StatusText "An unexpected error occurred: Failed to download image: 404 Client Error");
        SendMessage "Please try again or /start a new search."]) /\
  imgs (snd run) = ["https://meo.comick.pictures/a"; "https://meo.comick.pictures/b"] /\
  docs (snd run) = [] /\
  scratch (snd run) = None.
Proof.
  intros job run.
  assert (Hl : listed lost_service lost_pages (chapters job))
    by (intros c [<-|[]] t; reflexivity).
  assert (Hf : forall t, download_image lost_service t (image_url (mkPage (Some "b")))
                         = inl "Failed to download image: 404 Client Error"%string)
    by (intros t; reflexivity).
  split; [split; [reflexivity | split; [exact Hl | split; [reflexivity | exact Hf]]]|].
  refine (failed_download_ends_job lost_service lost_pages 5 job (start None [])
            [] [] (mkChapter "h1" "1") [mkPage (Some "a")] [mkPage (Some "c")]
            (mkPage (Some "b")) "Failed to download image: 404 Client Error"
            eq_refl Hl _ eq_refl _ eq_refl Hf).
  - intros c [].
  - intros t q [<-|[]] _. eexists. reflexivity.
Defined.

End WorkerExtProofs.

(* ===================================================================== *)
(** * Properties of the keyboards and of the callback handlers *)
(* ===================================================================== *)

Module HandlersProofs.
Import PyStr PyStrFacts PyStrExt PyStrExtProofs PyList Worker Handlers.

(** ** Slices *)

Lemma slice_nat {A} (l : list A) (a k : nat) :
  slice l (Z.of_nat a) (Z.of_nat a + Z.of_nat k) = firstn k (skipn a l).
Proof.
  unfold slice, bound.
  destruct (Z.ltb_spec (Z.of_nat a) 0); [lia|].
  destruct (Z.ltb_spec (Z.of_nat a + Z.of_nat k) 0); [lia|].
  destruct (Nat.le_gt_cases (List.length l) a) as [Hge | Hlt].
  - rewrite !skipn_all2 by lia. now rewrite !firstn_nil.
  - rewrite (Z.min_l (Z.of_nat a)) by lia. rewrite Nat2Z.id.
    destruct (Nat.le_gt_cases (a + k) (List.length l)) as [Hin | Hout].
    + rewrite Z.min_l by lia. f_equal. lia.
    + rewrite Z.min_r by lia.
      rewrite !firstn_all2; [reflexivity | | ]; rewrite length_skipn; lia.
Qed.

Lemma chunks_concat {A} (n : nat) : forall (k : nat) (l : list A),
  List.length l <= n * k ->
  List.concat (map (fun p => firstn n (skipn (n * p) l)) (seq 0 k)) = l.
Proof.
  induction k as [|k IH]; intros l Hlen.
  - destruct l; [reflexivity | cbn in Hlen; lia].
  - cbn [seq map List.concat]. rewrite Nat.mul_0_r. cbn [skipn].
    rewrite <- seq_shift, map_map.
    transitivity (firstn n l ++ skipn n l); [|apply firstn_skipn]. f_equal.
    etransitivity; [|apply (IH (skipn n l)); rewrite length_skipn; lia].
    f_equal. apply map_ext. intros p.
    rewrite skipn_skipn. do 2 f_equal. lia.
Qed.

(** ** The shape of the chapter keyboard *)

Lemma chapter_rows_keyboard (l : list Listed) (page : Z) :
  chapter_rows (build_chapter_keyboard l page)
  = map (fun c => [chapter_button c])
        (slice l (page * CHAPTERS_PER_PAGE) (page * CHAPTERS_PER_PAGE + CHAPTERS_PER_PAGE)).
Proof.
  unfold chapter_rows, build_chapter_keyboard. cbv zeta.
  rewrite !length_app. cbn [List.length].
  match goal with |- firstn ?n (?x ++ _) = _ =>
    replace n with (List.length x + 0) by lia; rewrite firstn_app_2 end.
  cbn [firstn]. apply app_nil_r.
Qed.

Lemma nav_row_keyboard (l : list Listed) (page : Z) :
  nav_row (build_chapter_keyboard l page)
  = (if (0 <? page)%Z
     then [mkButton "◀️" ("page_" ++ str_Z (page - 1))] else [])
    ++ [mkButton "📥 Download ALL" "dl_all"]
    ++ (if (page * CHAPTERS_PER_PAGE + CHAPTERS_PER_PAGE <? Z.of_nat (List.length l))%Z
        then [mkButton "▶️" ("page_" ++ str_Z (page + 1))] else []).
Proof.
  unfold nav_row, build_chapter_keyboard. cbv zeta.
  rewrite !length_app. cbn [List.length].
  match goal with |- nth ?n (?x ++ _) _ = _ =>
    replace n with (List.length x) by lia; rewrite app_nth2, Nat.sub_diag by lia end.
  reflexivity.
Qed.

Lemma page_slice (l : list Listed) (p : nat) :
  slice l (Z.of_nat p * CHAPTERS_PER_PAGE)
          (Z.of_nat p * CHAPTERS_PER_PAGE + CHAPTERS_PER_PAGE)
  = firstn 8 (skipn (8 * p) l).
Proof.
  unfold CHAPTERS_PER_PAGE.
  replace (Z.of_nat p * 8)%Z with (Z.of_nat (8 * p)) by lia.
  exact (slice_nat l (8 * p) 8).
Qed.

(** X11. The pages of the chapter keyboard split the chapter list: the
    chapter rows of the pages 0, 1, ..., k-1, one after the other, are the
    rows of all the chapters in the order of the list, each chapter once, as
    soon as 8k reaches the length of the list; page p shows 8 chapters, or
    what is left of the list after 8p; and no label is longer than 40
    characters. *)
Theorem keyboard_pages_split_the_list (l : list Listed) (k : nat) :
  List.length l <= 8 * k ->
  List.concat (map (fun p => chapter_rows (build_chapter_keyboard l (Z.of_nat p)))
                   (seq 0 k))
    = map (fun c => [chapter_button c]) l /\
  (forall p, List.length (chapter_rows (build_chapter_keyboard l (Z.of_nat p)))
             = Nat.min 8 (List.length l - 8 * p)) /\
  (forall p row b, In row (chapter_rows (build_chapter_keyboard l (Z.of_nat p))) ->
     In b row -> len (text b) <= 40).
Proof.
  intros Hlen. split; [|split].
  - transitivity
      (map (fun c => [chapter_button c])
           (List.concat (map (fun p => firstn 8 (skipn (8 * p) l)) (seq 0 k))));
      [|now rewrite (chunks_concat 8 k l Hlen)].
    rewrite concat_map, map_map. f_equal. apply map_ext. intros p.
    rewrite chapter_rows_keyboard, page_slice. reflexivity.
  - intros p. rewrite chapter_rows_keyboard, page_slice, length_map.
    rewrite length_firstn, length_skipn. reflexivity.
  - intros p row b Hrow Hb. rewrite chapter_rows_keyboard in Hrow.
    apply in_map_iff in Hrow as (c & <- & _). destruct Hb as [<-|[]].
    apply len_truncate.
Qed.

(** The pages 0, 1 and 2 of twenty chapters show 8, 8 and 4 of them. *)
Lemma keyboard_pages_split_the_list_witness :
  List.length twenty_chapters <= 8 * 3 /\
  List.concat (map (fun p => chapter_rows (build_chapter_keyboard twenty_chapters (Z.of_nat p)))
                   (seq 0 3))
    = map (fun c => [chapter_button c]) twenty_chapters /\
  (forall p, List.length (chapter_rows (build_chapter_keyboard twenty_chapters (Z.of_nat p)))
             = Nat.min 8 (List.length twenty_chapters - 8 * p)) /\
  (forall p row b,
     In row (chapter_rows (build_chapter_keyboard twenty_chapters (Z.of_nat p))) ->
     In b row -> len (text b) <= 40).
Proof.
  assert (H : List.length twenty_chapters <= 8 * 3) by (vm_compute; lia).
  split; [exact H|].
  exact (keyboard_pages_split_the_list twenty_chapters 3 H).
Defined.


(** ** Splitting at underscores *)

Lemma split_nonempty (sep : ascii) (s : string) : split sep s <> [].
Proof.
  destruct s as [|c s]; cbn [split]; [discriminate|].
  destruct (Ascii.eqb c sep); [discriminate|].
  destruct (split sep s); discriminate.
Qed.

Lemma split_plain (s : string) : all not_underscore s = true -> split "_" s = [s].
Proof.
  induction s as [|c s IH]; [reflexivity|].
  change (all not_underscore (String c s)) with (not_underscore c && all not_underscore s).
  rewrite andb_true_iff. intros [Hc Hs]. cbn [split].
  unfold not_underscore in Hc. apply negb_true_iff in Hc. rewrite Hc, (IH Hs).
  reflexivity.
Qed.

Lemma split_field (pre post : string) :
  all not_underscore pre = true ->
  split "_" (pre ++ String "_" post) = pre :: split "_" post.
Proof.
  induction pre as [|c pre IH].
  - intros _. reflexivity.
  - change (all not_underscore (String c pre))
      with (not_underscore c && all not_underscore pre).
    rewrite andb_true_iff. intros [Hc Hs].
    change (String c pre ++ String "_" post)%string
      with (String c (pre ++ String "_" post)).
    cbn [split]. unfold not_underscore in Hc. apply negb_true_iff in Hc.
    rewrite Hc, (IH Hs). reflexivity.
Qed.

Lemma str_Z_plain (z : Z) : all not_underscore (str_Z z) = true.
Proof.
  assert (Hu : forall d, all not_underscore (DecimalString.NilZero.string_of_uint d) = true).
  { intros d. apply (all_impl isdigit); [exact isdigit_not_underscore|].
    unfold DecimalString.NilZero.string_of_uint.
    destruct d; try reflexivity; apply digits_of_uint. }
  unfold str_Z. destruct (Z.to_int z) as [d|d]; cbn [DecimalString.NilZero.string_of_int].
  - apply Hu.
  - change (not_underscore "-" && all not_underscore
              (DecimalString.NilZero.string_of_uint d) = true).
    rewrite Hu. reflexivity.
Qed.

(** The decimal reading is an [int] for the numbers the bot writes. *)
Lemma int_of_decimal_str_Z (z : Z) : int_of_decimal (str_Z z) = Some z.
Proof.
  unfold int_of_decimal, str_Z.
  rewrite DecimalString.NilZero.isi.
  - now rewrite DecimalZ.of_to.
  - destruct z; cbn; try discriminate.
    intros [= H]. exact (DecimalPos.Unsigned.to_uint_nonnil _ H).
  - destruct z; cbn; try discriminate.
    intros [= H]. exact (DecimalPos.Unsigned.to_uint_nonnil _ H).
Qed.

Lemma second_field (pre x : string) :
  all not_underscore pre = true ->
  nth_error (split "_" (pre ++ String "_" x)) 1 = Some (before_underscore x).
Proof.
  intros Hpre. rewrite (split_field pre x Hpre). cbn [nth_error].
  unfold before_underscore.
  destruct (split "_" x) eqn:E; [exact (False_ind _ (split_nonempty _ _ E))|].
  reflexivity.
Qed.

Lemma last_field (pre x : string) :
  all not_underscore pre = true -> all not_underscore x = true ->
  last (split "_" (pre ++ String "_" x)) "" = x.
Proof.
  intros Hpre Hx. rewrite (split_field pre x Hpre), (split_plain x Hx). reflexivity.
Qed.

(** ** Moving between the pages *)

Section WithInt.
Variable int : string -> option Z.
Hypothesis int_str : forall z, int (str_Z z) = Some z.

Lemma change_to_page (l : list Listed) (page : Z) :
  change_chapter_page int l ("page_" ++ str_Z page)
  = Some (build_chapter_keyboard l page).
Proof.
  unfold change_chapter_page.
  change ("page_" ++ str_Z page)%string with ("page" ++ String "_" (str_Z page))%string.
  rewrite (last_field "page" (str_Z page) eq_refl (str_Z_plain page)), int_str.
  reflexivity.
Qed.

End WithInt.

(** X12. The page buttons never leave the chapters.  On a page that shows
    at least one chapter, every button whose data starts with [page_] leads,
    through [change_chapter_page], to the keyboard of the page before or of
    the page after, and that page shows at least one chapter too; there is
    such a button to the page before unless the page is the first, and to the
    page after whenever that page shows a chapter. *)
Theorem page_buttons_stay_on_chapters (int : string -> option Z)
    (l : list Listed) (page : Z) :
  (forall z, int (str_Z z) = Some z) ->
  shows l page ->
  (forall b, In b (nav_row (build_chapter_keyboard l page)) ->
     startswith (callback_data b) "page_" = true ->
     exists page',
       change_chapter_page int l (callback_data b)
         = Some (build_chapter_keyboard l page') /\
       shows l page' /\ (page' = page - 1 \/ page' = page + 1)%Z) /\
  ((0 < page)%Z ->
   exists b, In b (nav_row (build_chapter_keyboard l page)) /\
     change_chapter_page int l (callback_data b)
       = Some (build_chapter_keyboard l (page - 1))) /\
  (shows l (page + 1) ->
   exists b, In b (nav_row (build_chapter_keyboard l page)) /\
     change_chapter_page int l (callback_data b)
       = Some (build_chapter_keyboard l (page + 1))).
Proof.
  intros Hint [H0 Hlt]. unfold CHAPTERS_PER_PAGE in Hlt.
  rewrite nav_row_keyboard. unfold CHAPTERS_PER_PAGE. split; [|split].
  - intros b Hin Hpre. apply in_app_or in Hin as [Hin | Hin];
      [|apply in_app_or in Hin as [Hin | Hin]].
    + destruct (Z.ltb_spec 0 page) as [Hp|Hp]; [|destruct Hin].
      destruct Hin as [<-|[]]. exists (page - 1)%Z. cbn [callback_data].
      rewrite (change_to_page int Hint). split; [reflexivity|].
      split; [|left; reflexivity]. unfold shows, CHAPTERS_PER_PAGE. lia.
    + destruct Hin as [<-|[]]. discriminate Hpre.
    + destruct (Z.ltb_spec (page * 8 + 8) (Z.of_nat (List.length l))) as [Hn|Hn];
        [|destruct Hin].
      destruct Hin as [<-|[]]. exists (page + 1)%Z. cbn [callback_data].
      rewrite (change_to_page int Hint). split; [reflexivity|].
      split; [|right; reflexivity]. unfold shows, CHAPTERS_PER_PAGE. lia.
  - intros Hp. apply Z.ltb_lt in Hp. rewrite Hp.
    eexists. split; [left; reflexivity|]. apply (change_to_page int Hint).
  - intros [_ Hs]. unfold CHAPTERS_PER_PAGE in Hs.
    assert (Hn : (page * 8 + 8 <? Z.of_nat (List.length l))%Z = true)
      by (apply Z.ltb_lt; lia).
    rewrite Hn. eexists. split.
    + apply in_or_app. right. apply in_or_app. right. left. reflexivity.
    + apply (change_to_page int Hint).
Qed.

(** The second of the three pages of twenty chapters. *)
Lemma page_buttons_stay_on_chapters_witness :
  (forall z, int_of_decimal (str_Z z) = Some z) /\
  shows twenty_chapters 1 /\
  (forall b, In b (nav_row (build_chapter_keyboard twenty_chapters 1)) ->
     startswith (callback_data b) "page_" = true ->
     exists page',
       change_chapter_page int_of_decimal twenty_chapters (callback_data b)
         = Some (build_chapter_keyboard twenty_chapters page') /\
       shows twenty_chapters page' /\ (page' = 1 - 1 \/ page' = 1 + 1)%Z) /\
  ((0 < 1)%Z ->
   exists b, In b (nav_row (build_chapter_keyboard twenty_chapters 1)) /\
     change_chapter_page int_of_decimal twenty_chapters (callback_data b)
       = Some (build_chapter_keyboard twenty_chapters (1 - 1))) /\
  (shows twenty_chapters (1 + 1) ->
   exists b, In b (nav_row (build_chapter_keyboard twenty_chapters 1)) /\
     change_chapter_page int_of_decimal twenty_chapters (callback_data b)
       = Some (build_chapter_keyboard twenty_chapters (1 + 1))).
Proof.
  assert (Hs : shows twenty_chapters 1) by (vm_compute; split; [discriminate | reflexivity]).
  split; [exact int_of_decimal_str_Z|]. split; [exact Hs|].
  exact (page_buttons_stay_on_chapters int_of_decimal twenty_chapters 1
           int_of_decimal_str_Z Hs).
Defined.

(** ** The chapter buttons *)

Lemma callback_of_button (h : string) :
  callback ("dl_" ++ h)
  = if String.eqb h "all" then Some dl_all else Some (dl_chapter (before_underscore h)).
Proof.
  unfold callback.
  change (String.eqb ("dl_" ++ h) "dl_all") with (String.eqb h "all").
  destruct (String.eqb h "all"); [reflexivity|].
  change ("dl_" ++ h)%string with ("dl" ++ String "_" h)%string.
  rewrite (second_field "dl" h eq_refl). reflexivity.
Qed.

Lemma before_underscore_plain (h : string) :
  all not_underscore h = true -> before_underscore h = h.
Proof.
  intros H. unfold before_underscore. rewrite (split_plain h H). reflexivity.
Qed.

Lemma find_by_handle (l : list Chapter) (c : Chapter) :
  In c l -> NoDup (map hid l) ->
  find (fun ch => String.eqb (hid ch) (hid c)) l = Some c.
Proof.
  induction l as [|x l IH]; intros Hin Hnd; [destruct Hin|].
  cbn [map] in Hnd. apply NoDup_cons_iff in Hnd as [Hx Hnd]. cbn [find].
  destruct Hin as [-> | Hin].
  - rewrite String.eqb_refl. reflexivity.
  - destruct (String.eqb (hid x) (hid c)) eqn:E; [|exact (IH Hin Hnd)].
    apply String.eqb_eq in E. exfalso. apply Hx. rewrite E.
    apply in_map. exact Hin.
Qed.

(** X13. [download_action] reads the handle of a chapter button up to its
    first underscore: the data of the button of a chapter is decoded to the
    download of everything when the handle is [all], and otherwise to the
    download of the chapter whose handle is what comes before the first
    underscore of the button's handle (the handle itself when it holds
    none). *)
Theorem chapter_button_handle_is_cut (c : Listed) :
  callback (callback_data (chapter_button c))
    = (if String.eqb (hid (chapter c)) "all" then Some dl_all
       else Some (dl_chapter (before_underscore (hid (chapter c))))) /\
  (forall pre post, all not_underscore pre = true ->
     before_underscore (pre ++ "_" ++ post) = pre) /\
  (forall h, all not_underscore h = true -> before_underscore h = h).
Proof.
  split; [apply callback_of_button|]. split.
  - intros pre post Hpre. unfold before_underscore.
    change ("_" ++ post)%string with (String "_" post).
    rewrite (split_field pre post Hpre). reflexivity.
  - exact before_underscore_plain.
Qed.

(** X14. The button of a chapter downloads that chapter: when the handles
    of the list are distinct and the chapter's handle holds no underscore
    and is not [all], [download_action] on the data of the chapter's button
    queues the job of that one chapter, titled with the manga's title,
    [_Ch_] and the chapter's number. *)
Theorem chapter_button_downloads_its_chapter (chat : Z) (manga_title : string)
    (l : list Listed) (c : Listed) :
  In c l ->
  NoDup (map (fun x => hid (chapter x)) l) ->
  all not_underscore (hid (chapter c)) = true ->
  hid (chapter c) <> "all"%string ->
  download_button chat manga_title l (callback_data (chapter_button c))
    = Some (mkJob chat (manga_title ++ "_Ch_" ++ chap (chapter c)) [chapter c]).
Proof.
  intros Hin Hnd Hplain Hall.
  unfold download_button. cbn [chapter_button callback_data].
  rewrite callback_of_button.
  destruct (String.eqb (hid (chapter c)) "all") eqn:E;
    [apply String.eqb_eq in E; contradiction|].
  rewrite (before_underscore_plain _ Hplain). cbn [download_action].
  rewrite (find_by_handle (map chapter l) (chapter c)).
  - reflexivity.
  - apply in_map. exact Hin.
  - rewrite map_map. exact Hnd.
Qed.

(** The seventh of twenty chapters. *)
Lemma chapter_button_downloads_its_chapter_witness :
  let c := mkListed (mkChapter "h7" "7") None in
  In c twenty_chapters /\
  NoDup (map (fun x => hid (chapter x)) twenty_chapters) /\
  all not_underscore (hid (chapter c)) = true /\
  hid (chapter c) <> "all"%string /\
  download_button 7 "Title" twenty_chapters "dl_h7"
    = Some (mkJob 7 "Title_Ch_7" [mkChapter "h7" "7"]).
Proof.
  intros c.
  assert (Hin : In c twenty_chapters) by (vm_compute; tauto).
  assert (Hnd : NoDup (map (fun x => hid (chapter x)) twenty_chapters)).
  { vm_compute. repeat (constructor; [cbn; intuition discriminate|]). constructor. }
  assert (Hne : hid (chapter c) <> "all"%string) by discriminate.
  split; [exact Hin|]. split; [exact Hnd|]. split; [reflexivity|]. split; [exact Hne|].
  exact (chapter_button_downloads_its_chapter 7 "Title" twenty_chapters c
           Hin Hnd eq_refl Hne).
Defined.

(** ** The buttons of the search results *)

Lemma nth_enumerate_results (results : list string) : forall (i : nat) (j : Z) (m : string),
  nth_error results i = Some m ->
  nth_error (enumerate_results j results) i
  = Some [mkButton (str_Z (j + Z.of_nat i + 1) ++ ". " ++ m)
                   ("manga_" ++ str_Z (j + Z.of_nat i))].
Proof.
  induction results as [|x results IH]; intros [|i] j m H; try discriminate.
  - cbn in H. injection H as ->. cbn [enumerate_results nth_error].
    rewrite Z.add_0_r. reflexivity.
  - cbn [nth_error] in H. cbn [enumerate_results nth_error].
    rewrite (IH i (j + 1)%Z m H). do 4 f_equal; f_equal; lia.
Qed.

Lemma getitem_nat {A} (l : list A) (i : nat) :
  getitem l (Z.of_nat i) = nth_error l i.
Proof.
  unfold getitem. destruct (Z.ltb_spec (Z.of_nat i) 0); [lia|].
  now rewrite Nat2Z.id.
Qed.

(** X15. The button of a search result selects that result: the data of
    the i-th button of the keyboard of the results, read as [select_manga] reads it,
    gives the i-th result. *)
Theorem search_button_selects_its_result (int : string -> option Z) {Manga : Type}
    (manga_title : Manga -> string) (results : list Manga) (i : nat) (m : Manga) :
  (forall z, int (str_Z z) = Some z) ->
  nth_error results i = Some m ->
  exists b,
    nth_error (search_keyboard (map manga_title results)) i = Some [b] /\
    text b = (str_Z (Z.of_nat i + 1) ++ ". " ++ manga_title m)%string /\
    selected_manga int results (callback_data b) = Some m.
Proof.
  intros Hint Hnth. eexists. split; [|split].
  - unfold search_keyboard.
    apply (nth_enumerate_results (map manga_title results) i 0 (manga_title m)).
    rewrite nth_error_map, Hnth. reflexivity.
  - reflexivity.
  - cbn [callback_data]. unfold selected_manga.
    change ("manga_" ++ str_Z (0 + Z.of_nat i))%string
      with ("manga" ++ String "_" (str_Z (0 + Z.of_nat i)))%string.
    rewrite (second_field "manga" _ eq_refl).
    rewrite (before_underscore_plain _ (str_Z_plain _)), Hint.
    cbn [Z.add]. rewrite getitem_nat. exact Hnth.
Qed.

(** The second of three results. *)
Lemma search_button_selects_its_result_witness :
  (forall z, int_of_decimal (str_Z z) = Some z) /\
  nth_error ["Alpha"; "Beta"; "Gamma"]%string 1 = Some "Beta"%string /\
  exists b,
    nth_error (search_keyboard (map (fun t => t) ["Alpha"; "Beta"; "Gamma"]%string)) 1
      = Some [b] /\
    text b = "2. Beta"%string /\
    selected_manga int_of_decimal ["Alpha"; "Beta"; "Gamma"]%string (callback_data b)
      = Some "Beta"%string.
Proof.
  split; [exact int_of_decimal_str_Z|]. split; [reflexivity|].
  exact (search_button_selects_its_result int_of_decimal (fun t => t)
           ["Alpha"; "Beta"; "Gamma"]%string 1 "Beta"%string
           int_of_decimal_str_Z eq_refl).
Defined.

End HandlersProofs.

(* ===================================================================== *)
(** * Properties of the desktop viewer *)
(* ===================================================================== *)

Module ReaderProofs.
Import PyStr PyStrExt PyList Worker Reader.

Lemma getitem_in_range {A} (l : list A) (i : Z) :
  (0 <= i < Z.of_nat (List.length l))%Z -> exists x, getitem l i = Some x.
Proof.
  intros H. unfold getitem. destruct (Z.ltb_spec i 0); [lia|].
  destruct (nth_error l (Z.to_nat i)) eqn:E; [eauto|].
  apply nth_error_None in E. lia.
Qed.

Lemma save_progress_on_a_page (v : View) :
  on_a_page v -> exists v', save_progress v = Some v' /\ on_a_page v'.
Proof.
  unfold on_a_page, save_progress. destruct (current_chapter_pages v) as [|p ps] eqn:E.
  - intros H. eexists. split; [reflexivity|]. cbn. rewrite ?E. exact H.
  - intros [Hr Hl].
    destruct (getitem_in_range (p :: ps) _ Hr) as [x Hx].
    rewrite ?E, Hx.
    eexists. split; [reflexivity|]. cbn. rewrite ?E. auto.
Qed.

Lemma load_page_on_a_page (v : View) (i : Z) :
  on_a_page v -> exists v', load_page v i = Some v' /\ on_a_page v'.
Proof.
  intros Hv. unfold load_page.
  destruct (current_chapter_pages v) as [|p ps] eqn:E.
  - cbn [orb]. eauto.
  - cbn [orb]. rewrite <- E.
    destruct (Z.ltb_spec i 0); [cbn [orb]; eauto|].
    destruct (Z.leb_spec (Z.of_nat (List.length (current_chapter_pages v))) i);
      [cbn [orb]; eauto|].
    cbn [orb].
    destruct (getitem_in_range (current_chapter_pages v) i) as [x ->]; [lia|].
    apply save_progress_on_a_page. unfold on_a_page. cbn. rewrite E.
    rewrite E in *. split; [lia | reflexivity].
Qed.

Lemma step_on_a_page (v : View) (a : Action) :
  on_a_page v -> exists v', step v a = Some v' /\ on_a_page v'.
Proof.
  intros Hv. destruct a as [pages| | |]; cbn [step].
  - unfold display_chapter. destruct pages as [|p ps].
    + eexists. split; [reflexivity|]. reflexivity.
    + unfold load_page. cbn.
      eexists. split; [reflexivity|]. unfold on_a_page. cbn.
      split; [lia | reflexivity].
  - unfold prev_page. destruct (0 <? current_page_index v)%Z;
      [apply load_page_on_a_page; exact Hv | eauto].
  - unfold next_page.
    destruct (current_page_index v <?
              Z.of_nat (List.length (current_chapter_pages v)) - 1)%Z;
      [apply load_page_on_a_page; exact Hv | eauto].
  - apply save_progress_on_a_page. exact Hv.
Qed.

(** X16. The reader stays on a page.  Whatever chapters are displayed and
    whatever keys are pressed, from the start of the program on, no step
    raises, and the view is on a page of its chapter: the index is 0 when the
    chapter has no page, and otherwise it is the index of a page of the
    chapter and the label reads [Page index+1 of n]; so the page that
    [save_progress] reads always exists. *)
Theorem reader_stays_on_a_page (actions : list Action) :
  exists v,
    run init actions = Some v /\
    on_a_page v /\
    (current_chapter_pages v <> [] ->
     exists page, getitem (current_chapter_pages v) (current_page_index v) = Some page) /\
    exists v', save_progress v = Some v'.
Proof.
  assert (H : forall v, on_a_page v ->
            exists v', run v actions = Some v' /\ on_a_page v').
  { induction actions as [|a rest IH]; intros v Hv; cbn [run]; [eauto|].
    destruct (step_on_a_page v a Hv) as (v1 & -> & Hv1). exact (IH v1 Hv1). }
  destruct (H init eq_refl) as (v & Hrun & Hv).
  exists v. split; [exact Hrun|]. split; [exact Hv|]. split.
  - intros Hne. unfold on_a_page in Hv.
    destruct (current_chapter_pages v) as [|p ps] eqn:E; [contradiction|].
    apply getitem_in_range. tauto.
  - destruct (save_progress_on_a_page v Hv) as (v' & Hs & _). eauto.
Qed.

(** ** The download to a file *)

Section Download.
Context {Image Picture : Type}.
Variable w : World Image.
Variable open_rgb : Image -> option Picture.
Variable pages_of : string -> list Page.
Variable image_of : Page -> Image.

Lemma download_pages_held (pages : list Page) :
  (forall t p, In p pages -> no_key p = false ->
     download_image w t (image_url p) = inr (image_of p)) ->
  forall image_list t,
    fst (download_pages w open_rgb pages image_list t)
    = inr (image_list ++ page_pictures open_rgb image_of pages).
Proof.
  unfold page_pictures. induction pages as [|p rest IH]; intros Hdl image_list t.
  - cbn. now rewrite app_nil_r.
  - cbn [download_pages List.filter].
    assert (Hrest : forall t q, In q rest -> no_key q = false ->
              download_image w t (image_url q) = inr (image_of q))
      by (intros t' q Hq; apply Hdl; right; exact Hq).
    destruct (no_key p) eqn:Hk; cbn [negb].
    + apply IH. exact Hrest.
    + rewrite (Hdl t p (or_introl eq_refl) Hk). cbn [flat_map].
      destruct (open_rgb (image_of p)) as [x|].
      * rewrite (IH Hrest). now rewrite <- app_assoc.
      * rewrite (IH Hrest). reflexivity.
Qed.

Lemma download_chapters_held (chs : list Chapter) :
  holds w pages_of image_of chs ->
  forall image_list t,
    fst (download_chapters w open_rgb chs image_list t)
    = inr (image_list ++ pictures open_rgb pages_of image_of chs).
Proof.
  unfold pictures, page_pictures.
  induction chs as [|c rest IH]; intros Hh image_list t.
  - cbn. now rewrite app_nil_r.
  - cbn [download_chapters List.filter].
    assert (Hrest : holds w pages_of image_of rest)
      by (intros c' Hc'; apply Hh; right; exact Hc').
    destruct (String.eqb (hid c) "") eqn:Eh; cbn [negb].
    + apply IH. exact Hrest.
    + destruct (Hh c (or_introl eq_refl) Eh) as (Hget & Hdl).
      rewrite Hget. cbn [flat_map].
      pose proof (download_pages_held (pages_of (hid c)) (fun t p => Hdl t p)
                    image_list (S t)) as Hp.
      destruct (download_pages w open_rgb (pages_of (hid c)) image_list (S t))
        as [r t'].
      cbn [fst] in Hp. unfold page_pictures in Hp. subst r.
      rewrite (IH Hrest). rewrite filter_app, flat_map_app, <- app_assoc.
      reflexivity.
Qed.

End Download.

(** X17. What the download to a file saves.  When the service holds the
    chapters, the thread saves one file with the pictures of the pages that
    have a key and an image that opens, in the order of the chapters and of
    their pages (chapters without a handle are passed over); when no page
    gives a picture it saves no file.  In both cases it reports the file as
    saved. *)
Theorem download_thread_saves_what_opens {Image Picture : Type} (w : World Image)
    (open_rgb : Image -> option Picture) (pages_of : string -> list Page)
    (image_of : Page -> Image) (pdf_filename : string) (chs : list Chapter) (t : nat) :
  holds w pages_of image_of chs ->
  download_thread w open_rgb pdf_filename chs t
  = Done (match pictures open_rgb pages_of image_of chs with
          | [] => None
          | _ :: _ => Some (pdf_filename, pictures open_rgb pages_of image_of chs)
          end)
         [StatusSet ("Downloaded as " ++ pdf_filename);
          ShowInfo "Download Complete" ("Saved as " ++ pdf_filename)].
Proof.
  intros Hh. unfold download_thread.
  rewrite (download_chapters_held w open_rgb pages_of image_of chs Hh [] t).
  reflexivity.
Qed.

(** Four pages, the second and the fourth without a key, and the image of
    the third does not open: the file holds the picture of the first page,
    and is reported as saved. *)
Lemma download_thread_saves_what_opens_witness :
  let open_rgb := fun z : Z => if (z =? 3000)%Z then None else Some z in
  let image_of := fun p : Page =>
    match b2key p with
    | Some k => if String.eqb k "a" then 1000%Z else 3000%Z
    | None => 0%Z
    end in
  holds WorkerExt.gaps_service WorkerExt.gaps_pages image_of one_chapter /\
  pictures open_rgb WorkerExt.gaps_pages image_of one_chapter = [1000%Z] /\
  download_thread WorkerExt.gaps_service open_rgb
    "/Users/user/Desktop/Manga/Title.pdf" one_chapter 0
  = Done (Some ("/Users/user/Desktop/Manga/Title.pdf", [1000%Z]))
         [StatusSet "Downloaded as /Users/user/Desktop/Manga/Title.pdf";
          ShowInfo "Download Complete" "Saved as /Users/user/Desktop/Manga/Title.pdf"].
Proof.
  intros open_rgb image_of.
  assert (Hh : holds WorkerExt.gaps_service WorkerExt.gaps_pages image_of one_chapter).
  { intros c [<-|[]] _. split; [intros t; reflexivity|].
    intros t p Hin Hk. cbn in Hin.
    destruct Hin as [<-|[<-|[<-|[<-|[]]]]]; try discriminate Hk; reflexivity. }
  split; [exact Hh|]. split; [reflexivity|].
  exact (download_thread_saves_what_opens WorkerExt.gaps_service open_rgb
           WorkerExt.gaps_pages image_of
           "/Users/user/Desktop/Manga/Title.pdf" one_chapter 0 Hh).
Defined.

End ReaderProofs.
